(** * Resume assistant: heuristic suggestion engine and AI gateway

    A shallow embedding of the suggestion engine of
    [src/app/editor/components/AISuggestionsPanel.tsx] and of the two route
    handlers that forward a resume to the generative model (the improve
    route and the analyze route), together with the properties of them that
    the specification states.

    Texts are sequences of code units.  The development covers the code
    units 0..255 (Latin-1), which [string] represents one [ascii] per code
    unit; on that range [length], [toLowerCase], [trim], the class [\s] and
    the comparison of the [i] flag are the ones of ECMAScript.  The bullet
    U+2022 of the skills check lies outside the range. *)

From Stdlib Require Import String Ascii List Bool Arith ZArith QArith Lia.
From Stdlib Require Import DecimalString DecimalN.
Import ListNotations.
Local Open Scope string_scope.
Local Open Scope nat_scope.

(** ** The string primitives of the platform *)

Module JS.

(** [WhiteSpace] and [LineTerminator] of ECMAScript below U+0100: TAB, LF,
    VT, FF, CR, SP and NBSP.  This is the class [\s] and what [trim]
    removes. *)
Definition isWhiteSpace (c : ascii) : bool :=
  let n := nat_of_ascii c in
  ((9 <=? n) && (n <=? 13)) || (n =? 32) || (n =? 160).

(** The class [\d]. *)
Definition isDigit (c : ascii) : bool :=
  let n := nat_of_ascii c in (48 <=? n) && (n <=? 57).

(** Lower-case mapping of one code unit: A-Z, and U+00C0..U+00DE without
    the multiplication sign U+00D7. *)
Definition toLowerChar (c : ascii) : ascii :=
  let n := nat_of_ascii c in
  if ((65 <=? n) && (n <=? 90))
     || ((192 <=? n) && (n <=? 222) && negb (n =? 215))
  then ascii_of_nat (n + 32) else c.

(** [String.prototype.toLowerCase]. *)
Fixpoint toLowerCase (s : string) : string :=
  match s with
  | EmptyString => EmptyString
  | String c s' => String (toLowerChar c) (toLowerCase s')
  end.

(** [String.prototype.startsWith]. *)
Definition startsWith (s p : string) : bool := String.prefix p s.

(** [String.prototype.includes]: [p] occurs in [s] at some position. *)
Fixpoint includes (s p : string) : bool :=
  String.prefix p s
  || match s with
     | EmptyString => false
     | String _ s' => includes s' p
     end.

(** [s.split(/\s+/)]: the pieces between the maximal runs of white space.
    A text that starts (ends) with white space has an empty first (last)
    piece, and the empty text has the single piece [""].  [inrun] tells
    that the previous code unit was white space. *)
Fixpoint split_ws_from (inrun : bool) (s : string) : list string :=
  match s with
  | EmptyString => [EmptyString]
  | String c s' =>
      if isWhiteSpace c then
        if inrun then split_ws_from true s'
        else EmptyString :: split_ws_from true s'
      else
        match split_ws_from false s' with
        | p :: ps => String c p :: ps
        | [] => [String c EmptyString]
        end
  end.

Definition split_ws (s : string) : list string := split_ws_from false s.

(** [Array.prototype.join]. *)
Definition join (sep : string) (l : list string) : string :=
  String.concat sep l.

(** [trimStart], [trimEnd] and [trim]. *)
Fixpoint trimStart (s : string) : string :=
  match s with
  | EmptyString => EmptyString
  | String c s' => if isWhiteSpace c then trimStart s' else s
  end.

Fixpoint trimEnd (s : string) : string :=
  match s with
  | EmptyString => EmptyString
  | String c s' =>
      match trimEnd s' with
      | EmptyString => if isWhiteSpace c then EmptyString
                       else String c EmptyString
      | t => String c t
      end
  end.

Definition trim (s : string) : string := trimEnd (trimStart s).

(** [s.replace(/pat/g, '')] for a literal, non-empty pattern [pat]: every
    occurrence is removed, scanning from the left, occurrences not overlapping.
    [skip] counts the code units of the current occurrence still to be
    dropped. *)
Fixpoint removeAll_from (skip : nat) (pat s : string) : string :=
  match s with
  | EmptyString => EmptyString
  | String c s' =>
      match skip with
      | S k => removeAll_from k pat s'
      | O =>
          if String.prefix pat s
          then removeAll_from (String.length pat - 1) pat s'
          else String c (removeAll_from 0 pat s')
      end
  end.

Definition removeAll (pat s : string) : string := removeAll_from 0 pat s.

(** *** Regular expressions

    The regular expressions of the source use literals, the class [\d],
    [+], [*] and alternation.  [test] decides whether some substring
    matches, by Brzozowski derivatives. *)

Inductive regex : Type :=
| Never
| Empty
| Class (p : ascii -> bool)
| Seq (r1 r2 : regex)
| Alt (r1 r2 : regex)
| Star (r : regex).

Definition Plus (r : regex) : regex := Seq r (Star r).

Fixpoint nullable (r : regex) : bool :=
  match r with
  | Never => false
  | Empty => true
  | Class _ => false
  | Seq r1 r2 => nullable r1 && nullable r2
  | Alt r1 r2 => nullable r1 || nullable r2
  | Star _ => true
  end.

Fixpoint deriv (c : ascii) (r : regex) : regex :=
  match r with
  | Never => Never
  | Empty => Never
  | Class p => if p c then Empty else Never
  | Seq r1 r2 =>
      if nullable r1 then Alt (Seq (deriv c r1) r2) (deriv c r2)
      else Seq (deriv c r1) r2
  | Alt r1 r2 => Alt (deriv c r1) (deriv c r2)
  | Star r1 => Seq (deriv c r1) (Star r1)
  end.

(** Some prefix of [s] matches [r]. *)
Fixpoint matchesPrefix (r : regex) (s : string) : bool :=
  nullable r
  || match s with
     | EmptyString => false
     | String c s' => matchesPrefix (deriv c r) s'
     end.

(** [RegExp.prototype.test] on a fresh regular expression object: some
    substring of [s] matches [r]. *)
Fixpoint test (r : regex) (s : string) : bool :=
  matchesPrefix r s
  || match s with
     | EmptyString => false
     | String _ s' => test r s'
     end.

(** The texts a regular expression matches as a whole. *)
Inductive matches : regex -> string -> Prop :=
| MEmpty : matches Empty EmptyString
| MClass p c : p c = true -> matches (Class p) (String c EmptyString)
| MSeq r1 r2 s1 s2 :
    matches r1 s1 -> matches r2 s2 -> matches (Seq r1 r2) (s1 ++ s2)
| MAltL r1 r2 s : matches r1 s -> matches (Alt r1 r2) s
| MAltR r1 r2 s : matches r2 s -> matches (Alt r1 r2) s
| MStarNil r : matches (Star r) EmptyString
| MStarApp r s1 s2 :
    matches r s1 -> matches (Star r) s2 -> matches (Star r) (s1 ++ s2).

(** [Canonicalize] of the [i] flag: the upper-case mapping of a code unit,
    kept only when it does not send a code unit of 128 or more below 128.
    On the letters a-z it gives A-Z.  A code unit of 128 or more is sent to
    one of 128 or more, so it never meets a code unit below 128; as the
    patterns of the source hold only code units below 128, it is left as
    it is here. *)
Definition canonicalize (c : ascii) : ascii :=
  let n := nat_of_ascii c in
  if (97 <=? n) && (n <=? 122) then ascii_of_nat (n - 32) else c.

(** A literal code unit under the [i] flag. *)
Definition chr (c : ascii) : regex :=
  Class (fun x => Ascii.eqb (canonicalize x) (canonicalize c)).

(** A literal word under the [i] flag. *)
Fixpoint word (w : string) : regex :=
  match w with
  | EmptyString => Empty
  | String c w' => Seq (chr c) (word w')
  end.

Definition digit : regex := Class isDigit.

(** [s.substring(n)]: [s] without its first [n] code units. *)
Fixpoint drop (n : nat) (s : string) : string :=
  match n, s with
  | S k, String _ s' => drop k s'
  | _, _ => s
  end.

(** [p] is at the head of [s], compared under the [i] flag. *)
Fixpoint startsWithIgnoreCase (s p : string) : bool :=
  match p, s with
  | EmptyString, _ => true
  | String a p', String b s' =>
      Ascii.eqb (canonicalize b) (canonicalize a)
      && startsWithIgnoreCase s' p'
  | String _ _, EmptyString => false
  end.

(** The double quote, for the literals that hold one. *)
Definition dq : string := String (ascii_of_nat 34) EmptyString.

(** [A || B] on strings: the empty string is falsy. *)
Definition orElse (a b : string) : string :=
  match a with EmptyString => b | _ => a end.

End JS.

(** ** Completions

    A call returns a value or throws; the promise of an [async] function
    resolves or is rejected with the thrown error. *)

Inductive error : Type :=
| Error (message : string)
| TypeError (message : string)
| SyntaxError (message : string).

Definition message_of (e : error) : string :=
  match e with
  | Error m | TypeError m | SyntaxError m => m
  end.

Inductive completion (A : Type) : Type :=
| Return (a : A)
| Throw (e : error).

Arguments Return {A} a.
Arguments Throw {A} e.

(** ** The suggestion engine of the panel *)

Module Panel.
Import JS.

Inductive SuggestionType : Type := Content | Format | Keyword | Structure.
Inductive Priority : Type := High | Medium | Low.

Record Suggestion : Type := {
  id : string;
  type : SuggestionType;
  section : string;
  priority : Priority;
  title : string;
  description : string;
  suggestion : string;
  applied : bool
}.

(** What a property read on [keywordMap] can give: nothing, one of the
    keyword lists, or a member inherited from [Object.prototype] (a
    function, or the prototype object itself for [__proto__]). *)
Inductive value : Type :=
| Undefined
| Keywords (l : list string)
| Function (name : string)
| ObjectPrototype.

(** The own properties of [keywordMap], in the order of the source. *)
Definition keywordMap : list (string * list string) :=
  [ ("software engineer",
      ["JavaScript"; "Python"; "React"; "Node.js"; "API"; "Git"; "Agile"]);
    ("data scientist",
      ["Python"; "R"; "Machine Learning"; "SQL"; "Statistics"; "TensorFlow"]);
    ("research scientist",
      ["Research"; "Publications"; "Statistical Analysis"; "Data Analysis";
       "Methodology"]);
    ("product manager",
      ["Product Strategy"; "Roadmap"; "Stakeholder Management"; "Analytics";
       "User Research"]);
    ("default",
      ["Leadership"; "Problem Solving"; "Communication"; "Teamwork";
       "Project Management"]) ].

Fixpoint own (m : list (string * list string)) (key : string)
  : option (list string) :=
  match m with
  | [] => None
  | (k, v) :: m' => if String.eqb k key then Some v else own m' key
  end.

(** The members every object literal inherits from [Object.prototype]. *)
Definition objectPrototype (key : string) : value :=
  if String.eqb key "constructor" then Function "Object"
  else if String.eqb key "__proto__" then ObjectPrototype
  else if existsb (String.eqb key)
            ["hasOwnProperty"; "isPrototypeOf"; "propertyIsEnumerable";
             "toLocaleString"; "toString"; "valueOf";
             "__defineGetter__"; "__defineSetter__";
             "__lookupGetter__"; "__lookupSetter__"]
       then Function key
  else Undefined.

(** The read [keywordMap[key]]: an own property, else the prototype. *)
Definition get (key : string) : value :=
  match own keywordMap key with
  | Some l => Keywords l
  | None => objectPrototype key
  end.

(** Every value but [undefined] is truthy here: arrays, functions and
    objects are. *)
Definition truthy (v : value) : bool :=
  match v with Undefined => false | _ => true end.

Definition getRoleSpecificKeywords (role area : string) : value :=
  let roleKey := toLowerCase role in
  if truthy (get roleKey) then get roleKey else get "default".

(** [/\d+%|\d+\+|\$\d+|increased|improved|reduced/gi] *)
Definition quantifiedRegex : regex :=
  Alt (Seq (Plus digit) (chr "%"))
 (Alt (Seq (Plus digit) (chr "+"))
 (Alt (Seq (chr "$") (Plus digit))
 (Alt (word "increased")
 (Alt (word "improved")
      (word "reduced"))))).

(** [/led|managed|developed|created|implemented|designed|optimized/gi] *)
Definition actionVerbRegex : regex :=
  Alt (word "led")
 (Alt (word "managed")
 (Alt (word "developed")
 (Alt (word "created")
 (Alt (word "implemented")
 (Alt (word "designed")
      (word "optimized")))))).

(** [content.includes(bullet)]: no text of the range holds U+2022. *)
Definition includesBullet (content : string) : bool := false.

Definition summaryExpandSuggestion (role : string) : Suggestion :=
  {| id := "summary-expand";
     type := Content;
     section := "summary";
     priority := High;
     title := "Expand Professional Summary";
     description := "Your summary should be 2-3 sentences highlighting key achievements.";
     suggestion := "Write a compelling summary mentioning your "
                   ++ role ++ " experience and key accomplishments.";
     applied := false |}.

Definition skillsFormatSuggestion : Suggestion :=
  {| id := "skills-format";
     type := Format;
     section := "skills";
     priority := Medium;
     title := "Format Skills Section";
     description := "Use bullet points to organize your skills.";
     suggestion := "Organize skills into categories with bullet points for better readability.";
     applied := false |}.

Definition getSectionSpecificSuggestions (section content role : string)
  : list Suggestion :=
  (if (String.eqb section "summary"
       || String.eqb section "professional-summary")
      && (String.length content <? 100)
   then [summaryExpandSuggestion role]
   else [])
  ++
  (if (String.eqb section "skills"
       || String.eqb section "technical-skills")
      && (negb (includesBullet content) && negb (includes content "-"))
   then [skillsFormatSuggestion]
   else []).

(** [section || fallback] for the optional [section] argument: [undefined]
    and the empty string are falsy. *)
Definition sectionOr (section : option string) (fallback : string) : string :=
  match section with
  | Some s => orElse s fallback
  | None => fallback
  end.

Definition missingKeywords (content : string) (roleKeywords : list string)
  : list string :=
  filter (fun keyword =>
            negb (includes (toLowerCase content) (toLowerCase keyword)))
         roleKeywords.

Definition wordCountSuggestion (section : option string) : Suggestion :=
  {| id := "word-count";
     type := Content;
     section := sectionOr section "overall";
     priority := High;
     title := "Expand Content";
     description := "Your resume is too brief. Add more detailed achievements.";
     suggestion := "Add 2-3 more bullet points with specific accomplishments and metrics.";
     applied := false |}.

Definition quantifySuggestion (section : option string) : Suggestion :=
  {| id := "quantify";
     type := Content;
     section := sectionOr section "experience";
     priority := High;
     title := "Add Quantified Results";
     description := "Include specific numbers and percentages to show impact.";
     suggestion := "Replace generic statements with metrics like " ++ dq
                   ++ "Increased efficiency by 40%" ++ dq ++ " or " ++ dq
                   ++ "Managed team of 5+" ++ dq ++ ".";
     applied := false |}.

Definition actionVerbsSuggestion (section : option string) : Suggestion :=
  {| id := "action-verbs";
     type := Content;
     section := sectionOr section "experience";
     priority := Medium;
     title := "Use Strong Action Verbs";
     description := "Start bullet points with powerful action verbs.";
     suggestion := "Begin achievements with words like: Led, Architected, Optimized, Implemented, Designed.";
     applied := false |}.

Definition keywordsSuggestion (role : string) (missing : list string)
  : Suggestion :=
  {| id := "keywords";
     type := Keyword;
     section := "skills";
     priority := High;
     title := "Add " ++ role ++ " Keywords";
     description := "Missing key terms for " ++ role ++ " positions.";
     suggestion := "Consider adding: " ++ join ", " (firstn 5 missing);
     applied := false |}.

(** The body of [generateRealTimeSuggestions].  The analysis comes first,
    as in the source: [roleKeywords.filter] is called before any suggestion
    is pushed, and throws a [TypeError] when [roleKeywords] is no array. *)
Definition generateRealTimeSuggestions
    (content role area : string) (section : option string)
  : completion (list Suggestion) :=
  let wordCount := List.length (split_ws content) in
  let hasQuantifiedAchievements := test quantifiedRegex content in
  let hasActionVerbs := test actionVerbRegex content in
  match getRoleSpecificKeywords role area with
  | Keywords roleKeywords =>
      let missing := missingKeywords content roleKeywords in
      Return
        ((if wordCount <? 200 then [wordCountSuggestion section] else [])
         ++ (if negb hasQuantifiedAchievements
             then [quantifySuggestion section] else [])
         ++ (if negb hasActionVerbs
             then [actionVerbsSuggestion section] else [])
         ++ (if 0 <? List.length missing
             then [keywordsSuggestion role missing] else [])
         ++ (match section with
             | Some (String c s) =>
                 getSectionSpecificSuggestions (String c s) content role
             | _ => []
             end))%list
  | Undefined =>
      Throw (TypeError "Cannot read properties of undefined (reading 'filter')")
  | Function _ | ObjectPrototype =>
      Throw (TypeError "roleKeywords.filter is not a function")
  end.

(** The state of the panel that the analysis writes. *)
Record PanelState : Type := {
  suggestions : list Suggestion;
  loading : bool
}.

(** The callback of [analyzeContent], once the delay has passed: nothing
    happens on an empty text or role; a rejected analysis is logged and
    leaves the suggestions as they were. *)
Definition analyzeContent (currentSection : option string)
    (content role area : string) (st : PanelState) : PanelState :=
  match content, role with
  | EmptyString, _ | _, EmptyString => st
  | _, _ =>
      match generateRealTimeSuggestions content role area currentSection with
      | Return newSuggestions =>
          {| suggestions := newSuggestions; loading := false |}
      | Throw _ =>
          {| suggestions := suggestions st; loading := false |}
      end
  end.

(** The profile under the key [default]. *)
Definition defaultProfile : list string :=
  ["Leadership"; "Problem Solving"; "Communication"; "Teamwork";
   "Project Management"].

(** How many suggestions of a list carry the id [i]. *)
Definition count_id (i : string) (l : list Suggestion) : nat :=
  List.length (filter (fun s => String.eqb (id s) i) l).

End Panel.

(** ** JSON texts

    [JSON.parse], as far as the analyze route uses it: the grammar of
    ECMA-404 with the four white space characters of JSON.  A string value
    is kept as its code units, since an escape [\uXXXX] can name any.  A
    number is kept as the exact rational its literal denotes (the rounding
    to a double is not modelled). *)

Module Json.
Import JS.

#[local] Set Warnings "-register-all".

Inductive json : Type :=
| JNull
| JBool (b : bool)
| JNumber (q : Q)
| JString (units : list N)
| JArray (items : list json)
| JObject (members : list (list N * json)).

(** The result of a parsing function: a value and the text left, a text
    outside the grammar, or a budget of recursive calls used up. *)
Inductive outcome (A : Type) : Type :=
| Parsed (a : A) (rest : string)
| Invalid
| OutOfFuel.

Arguments Parsed {A} a rest.
Arguments Invalid {A}.
Arguments OutOfFuel {A}.

Definition isJsonWhiteSpace (c : ascii) : bool :=
  let n := nat_of_ascii c in
  (n =? 32) || (n =? 9) || (n =? 10) || (n =? 13).

Fixpoint skipWs (s : string) : string :=
  match s with
  | EmptyString => EmptyString
  | String c s' => if isJsonWhiteSpace c then skipWs s' else s
  end.

Definition units_of (s : string) : list N :=
  map N_of_ascii (list_ascii_of_string s).

Definition hexDigit (c : ascii) : option N :=
  let n := nat_of_ascii c in
  if (48 <=? n) && (n <=? 57) then Some (N.of_nat (n - 48))
  else if (65 <=? n) && (n <=? 70) then Some (N.of_nat (n - 55))
  else if (97 <=? n) && (n <=? 102) then Some (N.of_nat (n - 87))
  else None.

Definition hex4 (a b c d : ascii) : option N :=
  match hexDigit a, hexDigit b, hexDigit c, hexDigit d with
  | Some x, Some y, Some z, Some w =>
      Some (((x * 16 + y) * 16 + z) * 16 + w)%N
  | _, _, _, _ => None
  end.

(** The single-character escapes: the code unit named after a backslash. *)
Definition escape (e : ascii) : option N :=
  let n := nat_of_ascii e in
  if n =? 34 then Some 34%N            (* quote *)
  else if n =? 92 then Some 92%N       (* backslash *)
  else if n =? 47 then Some 47%N       (* slash *)
  else if n =? 98 then Some 8%N        (* b *)
  else if n =? 102 then Some 12%N      (* f *)
  else if n =? 110 then Some 10%N      (* n *)
  else if n =? 114 then Some 13%N      (* r *)
  else if n =? 116 then Some 9%N       (* t *)
  else None.

Definition consUnit (u : N) (r : option (list N * string))
  : option (list N * string) :=
  match r with
  | Some (us, rest) => Some (u :: us, rest)
  | None => None
  end.

(** The characters of a string after its opening quote, up to the closing
    one.  A control character must be escaped. *)
Fixpoint stringBody (s : string) : option (list N * string) :=
  match s with
  | EmptyString => None
  | String c s' =>
      let n := nat_of_ascii c in
      if n =? 34 then Some ([], s')
      else if n =? 92 then
        match s' with
        | EmptyString => None
        | String e s'' =>
            match escape e with
            | Some u => consUnit u (stringBody s'')
            | None =>
                if nat_of_ascii e =? 117 then
                  match s'' with
                  | String h1 (String h2 (String h3 (String h4 rest))) =>
                      match hex4 h1 h2 h3 h4 with
                      | Some u => consUnit u (stringBody rest)
                      | None => None
                      end
                  | _ => None
                  end
                else None
            end
        end
      else if n <? 32 then None
      else consUnit (N.of_nat n) (stringBody s')
  end.

(** The digits at the head of [s], appended to the decimal number [acc];
    [k] counts them. *)
Fixpoint takeDigits (s : string) (acc : N) (k : nat) : N * nat * string :=
  match s with
  | EmptyString => (acc, k, s)
  | String c s' =>
      if isDigit c
      then takeDigits s' (acc * 10 + N.of_nat (nat_of_ascii c - 48))%N (S k)
      else (acc, k, s)
  end.

Definition fraction (ip : N) (s : string) : option (N * nat * string) :=
  match s with
  | String c t =>
      if nat_of_ascii c =? 46 then
        let '(m, k, r) := takeDigits t ip 0 in
        if k =? 0 then None else Some (m, k, r)
      else Some (ip, 0, s)
  | EmptyString => Some (ip, 0, s)
  end.

Definition exponent (s : string) : option (Z * string) :=
  match s with
  | String c t =>
      if (nat_of_ascii c =? 101) || (nat_of_ascii c =? 69) then
        let '(negative, t') :=
          match t with
          | String sg u =>
              if nat_of_ascii sg =? 45 then (true, u)
              else if nat_of_ascii sg =? 43 then (false, u)
              else (false, t)
          | EmptyString => (false, t)
          end in
        let '(v, k, r) := takeDigits t' 0 0 in
        if k =? 0 then None
        else Some (if negative then (- Z.of_N v)%Z else Z.of_N v, r)
      else Some (0%Z, s)
  | EmptyString => Some (0%Z, s)
  end.

(** [m * 10^e], negated when [negative], in lowest terms. *)
Definition decimal (negative : bool) (m : N) (e : Z) : Q :=
  let v := Qmult (inject_Z (Z.of_N m)) (Qpower (10 # 1) e) in
  Qred (if negative then Qopp v else v).

(** The digits of a number, after its sign: integer part, fraction and
    exponent. *)
Definition unsignedNumber (negative : bool) (s : string)
  : option (Q * string) :=
  match s with
  | String c t =>
      if isDigit c then
        let '(ip, _, s1) :=
          if nat_of_ascii c =? 48 then (0%N, 1, t) else takeDigits s 0 0 in
        match fraction ip s1 with
        | Some (m, k, s2) =>
            match exponent s2 with
            | Some (e, s3) =>
                Some (decimal negative m (e - Z.of_nat k), s3)
            | None => None
            end
        | None => None
        end
      else None
  | EmptyString => None
  end.

Definition number (s : string) : option (Q * string) :=
  match s with
  | String c t =>
      if nat_of_ascii c =? 45 then unsignedNumber true t
      else unsignedNumber false s
  | EmptyString => None
  end.

Definition literal (w : string) (v : json) (s : string) : outcome json :=
  if String.prefix w s then Parsed v (drop (String.length w) s) else Invalid.

(** A value, the elements of an array up to its bracket, and the members of
    an object up to its brace.  [fuel] bounds the depth of the calls. *)
Fixpoint value (fuel : nat) (s : string) : outcome json :=
  match fuel with
  | O => OutOfFuel
  | S fuel' =>
      match skipWs s with
      | EmptyString => Invalid
      | String c t =>
          let n := nat_of_ascii c in
          if n =? 123 then
            match skipWs t with
            | EmptyString => Invalid
            | String c' r =>
                if nat_of_ascii c' =? 125 then Parsed (JObject []) r
                else match members fuel' t with
                     | Parsed m r' => Parsed (JObject m) r'
                     | Invalid => Invalid
                     | OutOfFuel => OutOfFuel
                     end
            end
          else if n =? 91 then
            match skipWs t with
            | EmptyString => Invalid
            | String c' r =>
                if nat_of_ascii c' =? 93 then Parsed (JArray []) r
                else match elements fuel' t with
                     | Parsed l r' => Parsed (JArray l) r'
                     | Invalid => Invalid
                     | OutOfFuel => OutOfFuel
                     end
            end
          else if n =? 34 then
            match stringBody t with
            | Some (u, r) => Parsed (JString u) r
            | None => Invalid
            end
          else if n =? 116 then literal "true" (JBool true) (String c t)
          else if n =? 102 then literal "false" (JBool false) (String c t)
          else if n =? 110 then literal "null" JNull (String c t)
          else match number (String c t) with
               | Some (q, r) => Parsed (JNumber q) r
               | None => Invalid
               end
      end
  end

with elements (fuel : nat) (s : string) : outcome (list json) :=
  match fuel with
  | O => OutOfFuel
  | S fuel' =>
      match value fuel' s with
      | Parsed v r =>
          match skipWs r with
          | EmptyString => Invalid
          | String c r' =>
              if nat_of_ascii c =? 93 then Parsed [v] r'
              else if nat_of_ascii c =? 44 then
                match elements fuel' r' with
                | Parsed l r'' => Parsed (v :: l) r''
                | Invalid => Invalid
                | OutOfFuel => OutOfFuel
                end
              else Invalid
          end
      | Invalid => Invalid
      | OutOfFuel => OutOfFuel
      end
  end

with members (fuel : nat) (s : string) : outcome (list (list N * json)) :=
  match fuel with
  | O => OutOfFuel
  | S fuel' =>
      match skipWs s with
      | EmptyString => Invalid
      | String q t =>
          if nat_of_ascii q =? 34 then
            match stringBody t with
            | None => Invalid
            | Some (k, r) =>
                match skipWs r with
                | EmptyString => Invalid
                | String c r1 =>
                    if nat_of_ascii c =? 58 then
                      match value fuel' r1 with
                      | Parsed v r2 =>
                          match skipWs r2 with
                          | EmptyString => Invalid
                          | String d r3 =>
                              if nat_of_ascii d =? 125 then Parsed [(k, v)] r3
                              else if nat_of_ascii d =? 44 then
                                match members fuel' r3 with
                                | Parsed m r4 => Parsed ((k, v) :: m) r4
                                | Invalid => Invalid
                                | OutOfFuel => OutOfFuel
                                end
                              else Invalid
                          end
                      | Invalid => Invalid
                      | OutOfFuel => OutOfFuel
                      end
                    else Invalid
                end
            end
          else Invalid
      end
  end.

(** The message of the [SyntaxError] of [JSON.parse].  Its wording is the
    engine's; this text stands for it. *)
Definition syntaxErrorMessage : string := "Unexpected token in JSON".

(** [JSON.parse text]: one value, white space around it, nothing else. *)
Definition JSON_parse (text : string) : completion json :=
  match value (2 * String.length text + 2) text with
  | Parsed v rest =>
      match skipWs rest with
      | EmptyString => Return v
      | String _ _ => Throw (SyntaxError syntaxErrorMessage)
      end
  | Invalid | OutOfFuel => Throw (SyntaxError syntaxErrorMessage)
  end.

(** The read [j.key]: the last member with that name, as a later member
    overwrites an earlier one. *)
Fixpoint lookup (key : list N) (m : list (list N * json)) : option json :=
  match m with
  | [] => None
  | (k, v) :: m' =>
      match lookup key m' with
      | Some v' => Some v'
      | None => if list_eq_dec N.eq_dec k key then Some v else None
      end
  end.

Definition property (key : string) (j : json) : option json :=
  match j with
  | JObject m => lookup (units_of key) m
  | _ => None
  end.

End Json.

(** ** The gateway to the generative model *)

Module Gateway.
Import JS Json.

(** A field of the request body after destructuring: absent, [null], or a
    string (the editor sends strings). *)
Inductive jsvalue : Type :=
| undefined
| null
| str (s : string).

Definition truthy (v : jsvalue) : bool :=
  match v with
  | str (String _ _) => true
  | _ => false
  end.

(** The text a template literal puts for [${v}]. *)
Definition template (v : jsvalue) : string :=
  match v with
  | undefined => "undefined"
  | null => "null"
  | str s => s
  end.

(** [${v || 'general'}] *)
Definition orGeneral (v : jsvalue) : string :=
  if truthy v then template v else "general".

(** [v === w] for a string literal [w]. *)
Definition strictEq (v : jsvalue) (w : string) : bool :=
  match v with
  | str s => String.eqb s w
  | _ => false
  end.

(** The session of [getServerSession]: the e-mail of the user. *)
Definition Session : Type := string.

(** The argument of [genai.models.generateContent]. *)
Record GenerateContentParams : Type := {
  model : string;
  contents : string;
  temperature : Q;
  maxOutputTokens : Z
}.

(** What is thrown: an [Error] object, or some other value. *)
Inductive thrown : Type :=
| ErrorObject (e : error)
| OtherValue.

(** The call to the model rejects, or resolves to a response whose [text]
    is a string or [undefined]. *)
Inductive GenerateOutcome : Type :=
| Rejects (t : thrown)
| Responds (text : option string).

(** [geminiError instanceof Error ? geminiError.message : fallback] *)
Definition detailsOf (t : thrown) (fallback : string) : string :=
  match t with
  | ErrorObject e => message_of e
  | OtherValue => fallback
  end.

(** The JSON bodies the routes answer with. *)
Inductive ResponseBody : Type :=
| Failure (error : string) (details : option string)
| Improved (improvedContent message : string)
| Analyzed (analysis : json).

(** [NextResponse.json(body, { status })]; the status is 200 when none is
    given. *)
Record Response : Type := {
  status : nat;
  body : ResponseBody
}.

(** The [error] member of an answer, when it has one. *)
Definition errorOf (r : Response) : option string :=
  match body r with
  | Failure e _ => Some e
  | _ => None
  end.

Definition nl : string := String (ascii_of_nat 10) EmptyString.

(** The check mark U+2705 of the status messages, in UTF-8: it is only
    sent back, never inspected. *)
Definition checkMark : string :=
  String (ascii_of_nat 226)
    (String (ascii_of_nat 156) (String (ascii_of_nat 133) EmptyString)).

Definition noText : string := "No response text received from Gemini".
Definition unavailable : string := "Gemini service unavailable".

(** *** The improve route *)

Module Improve.

Record Request : Type := {
  resumeContent : jsvalue;
  targetRole : jsvalue;
  targetArea : jsvalue;
  action : jsvalue;
  command : jsvalue
}.

Definition autoImprovePrompt (r : Request) : string :=
  "You are a professional resume expert. Improve this resume for a "
  ++ template (targetRole r) ++ " position in " ++ orGeneral (targetArea r)
  ++ " field.

INSTRUCTIONS:
1. Enhance the formatting and structure
2. Make the language more professional and impactful
3. Optimize for ATS (Applicant Tracking Systems)
4. Add relevant keywords for the target role
5. Improve bullet points to be more action-oriented
6. Ensure consistent formatting throughout
7. Keep all the original information but present it better

Original Resume:
" ++ template (resumeContent r) ++ "

Return the improved resume content directly (no JSON, no explanations, just the improved resume text).".

Definition chatCommandPrompt (r : Request) : string :=
  "You are a professional resume expert. The user wants you to modify their resume based on this request: "
  ++ dq ++ template (command r) ++ dq ++ "

Current resume for " ++ template (targetRole r) ++ " in "
  ++ orGeneral (targetArea r) ++ ":
" ++ template (resumeContent r) ++ "

User's request: " ++ template (command r) ++ "

Apply the requested changes to the resume and return the modified resume content directly (no JSON, no explanations, just the updated resume text).".

(** [let prompt = ''], then the two branches on [action]. *)
Definition promptOf (r : Request) : string :=
  if strictEq (action r) "auto-improve" then autoImprovePrompt r
  else if strictEq (action r) "chat-command" then chatCommandPrompt r
  else "".

(** [let message = ''], then the two branches on [action]. *)
Definition messageOf (r : Request) : string :=
  if strictEq (action r) "auto-improve" then
    checkMark ++ " Your resume has been automatically improved! Key enhancements: better formatting, professional language, ATS optimization, and keyword enhancement."
  else if strictEq (action r) "chat-command" then
    checkMark ++ " Applied your request: " ++ dq ++ template (command r)
    ++ dq ++ ". Your resume has been updated!"
  else "".

(** [.replace(/^(text|resume|content):\s*/i, '')]: a label at the very
    start goes, with the white space after it. *)
Definition stripLabel (s : string) : string :=
  if startsWithIgnoreCase s "text:" then trimStart (drop 5 s)
  else if startsWithIgnoreCase s "resume:" then trimStart (drop 7 s)
  else if startsWithIgnoreCase s "content:" then trimStart (drop 8 s)
  else s.

Definition cleanUp (text : string) : string :=
  trim (stripLabel (removeAll "```" (trim text))).

Definition paramsOf (r : Request) : GenerateContentParams :=
  {| model := "gemini-2.0-flash-exp";
     contents := promptOf r;
     temperature := 3 # 10;
     maxOutputTokens := 3000 |}.

Section Route.

Variable generateContent : GenerateContentParams -> GenerateOutcome.

(** The handler: its response, and the calls it made to the model, in
    order.  [request] is the outcome of [await request.json()] and of the
    destructuring. *)
Definition POST (session : option Session) (request : completion Request)
  : Response * list GenerateContentParams :=
  match session with
  | None => ({| status := 401; body := Failure "Unauthorized" None |}, [])
  | Some _ =>
      match request with
      | Throw e =>
          ({| status := 500;
              body := Failure "Improvement failed" (Some (message_of e)) |},
           [])
      | Return r =>
          if negb (truthy (resumeContent r)) || negb (truthy (action r)) then
            ({| status := 400;
                body := Failure "Resume content and action are required"
                                None |}, [])
          else
            let call := paramsOf r in
            match generateContent call with
            | Rejects t =>
                ({| status := 503;
                    body := Failure "AI improvement failed"
                                    (Some (detailsOf t unavailable)) |},
                 [call])
            | Responds None | Responds (Some EmptyString) =>
                ({| status := 503;
                    body := Failure "AI improvement failed" (Some noText) |},
                 [call])
            | Responds (Some text) =>
                ({| status := 200;
                    body := Improved (cleanUp text) (messageOf r) |},
                 [call])
            end
      end
  end.

End Route.
End Improve.

(** *** The analyze route *)

Module Analyze.

Record Request : Type := {
  resumeContent : jsvalue;
  targetRole : jsvalue;
  targetArea : jsvalue
}.

Definition promptOf (r : Request) : string :=
  "Analyze this resume for a " ++ template (targetRole r) ++ " position in "
  ++ orGeneral (targetArea r) ++ ".

IMPORTANT: Return ONLY a valid JSON object with these exact fields:
- overallScore: number (0-100)
- strengths: array of strings
- improvements: array of objects with {category, issue, suggestion, priority, section}
- missingKeywords: array of strings
- enhancementAreas: array of strings
- contentSuggestions: array of objects with {section, currentText, suggestedText, reason}

Resume Content:
" ++ template (resumeContent r) ++ "

Return only the JSON, no other text.".

Definition paramsOf (r : Request) : GenerateContentParams :=
  {| model := "gemini-2.0-flash-exp";
     contents := promptOf r;
     temperature := 3 # 10;
     maxOutputTokens := 2000 |}.

(** The cleaning before [JSON.parse]: a text that starts with the json
    fence loses every json fence, then every fence. *)
Definition cleanedResponse (analysisText : string) : string :=
  let trimmed := trim analysisText in
  if startsWith trimmed "```json"
  then removeAll "```" (removeAll "```json" trimmed)
  else trimmed.

Section Route.

Variable generateContent : GenerateContentParams -> GenerateOutcome.

Definition POST (session : option Session) (request : completion Request)
  : Response * list GenerateContentParams :=
  match session with
  | None => ({| status := 401; body := Failure "Unauthorized" None |}, [])
  | Some _ =>
      match request with
      | Throw e =>
          ({| status := 500;
              body := Failure "Analysis failed" (Some (message_of e)) |},
           [])
      | Return r =>
          if negb (truthy (resumeContent r)) || negb (truthy (targetRole r))
          then
            ({| status := 400;
                body := Failure "Resume content and target role are required"
                                None |}, [])
          else
            let call := paramsOf r in
            match generateContent call with
            | Rejects t =>
                ({| status := 503;
                    body := Failure "AI analysis failed"
                                    (Some (detailsOf t unavailable)) |},
                 [call])
            | Responds None | Responds (Some EmptyString) =>
                ({| status := 503;
                    body := Failure "AI analysis failed" (Some noText) |},
                 [call])
            | Responds (Some analysisText) =>
                match JSON_parse (cleanedResponse analysisText) with
                | Return analysis =>
                    ({| status := 200; body := Analyzed analysis |}, [call])
                | Throw e =>
                    ({| status := 503;
                        body := Failure "AI analysis failed"
                                        (Some (message_of e)) |},
                     [call])
                end
            end
      end
  end.

End Route.
End Analyze.

(** The answers to a request that fails the validation. *)
Definition invalidImprove : Response :=
  {| status := 400;
     body := Failure "Resume content and action are required" None |}.

Definition invalidAnalyze : Response :=
  {| status := 400;
     body := Failure "Resume content and target role are required" None |}.

(** A text between a json fence line and a closing fence line. *)
Definition fenced (obj : string) : string :=
  "```json" ++ nl ++ obj ++ nl ++ "```".

End Gateway.

(** ** The words of the specification

    Definitions that follow the specification, to compare the code with. *)

Module Spec.
Import JS.

(** The number of whitespace-delimited tokens of a text: the places where
    a code unit that is no white space starts the text or follows white
    space.  [afterWs] tells that a token may start here. *)
Fixpoint tokenCount_from (afterWs : bool) (s : string) : nat :=
  match s with
  | EmptyString => 0
  | String c s' =>
      if isWhiteSpace c then tokenCount_from true s'
      else (if afterWs then 1 else 0) + tokenCount_from false s'
  end.

Definition tokenCount (s : string) : nat := tokenCount_from true s.

(** The text is empty or starts with white space. *)
Definition startsBlank (s : string) : bool :=
  match s with
  | EmptyString => true
  | String c _ => isWhiteSpace c
  end.

(** The text ends with white space; [b] is the answer for the empty
    text. *)
Fixpoint endsBlank_from (b : bool) (s : string) : bool :=
  match s with
  | EmptyString => b
  | String c s' => endsBlank_from (isWhiteSpace c) s'
  end.

Definition endsBlank (s : string) : bool := endsBlank_from false s.

(** Some code unit of class [p] is directly followed by one of class
    [q]. *)
Fixpoint adjacent (p q : ascii -> bool) (s : string) : bool :=
  match s with
  | String x (String y _ as s') => (p x && q y) || adjacent p q s'
  | _ => false
  end.

Definition isChar (c x : ascii) : bool := Ascii.eqb x c.

(** The text holds a percentage figure (a digit before a percent sign), a
    plus-suffixed number (a digit before a plus sign), a dollar amount (a
    dollar sign before a digit), or one of the words increased, improved
    and reduced, in any case. *)
Definition mentionsQuantity (text : string) : bool :=
  adjacent isDigit (isChar "%") text
  || adjacent isDigit (isChar "+") text
  || adjacent (isChar "$") isDigit text
  || includes (toLowerCase text) "increased"
  || includes (toLowerCase text) "improved"
  || includes (toLowerCase text) "reduced".

(** The text holds one of the strong verbs, in any case. *)
Definition usesActionVerb (text : string) : bool :=
  includes (toLowerCase text) "led"
  || includes (toLowerCase text) "managed"
  || includes (toLowerCase text) "developed"
  || includes (toLowerCase text) "created"
  || includes (toLowerCase text) "implemented"
  || includes (toLowerCase text) "designed"
  || includes (toLowerCase text) "optimized".

(** The letters a to z. *)
Definition isLowerLetter (c : ascii) : bool :=
  let n := nat_of_ascii c in (97 <=? n) && (n <=? 122).

(** [f] holds of every code unit of [s]. *)
Fixpoint allChars (f : ascii -> bool) (s : string) : bool :=
  match s with
  | EmptyString => true
  | String c s' => f c && allChars f s'
  end.

(** [f] holds of each of the 256 code units. *)
Definition allAscii (f : ascii -> bool) : bool :=
  forallb (fun n => f (ascii_of_nat n)) (seq 0 256).

(** [n] copies of [w], one after the other. *)
Fixpoint copies (n : nat) (w : string) : string :=
  match n with
  | O => EmptyString
  | S k => w ++ copies k w
  end.

(** A text of 198 tokens between a leading and a trailing blank. *)
Definition paddedResume : string := " " ++ copies 198 "word ".

End Spec.

(** ** Requests and answers for the examples *)

Module Examples.
Import JS Json Gateway.

Definition analyzeRequest : Analyze.Request :=
  {| Analyze.resumeContent := str "Jane Doe. Built web services.";
     Analyze.targetRole := str "software engineer";
     Analyze.targetArea := undefined |}.

Definition improveRequest (action : jsvalue) (text : string)
  : Improve.Request :=
  {| Improve.resumeContent := str text;
     Improve.targetRole := str "software engineer";
     Improve.targetArea := undefined;
     Improve.action := action;
     Improve.command := undefined |}.

(** A JSON object in the shape the prompt asks for. *)
Definition analysisObject : string :=
  "{" ++ dq ++ "overallScore" ++ dq ++ ": 80, "
  ++ dq ++ "strengths" ++ dq ++ ": [" ++ dq ++ "Clear structure" ++ dq ++ "], "
  ++ dq ++ "improvements" ++ dq ++ ": [], "
  ++ dq ++ "missingKeywords" ++ dq ++ ": [" ++ dq ++ "Python" ++ dq ++ "], "
  ++ dq ++ "enhancementAreas" ++ dq ++ ": [], "
  ++ dq ++ "contentSuggestions" ++ dq ++ ": [] }".

Definition analysisValue : json :=
  JObject
    [ (units_of "overallScore", JNumber 80);
      (units_of "strengths", JArray [JString (units_of "Clear structure")]);
      (units_of "improvements", JArray []);
      (units_of "missingKeywords", JArray [JString (units_of "Python")]);
      (units_of "enhancementAreas", JArray []);
      (units_of "contentSuggestions", JArray []) ].

End Examples.

Import JS Panel Json Gateway Spec Examples.

(** ** Accepting a suggestion *)

Module PanelActions.
Import JS Panel.

(** [{ ...s, applied: true }] *)
Definition markApplied (s : Suggestion) : Suggestion :=
  {| id := id s;
     type := type s;
     section := section s;
     priority := priority s;
     title := title s;
     description := description s;
     suggestion := suggestion s;
     applied := true |}.

(** The state update of [handleApplySuggestion]: every suggestion that has
    the id of the accepted one is marked.  The call of [onApplySuggestion]
    that follows belongs to the parent component. *)
Definition handleApplySuggestion (accepted : Suggestion) (st : PanelState)
  : PanelState :=
  {| suggestions :=
       map (fun s => if String.eqb (id s) (id accepted)
                     then markApplied s else s)
           (suggestions st);
     loading := loading st |}.

(** How many suggestions of a list are marked as applied. *)
Definition count_applied (l : list Suggestion) : nat :=
  List.length (filter applied l).

End PanelActions.

Import PanelActions.

(** ** The first character of a JSON text *)

Module Grammar.
Import JS Json.

(** The code units a JSON value can start with: a brace, a bracket, a
    quote, a minus sign, a digit, or the first letter of [true], [false]
    and [null]. *)
Definition canStartValue (c : ascii) : bool :=
  let n := nat_of_ascii c in
  (n =? 123) || (n =? 91) || (n =? 34) || (n =? 45) || isDigit c
  || (n =? 116) || (n =? 102) || (n =? 110).

End Grammar.

Import Grammar.

(** ** The store of uploaded resumes, the upload route and the read route *)

Module Store.
Import JS Gateway.

(** [session.user?.email]: the session may have no user, and the user an
    e-mail that is absent or [null]. *)
Record User : Type := { email : jsvalue }.
Record Session : Type := { user : option User }.

Definition emailOf (session : Session) : jsvalue :=
  match user session with
  | Some u => email u
  | None => undefined
  end.

(** [a === b] *)
Definition same (a b : jsvalue) : bool :=
  match a, b with
  | undefined, undefined => true
  | null, null => true
  | str x, str y => String.eqb x y
  | _, _ => false
  end.

Record ResumeData : Type := {
  id : string;
  userId : jsvalue;
  fileName : string;
  content : string;
  uploadedAt : string
}.

(** A [Map] from ids to resumes: its entries in the order of insertion. *)
Definition Map : Type := list (string * ResumeData).

Fixpoint get (m : Map) (key : string) : option ResumeData :=
  match m with
  | [] => None
  | (k, v) :: m' => if String.eqb k key then Some v else get m' key
  end.

(** [m.set(key, value)]: the entry of [key] is replaced where it stands,
    or a new entry is added at the end. *)
Fixpoint set (m : Map) (key : string) (value : ResumeData) : Map :=
  match m with
  | [] => [(key, value)]
  | (k, v) :: m' =>
      if String.eqb k key then (key, value) :: m'
      else (k, v) :: set m' key value
  end.

(** [global.resumeStore]: not yet assigned, or a map. *)
Definition Global : Type := option Map.

(** [global.resumeStore || new Map()] *)
Definition storeOrNew (g : Global) : Map :=
  match g with
  | Some m => m
  | None => []
  end.

(** [storeResume]: the fresh map made when the global is not assigned is
    not kept; only a map that is already there is written. *)
Definition storeResume (g : Global) (id : string) (data : ResumeData)
  : Global :=
  match g with
  | Some m => Some (set m id data)
  | None => None
  end.

(** *** The read route *)

Module Read.

Inductive Body : Type :=
| Failure (error : string) (details : option string)
| Found (content fileName : string).

Record Response : Type := {
  status : nat;
  body : Body
}.

(** The handler.  [params] is the outcome of [await params]. *)
Definition GET (g : Global) (session : option Session)
    (params : completion string) : Response :=
  match session with
  | None => {| status := 401; body := Failure "Unauthorized" None |}
  | Some sess =>
      match params with
      | Throw _ =>
          {| status := 500; body := Failure "Failed to fetch resume" None |}
      | Return resumeId =>
          match get (storeOrNew g) resumeId with
          | None =>
              {| status := 404;
                 body := Failure "Resume not found"
                           (Some "The uploaded resume could not be found. Please upload again.") |}
          | Some resume =>
              if negb (same (userId resume) (emailOf sess))
              then {| status := 403; body := Failure "Unauthorized" None |}
              else {| status := 200;
                      body := Found (content resume) (fileName resume) |}
          end
      end
  end.

End Read.

(** *** The upload route *)

Module Upload.

Record File : Type := {
  name : string;
  type : string;
  bytes : string
}.

(** [formData.get('file')]: nothing, a text field, or a file. *)
Inductive Entry : Type :=
| NoEntry
| TextEntry (s : string)
| FileEntry (f : File).

(** The data of [pdfParser_dataReady], as far as the handler reads it. *)
Record Run : Type := { T : option string }.
Record TextItem : Type := { R : option (list Run) }.
Record Page : Type := { Texts : option (list TextItem) }.
Record PdfData : Type := { Pages : option (list Page) }.

(** The parser emits [pdfParser_dataReady] or [pdfParser_dataError]. *)
Inductive ParserEvent : Type :=
| DataReady (pdfData : PdfData)
| DataError (t : thrown).

Inductive Body : Type :=
| Failure (error : string)
| ProcessingFailure (error details suggestion errorType : string)
                    (fileSize : nat)
| Uploaded (resumeId content fileName : string).

Record Response : Type := {
  status : nat;
  body : Body
}.

(** [Date.now().toString()] *)
Definition toString (n : N) : string :=
  NilEmpty.string_of_uint (N.to_uint n).

Definition space : string := " ".

Section Route.

(** [decodeURIComponent]; [None] is its [URIError]. *)
Variable decodeURIComponent : string -> option string.

(** The parser of pdf2json on the bytes of the file. *)
Variable parseBuffer : string -> ParserEvent.

(** The three nested loops of the handler of [pdfParser_dataReady]; [text]
    is the text gathered so far. *)
Fixpoint runsText (runs : list Run) (text : string) : option string :=
  match runs with
  | [] => Some text
  | run :: rest =>
      match T run with
      | Some (String c t) =>
          match decodeURIComponent (String c t) with
          | Some decoded => runsText rest (text ++ decoded ++ space)
          | None => None
          end
      | _ => runsText rest text
      end
  end.

Fixpoint itemsText (items : list TextItem) (text : string) : option string :=
  match items with
  | [] => Some text
  | item :: rest =>
      match R item with
      | Some runs =>
          match runsText runs text with
          | Some text' => itemsText rest text'
          | None => None
          end
      | None => itemsText rest text
      end
  end.

Fixpoint pagesText (pages : list Page) (text : string) : option string :=
  match pages with
  | [] => Some text
  | page :: rest =>
      match Texts page with
      | Some items =>
          match itemsText items text with
          | Some text' => pagesText rest (text' ++ nl)
          | None => None
          end
      | None => pagesText rest text
      end
  end.

(** What the promise resolves to; [None] is the rejection with the
    [URIError]. *)
Definition extractText (pdfData : PdfData) : option string :=
  match Pages pdfData with
  | Some pages =>
      match pagesText pages "" with
      | Some text => Some (trim text)
      | None => None
      end
  | None => Some (trim "")
  end.

(** The answer of the [catch] around the extraction. *)
Definition processingFailure (details errorType : string) (f : File)
  : Response :=
  {| status := 400;
     body := ProcessingFailure
               "Failed to process PDF file" details
               "Please ensure the PDF file is not corrupted, password-protected, or damaged. Try with a different PDF file."
               errorType (String.length (bytes f)) |}.

(** The handler: its answer and the global after it.  [formData] is the
    outcome of [await request.formData()]; [now] and [isoNow] are what the
    clock gives to [Date.now()] and to [new Date().toISOString()].

    When no text was extracted, the source builds the answer "No text
    found in PDF" with [pdfData.numpages] in it; [pdfData] is a parameter
    of the parser callback and is not in scope there, so reading it throws
    a [ReferenceError], which the [catch] around the extraction turns into
    the processing failure. *)
Definition POST (g : Global) (session : option Session)
    (formData : completion Entry) (now : N) (isoNow : string)
  : Response * Global :=
  match session with
  | None => ({| status := 401; body := Failure "Unauthorized" |}, g)
  | Some sess =>
      match formData with
      | Throw _ => ({| status := 500; body := Failure "Upload failed" |}, g)
      | Return NoEntry | Return (TextEntry EmptyString) =>
          ({| status := 400; body := Failure "No file provided" |}, g)
      | Return (TextEntry (String _ _)) =>
          ({| status := 400; body := Failure "Only PDF files are allowed" |},
           g)
      | Return (FileEntry file) =>
          if negb (String.eqb (type file) "application/pdf") then
            ({| status := 400;
                body := Failure "Only PDF files are allowed" |}, g)
          else
            match parseBuffer (bytes file) with
            | DataError t =>
                (processingFailure
                   (detailsOf t "Unknown PDF parsing error")
                   (match t with
                    | ErrorObject (Error _) => "Error"
                    | ErrorObject (TypeError _) => "TypeError"
                    | ErrorObject (SyntaxError _) => "SyntaxError"
                    | OtherValue => "Unknown"
                    end) file, g)
            | DataReady pdfData =>
                match extractText pdfData with
                | None =>
                    (processingFailure "URI malformed" "URIError" file, g)
                | Some EmptyString =>
                    (processingFailure "pdfData is not defined"
                                       "ReferenceError" file, g)
                | Some extractedText =>
                    let resumeData :=
                      {| id := toString now;
                         userId := emailOf sess;
                         fileName := name file;
                         content := extractedText;
                         uploadedAt := isoNow |} in
                    ({| status := 200;
                        body := Uploaded (id resumeData) extractedText
                                         (name file) |},
                     Some (set (storeOrNew g) (id resumeData) resumeData))
                end
            end
      end
  end.

End Route.
End Upload.

End Store.

(** ** Documents without text *)

Module Scanned.
Import Store Store.Upload.

(** A run, a text item, a page, a document that brings no text: every
    [T] is absent or empty, as in a document of scanned images. *)
Definition emptyRun (run : Run) : bool :=
  match T run with
  | Some (String _ _) => false
  | _ => true
  end.

Definition emptyItem (item : TextItem) : bool :=
  match R item with
  | Some runs => forallb emptyRun runs
  | None => true
  end.

Definition emptyPage (page : Page) : bool :=
  match Texts page with
  | Some items => forallb emptyItem items
  | None => true
  end.

Definition noText (pdfData : PdfData) : bool :=
  match Pages pdfData with
  | Some pages => forallb emptyPage pages
  | None => true
  end.

End Scanned.

(** ** The sections of the resume editor *)

Module Editor.
Import JS.

Record ResumeSection : Type := {
  id : string;
  title : string;
  content : string;
  editable : bool
}.

(** [content.split('\n')]: the pieces between the line feeds; a text with
    no line feed is its only piece. *)
Fixpoint splitLines (s : string) : list string :=
  match s with
  | EmptyString => [EmptyString]
  | String c s' =>
      if nat_of_ascii c =? 10 then EmptyString :: splitLines s'
      else match splitLines s' with
           | l :: ls => String c l :: ls
           | [] => [String c EmptyString]
           end
  end.

(** [r] matches the whole of [s]: a regular expression between [^] and
    [$], without flags. *)
Fixpoint matchesAll (r : regex) (s : string) : bool :=
  match s with
  | EmptyString => nullable r
  | String c s' => matchesAll (deriv c r) s'
  end.

(** The class [[A-Z\s]]. *)
Definition isHeaderChar (c : ascii) : bool :=
  let n := nat_of_ascii c in
  ((65 <=? n) && (n <=? 90)) || isWhiteSpace c.

(** [/^[A-Z\s]+$/] *)
Definition headerRegex : regex := Plus (Class isHeaderChar).

(** The test of a section header. *)
Definition isHeader (line : string) : bool :=
  matchesAll headerRegex line
  && (3 <? String.length line)
  && negb (includes line "|")
  && negb (includes line "@").

(** [s.replace(/\s+/g, '-')]: every maximal run of white space becomes one
    hyphen.  [inrun] tells that the previous code unit was white space. *)
Fixpoint replaceRuns_from (inrun : bool) (s : string) : string :=
  match s with
  | EmptyString => EmptyString
  | String c s' =>
      if isWhiteSpace c then
        if inrun then replaceRuns_from true s'
        else String "-" (replaceRuns_from true s')
      else String c (replaceRuns_from false s')
  end.

Definition replaceRuns (s : string) : string := replaceRuns_from false s.

(** The line feed. *)
Definition lineFeed : string := String (ascii_of_nat 10) EmptyString.

(** The variables of the loop. *)
Record State : Type := {
  currentSection : string;
  currentContent : list string;
  parsedSections : list ResumeSection
}.

Definition sectionOf (st : State) : ResumeSection :=
  {| id := replaceRuns (toLowerCase (currentSection st));
     title := currentSection st;
     content := join lineFeed (currentContent st);
     editable := true |}.

(** [if (currentSection && currentContent.length > 0) parsedSections.push] *)
Definition pushed (st : State) : list ResumeSection :=
  match currentSection st, currentContent st with
  | String _ _, _ :: _ => (parsedSections st ++ [sectionOf st])%list
  | _, _ => parsedSections st
  end.

(** The body of the loop, for one line. *)
Definition step (st : State) (rawLine : string) : State :=
  let line := trim rawLine in
  if isHeader line then
    {| currentSection := line;
       currentContent := [];
       parsedSections := pushed st |}
  else
    match line, currentContent st with
    | String _ _, _ =>
        {| currentSection := currentSection st;
           currentContent := (currentContent st ++ [line])%list;
           parsedSections := parsedSections st |}
    | EmptyString, _ :: _ =>
        {| currentSection := currentSection st;
           currentContent := (currentContent st ++ [EmptyString])%list;
           parsedSections := parsedSections st |}
    | EmptyString, [] => st
    end.

Definition initial : State :=
  {| currentSection := EmptyString;
     currentContent := [];
     parsedSections := [] |}.

(** The bullet U+2022 of the default texts, in UTF-8: it is only shown. *)
Definition bullet : string :=
  String (ascii_of_nat 226)
    (String (ascii_of_nat 128) (String (ascii_of_nat 162) EmptyString)).

Definition defaultSections : list ResumeSection :=
  [ {| id := "header"; title := "Header";
       content := "JOHN DOE" ++ lineFeed ++ "Software Engineer";
       editable := true |};
    {| id := "summary"; title := "Professional Summary";
       content := "Experienced professional with...";
       editable := true |};
    {| id := "skills"; title := "Technical Skills";
       content := bullet ++ " Skill 1" ++ lineFeed ++ bullet ++ " Skill 2" ++ lineFeed
                  ++ bullet ++ " Skill 3";
       editable := true |};
    {| id := "experience"; title := "Professional Experience";
       content := "Job Title | Company | Dates" ++ lineFeed ++ bullet
                  ++ " Achievement 1" ++ lineFeed ++ bullet ++ " Achievement 2";
       editable := true |};
    {| id := "education"; title := "Education";
       content := "Degree | University | Year";
       editable := true |} ].

(** The sections found in the lines, before the default is taken. *)
Definition parsedOf (lines : list string) : list ResumeSection :=
  pushed (fold_left step lines initial).

(** [parseContentIntoSections]: the list it hands to [setSections]. *)
Definition parseContentIntoSections (content : string)
  : list ResumeSection :=
  match parsedOf (splitLines content) with
  | [] => defaultSections
  | parsed => parsed
  end.

End Editor.

(** ** What a parsed section looks like *)

Module EditorSpec.
Import JS Spec Editor.

(** The code units of a slug: the letters a to z and the hyphen. *)
Definition isSlugChar (c : ascii) : bool :=
  isLowerLetter c || (nat_of_ascii c =? 45).

(** A section made from a header line of the text: its title passes the
    header test, its content is not empty, its id is the title in lower
    case with hyphens for the white space, and is a slug. *)
Definition fromHeader (sec : ResumeSection) : Prop :=
  isHeader (title sec) = true
  /\ content sec <> ""
  /\ id sec = replaceRuns (toLowerCase (title sec))
  /\ allChars isSlugChar (id sec) = true
  /\ editable sec = true.

(** Two states of the loop that will give the same sections: the same
    state, or two states that both have no section open and none
    parsed. *)
Definition alike (st st' : State) : Prop :=
  st = st'
  \/ (currentSection st = "" /\ currentSection st' = ""
      /\ parsedSections st = [] /\ parsedSections st' = []).

(** What the loop keeps true. *)
Definition sound (st : State) : Prop :=
  Forall fromHeader (parsedSections st)
  /\ (currentSection st = "" \/ isHeader (currentSection st) = true)
  /\ match currentContent st with
     | [] => True
     | l :: _ => l <> ""
     end.

End EditorSpec.

(** ** Files and documents for the examples *)

Module StoreExamples.
Import JS Json Gateway Store Store.Upload.

(** [decodeURIComponent] on a text whose escapes all name a code unit
    below 128: such an escape is a percent sign and two hexadecimal
    digits.  Another escape is not decoded here. *)
Fixpoint decodeAscii (s : string) : option string :=
  match s with
  | EmptyString => Some EmptyString
  | String c s' =>
      if nat_of_ascii c =? 37 then
        match s' with
        | String h (String l rest) =>
            match hexDigit h, hexDigit l, decodeAscii rest with
            | Some x, Some y, Some t =>
                if (x * 16 + y <? 128)%N
                then Some (String (ascii_of_N (x * 16 + y)) t)
                else None
            | _, _, _ => None
            end
        | _ => None
        end
      else
        match decodeAscii s' with
        | Some t => Some (String c t)
        | None => None
        end
  end.

Definition textPage (runs : list string) : Page :=
  {| Texts := Some [ {| R := Some (map (fun t => {| T := Some t |}) runs) |} ] |}.

(** A document with one page of text. *)
Definition textDocument : PdfData :=
  {| Pages := Some [textPage ["Jane%20Doe"; "Engineer"]] |}.

(** A document of two scanned pages: text items without text. *)
Definition scannedDocument : PdfData :=
  {| Pages := Some [ {| Texts := Some [ {| R := Some [ {| T := Some "" |} ] |} ] |};
                     {| Texts := Some [] |} ] |}.

(** A document whose second run ends in the middle of an escape. *)
Definition brokenDocument : PdfData :=
  {| Pages := Some [textPage ["Jane%20Doe"; "100%"]] |}.

(** A parser for the examples: the bytes "scan" are the scanned document,
    the bytes "broken" the broken one, all others the document with
    text. *)
Definition parseExample (bytes : string) : ParserEvent :=
  if String.eqb bytes "scan" then DataReady scannedDocument
  else if String.eqb bytes "broken" then DataReady brokenDocument
  else DataReady textDocument.

Definition pdfFile (name bytes : string) : File :=
  {| Upload.name := name; type := "application/pdf"; bytes := bytes |}.

Definition signedIn (mail : string) : Session :=
  {| user := Some {| email := str mail |} |}.

Definition jane : Session := signedIn "jane@example.org".
Definition joe : Session := signedIn "joe@example.org".

Definition resumeOfJane : ResumeData :=
  {| id := "42";
     userId := str "jane@example.org";
     fileName := "cv.pdf";
     content := "Jane Doe";
     uploadedAt := "2025-01-01T00:00:00.000Z" |}.

End StoreExamples.

(** ** The routes on a body of any shape

    [await request.json()] gives whatever JSON text the caller sent: a
    field of the body can be a number, a boolean, an array or an object as
    well as a string.  The routes do three things with a field: they test
    it for truth, compare it with a string literal by [===], and put it
    into a template literal, which converts it to a string.  The
    conversion of an object can throw: every member of an object read from
    JSON is data, so an object with a member named [toString] has no
    callable [toString] and no [valueOf] that gives a primitive value, and
    the conversion throws a TypeError.  The templates are evaluated inside
    the inner [try] of the routes, before the model is called.

    [Gateway] above is this model on the bodies whose fields are absent,
    [null] or strings. *)

Module AnyBody.
Import JS Json Gateway.

(** A field of the body after destructuring.  [other] is a value that is
    neither absent, [null] nor a string, given by what the routes see of
    it: whether it is truthy, and what its conversion to a string gives. *)
Inductive value : Type :=
| undefined
| null
| str (s : string)
| other (truth : bool) (text : completion string).

Definition truthy (v : value) : bool :=
  match v with
  | str (String _ _) => true
  | other truth _ => truth
  | _ => false
  end.

(** The conversion a template literal applies for [${v}]. *)
Definition template (v : value) : completion string :=
  match v with
  | undefined => Return "undefined"
  | null => Return "null"
  | str s => Return s
  | other _ text => text
  end.

(** [${v || 'general'}] *)
Definition orGeneral (v : value) : completion string :=
  if truthy v then template v else Return "general".

(** [v === w] for a string literal [w]. *)
Definition strictEq (v : value) (w : string) : bool :=
  match v with
  | str s => String.eqb s w
  | _ => false
  end.

(** A throw ends the evaluation of a template: the parts are converted
    from left to right. *)
Definition bind {A B : Type} (c : completion A) (f : A -> completion B)
  : completion B :=
  match c with
  | Return a => f a
  | Throw e => Throw e
  end.

Notation "x <- c ;; f" := (bind c (fun x => f))
  (at level 61, c at next level, right associativity).

(** The fields of [Gateway] as fields of any shape. *)
Definition ofPlain (v : jsvalue) : value :=
  match v with
  | Gateway.undefined => undefined
  | Gateway.null => null
  | Gateway.str s => str s
  end.

(** An object with a member named [toString], as JSON gives it: it is
    truthy and cannot be converted to a string. *)
Definition unconvertible : value :=
  other true (Throw (TypeError "Cannot convert object to primitive value")).

(** The read of a body through [completion]. *)
Definition read {A B : Type} (f : A -> B) (c : completion A)
  : completion B :=
  match c with
  | Return a => Return (f a)
  | Throw e => Throw e
  end.

(** *** The improve route *)

Module Improve.

Record Request : Type := {
  resumeContent : value;
  targetRole : value;
  targetArea : value;
  action : value;
  command : value
}.

(** The template of the action "auto-improve" around its converted
    parts. *)
Definition autoImproveText (role area resume : string) : string :=
  "You are a professional resume expert. Improve this resume for a "
  ++ role ++ " position in " ++ area
  ++ " field.

INSTRUCTIONS:
1. Enhance the formatting and structure
2. Make the language more professional and impactful
3. Optimize for ATS (Applicant Tracking Systems)
4. Add relevant keywords for the target role
5. Improve bullet points to be more action-oriented
6. Ensure consistent formatting throughout
7. Keep all the original information but present it better

Original Resume:
" ++ resume ++ "

Return the improved resume content directly (no JSON, no explanations, just the improved resume text).".

(** The template of the action "chat-command" around its converted parts;
    the command is converted twice. *)
Definition chatCommandText (request role area resume again : string)
  : string :=
  "You are a professional resume expert. The user wants you to modify their resume based on this request: "
  ++ dq ++ request ++ dq ++ "

Current resume for " ++ role ++ " in "
  ++ area ++ ":
" ++ resume ++ "

User's request: " ++ again ++ "

Apply the requested changes to the resume and return the modified resume content directly (no JSON, no explanations, just the updated resume text).".

(** [let prompt = ''], then the two branches on [action]. *)
Definition promptOf (r : Request) : completion string :=
  if strictEq (action r) "auto-improve" then
    role <- template (targetRole r);;
    area <- orGeneral (targetArea r);;
    resume <- template (resumeContent r);;
    Return (autoImproveText role area resume)
  else if strictEq (action r) "chat-command" then
    request <- template (command r);;
    role <- template (targetRole r);;
    area <- orGeneral (targetArea r);;
    resume <- template (resumeContent r);;
    again <- template (command r);;
    Return (chatCommandText request role area resume again)
  else Return "".

(** [let message = ''], then the two branches on [action]. *)
Definition messageOf (r : Request) : completion string :=
  if strictEq (action r) "auto-improve" then
    Return (checkMark ++ " Your resume has been automatically improved! Key enhancements: better formatting, professional language, ATS optimization, and keyword enhancement.")
  else if strictEq (action r) "chat-command" then
    request <- template (command r);;
    Return (checkMark ++ " Applied your request: " ++ dq ++ request
            ++ dq ++ ". Your resume has been updated!")
  else Return "".

Definition paramsOf (prompt : string) : GenerateContentParams :=
  {| model := "gemini-2.0-flash-exp";
     contents := prompt;
     temperature := 3 # 10;
     maxOutputTokens := 3000 |}.

Definition ofPlain (r : Gateway.Improve.Request) : Request :=
  {| resumeContent := AnyBody.ofPlain (Gateway.Improve.resumeContent r);
     targetRole := AnyBody.ofPlain (Gateway.Improve.targetRole r);
     targetArea := AnyBody.ofPlain (Gateway.Improve.targetArea r);
     action := AnyBody.ofPlain (Gateway.Improve.action r);
     command := AnyBody.ofPlain (Gateway.Improve.command r) |}.

Section Route.

Variable generateContent : GenerateContentParams -> GenerateOutcome.

(** The handler: its response, and the calls it made to the model, in
    order.  [request] is the outcome of [await request.json()] and of the
    destructuring.  What is thrown while the prompt or the message is
    built is caught with what the call throws. *)
Definition POST (session : option Session) (request : completion Request)
  : Response * list GenerateContentParams :=
  match session with
  | None => ({| status := 401; body := Failure "Unauthorized" None |}, [])
  | Some _ =>
      match request with
      | Throw e =>
          ({| status := 500;
              body := Failure "Improvement failed" (Some (message_of e)) |},
           [])
      | Return r =>
          if negb (truthy (resumeContent r)) || negb (truthy (action r)) then
            ({| status := 400;
                body := Failure "Resume content and action are required"
                                None |}, [])
          else
            match promptOf r with
            | Throw e =>
                ({| status := 503;
                    body := Failure "AI improvement failed"
                                    (Some (message_of e)) |}, [])
            | Return prompt =>
                let call := paramsOf prompt in
                match generateContent call with
                | Rejects t =>
                    ({| status := 503;
                        body := Failure "AI improvement failed"
                                        (Some (detailsOf t unavailable)) |},
                     [call])
                | Responds None | Responds (Some EmptyString) =>
                    ({| status := 503;
                        body := Failure "AI improvement failed"
                                        (Some noText) |},
                     [call])
                | Responds (Some text) =>
                    match messageOf r with
                    | Throw e =>
                        ({| status := 503;
                            body := Failure "AI improvement failed"
                                            (Some (message_of e)) |},
                         [call])
                    | Return message =>
                        ({| status := 200;
                            body := Improved (Gateway.Improve.cleanUp text)
                                             message |},
                         [call])
                    end
                end
            end
      end
  end.

End Route.
End Improve.

(** *** The analyze route *)

Module Analyze.

Record Request : Type := {
  resumeContent : value;
  targetRole : value;
  targetArea : value
}.

(** The template of the prompt around its converted parts. *)
Definition promptText (role area resume : string) : string :=
  "Analyze this resume for a " ++ role ++ " position in "
  ++ area ++ ".

IMPORTANT: Return ONLY a valid JSON object with these exact fields:
- overallScore: number (0-100)
- strengths: array of strings
- improvements: array of objects with {category, issue, suggestion, priority, section}
- missingKeywords: array of strings
- enhancementAreas: array of strings
- contentSuggestions: array of objects with {section, currentText, suggestedText, reason}

Resume Content:
" ++ resume ++ "

Return only the JSON, no other text.".

Definition promptOf (r : Request) : completion string :=
  role <- template (targetRole r);;
  area <- orGeneral (targetArea r);;
  resume <- template (resumeContent r);;
  Return (promptText role area resume).

Definition paramsOf (prompt : string) : GenerateContentParams :=
  {| model := "gemini-2.0-flash-exp";
     contents := prompt;
     temperature := 3 # 10;
     maxOutputTokens := 2000 |}.

Definition ofPlain (r : Gateway.Analyze.Request) : Request :=
  {| resumeContent := AnyBody.ofPlain (Gateway.Analyze.resumeContent r);
     targetRole := AnyBody.ofPlain (Gateway.Analyze.targetRole r);
     targetArea := AnyBody.ofPlain (Gateway.Analyze.targetArea r) |}.

Section Route.

Variable generateContent : GenerateContentParams -> GenerateOutcome.

Definition POST (session : option Session) (request : completion Request)
  : Response * list GenerateContentParams :=
  match session with
  | None => ({| status := 401; body := Failure "Unauthorized" None |}, [])
  | Some _ =>
      match request with
      | Throw e =>
          ({| status := 500;
              body := Failure "Analysis failed" (Some (message_of e)) |},
           [])
      | Return r =>
          if negb (truthy (resumeContent r)) || negb (truthy (targetRole r))
          then
            ({| status := 400;
                body := Failure "Resume content and target role are required"
                                None |}, [])
          else
            match promptOf r with
            | Throw e =>
                ({| status := 503;
                    body := Failure "AI analysis failed"
                                    (Some (message_of e)) |}, [])
            | Return prompt =>
                let call := paramsOf prompt in
                match generateContent call with
                | Rejects t =>
                    ({| status := 503;
                        body := Failure "AI analysis failed"
                                        (Some (detailsOf t unavailable)) |},
                     [call])
                | Responds None | Responds (Some EmptyString) =>
                    ({| status := 503;
                        body := Failure "AI analysis failed" (Some noText) |},
                     [call])
                | Responds (Some analysisText) =>
                    match JSON_parse
                            (Gateway.Analyze.cleanedResponse analysisText)
                    with
                    | Return analysis =>
                        ({| status := 200; body := Analyzed analysis |},
                         [call])
                    | Throw e =>
                        ({| status := 503;
                            body := Failure "AI analysis failed"
                                            (Some (message_of e)) |},
                         [call])
                    end
                end
            end
      end
  end.

End Route.
End Analyze.

End AnyBody.

(** ** Regular expressions: the derivatives decide the matching *)

Section RegexFacts.

Lemma append_nil_r (s : string) : s ++ "" = s.
Proof.
  induction s as [|c s IH]; simpl; [reflexivity | now rewrite IH].
Qed.

Lemma append_assoc (a b c : string) : (a ++ b) ++ c = a ++ b ++ c.
Proof.
  induction a as [|x a IH]; simpl; [reflexivity | now rewrite IH].
Qed.

Lemma append_eq_nil (a b : string) : a ++ b = "" -> a = "" /\ b = "".
Proof.
  destruct a; simpl; [auto | discriminate].
Qed.

Lemma nullable_matches r : nullable r = true <-> matches r "".
Proof.
  split.
  - induction r; simpl; intros H; try discriminate.
    + constructor.
    + apply andb_true_iff in H. destruct H as [H1 H2].
      change "" with ("" ++ ""). constructor; auto.
    + apply orb_true_iff in H. destruct H as [H|H];
        [apply MAltL | apply MAltR]; auto.
    + constructor.
  - induction r; intros H; inversion H; subst; simpl; auto.
    + match goal with E : _ ++ _ = "" |- _ =>
        apply append_eq_nil in E; destruct E; subst end.
      apply andb_true_iff; auto.
    + apply orb_true_iff; auto.
    + apply orb_true_iff; auto.
Qed.

(** A non-empty match of a star starts with a non-empty match of its
    body. *)
Lemma star_cons r c s :
  matches (Star r) (String c s) ->
  exists s1 s2, s = s1 ++ s2 /\ matches r (String c s1)
                /\ matches (Star r) s2.
Proof.
  intros H. remember (Star r) as R eqn:ER. remember (String c s) as x eqn:Ex.
  revert c s Ex.
  induction H; intros c0 s0 Ex; try discriminate.
  injection ER as ->.
  destruct s1 as [|c1 s1].
  - simpl in Ex. now apply IHmatches2.
  - simpl in Ex. injection Ex as -> <-. exists s1, s2. auto.
Qed.

Lemma deriv_matches c r s : matches (deriv c r) s <-> matches r (String c s).
Proof.
  split.
  - revert s. induction r; simpl; intros s H.
    + inversion H.
    + inversion H.
    + destruct (p c) eqn:E; inversion H; subst. now constructor.
    + destruct (nullable r1) eqn:E.
      * inversion H; subst.
        -- match goal with M : matches (Seq _ _) _ |- _ =>
             inversion M; subst end.
           change (String c (s1 ++ s2)) with (String c s1 ++ s2).
           constructor; auto.
        -- change (String c s) with ("" ++ String c s).
           constructor; [now apply nullable_matches | auto].
      * inversion H; subst.
        change (String c (s1 ++ s2)) with (String c s1 ++ s2).
        constructor; auto.
    + inversion H; subst; [apply MAltL | apply MAltR]; auto.
    + inversion H; subst.
      change (String c (s1 ++ s2)) with (String c s1 ++ s2).
      constructor; auto.
  - revert s. induction r; simpl; intros s H.
    + inversion H.
    + inversion H.
    + inversion H; subst.
      match goal with E : p c = true |- _ => rewrite E end. constructor.
    + inversion H; subst.
      destruct s1 as [|c1 s1].
      * match goal with E : "" ++ _ = _ |- _ => simpl in E; subst end.
        match goal with M : matches r1 "" |- _ =>
          apply nullable_matches in M; rewrite M end.
        apply MAltR. auto.
      * match goal with E : String _ _ ++ _ = _ |- _ =>
          simpl in E; injection E as -> <- end.
        destruct (nullable r1); [apply MAltL|]; constructor; auto.
    + inversion H; subst; [apply MAltL | apply MAltR]; auto.
    + apply star_cons in H. destruct H as (s1 & s2 & -> & H1 & H2).
      constructor; auto.
Qed.

Lemma matchesPrefix_spec r s :
  matchesPrefix r s = true <-> exists p q, s = p ++ q /\ matches r p.
Proof.
  revert r. induction s as [|c s IH]; intros r; simpl.
  - rewrite orb_false_r. split.
    + intros H. exists "", "". split; [reflexivity|].
      now apply nullable_matches.
    + intros (p & q & E & H). symmetry in E.
      apply append_eq_nil in E. destruct E; subst.
      now apply nullable_matches.
  - split.
    + intros H. apply orb_true_iff in H. destruct H as [H|H].
      * exists "", (String c s). split; [reflexivity|].
        now apply nullable_matches.
      * apply IH in H. destruct H as (p & q & -> & H).
        exists (String c p), q. split; [reflexivity|].
        now apply deriv_matches.
    + intros (p & q & E & H). apply orb_true_iff.
      destruct p as [|c1 p].
      * left. now apply nullable_matches.
      * right. simpl in E. injection E as -> ->.
        apply IH. exists p, q. split; [reflexivity|].
        now apply deriv_matches.
Qed.

(** [test] holds when a substring matches. *)
Lemma test_spec r s :
  test r s = true <-> exists a p q, s = a ++ p ++ q /\ matches r p.
Proof.
  induction s as [|c s IH]; simpl.
  - rewrite !orb_false_r. split.
    + intros H. exists "", "", "". split; [reflexivity|].
      now apply nullable_matches.
    + intros (a & p & q & E & H). symmetry in E.
      apply append_eq_nil in E. destruct E as [-> E].
      apply append_eq_nil in E. destruct E as [-> ->].
      now apply nullable_matches.
  - split.
    + intros H. apply orb_true_iff in H. destruct H as [H|H].
      * change (matchesPrefix r (String c s) = true) in H.
        apply matchesPrefix_spec in H. destruct H as (p & q & E & H).
        exists "", p, q. auto.
      * apply IH in H. destruct H as (a & p & q & -> & H).
        exists (String c a), p, q. auto.
    + intros (a & p & q & E & H). apply orb_true_iff.
      destruct a as [|c1 a].
      * left. change (matchesPrefix r (String c s) = true).
        apply matchesPrefix_spec. exists p, q. auto.
      * right. simpl in E. injection E as -> ->. apply IH.
        exists a, p, q. auto.
Qed.

Lemma test_Alt r1 r2 s : test (Alt r1 r2) s = test r1 s || test r2 s.
Proof.
  apply eq_true_iff_eq. rewrite orb_true_iff, !test_spec. split.
  - intros (a & p & q & E & H). inversion H; subst; [left|right];
      exists a, p, q; auto.
  - intros [(a & p & q & E & H)|(a & p & q & E & H)];
      exists a, p, q; (split; [exact E|]);
      [apply MAltL | apply MAltR]; auto.
Qed.

(** *** Facts checked on all 256 code units *)

Lemma allAscii_spec f : allAscii f = true -> forall x, f x = true.
Proof.
  unfold allAscii. rewrite forallb_forall. intros H x.
  rewrite <- (ascii_nat_embedding x). apply H.
  apply in_seq. pose proof (nat_ascii_bounded x). lia.
Qed.

Lemma chr_lower c x :
  isLowerLetter c = true ->
  Ascii.eqb (canonicalize x) (canonicalize c) = Ascii.eqb c (toLowerChar x).
Proof.
  intros Hc.
  assert (H : allAscii (fun c => allAscii (fun x =>
                implb (isLowerLetter c)
                      (Bool.eqb (Ascii.eqb (canonicalize x) (canonicalize c))
                                (Ascii.eqb c (toLowerChar x))))) = true)
    by (vm_compute; reflexivity).
  pose proof (allAscii_spec _ (allAscii_spec _ H c) x) as E.
  cbv beta in E. rewrite Hc in E. now apply Bool.eqb_prop in E.
Qed.

Lemma chr_symbol c x :
  isLowerLetter c = false -> isLowerLetter (toLowerChar c) = false ->
  Ascii.eqb (canonicalize x) (canonicalize c) = isChar c x.
Proof.
  intros Hc Hl.
  assert (H : allAscii (fun c => allAscii (fun x =>
                implb (negb (isLowerLetter c)
                       && negb (isLowerLetter (toLowerChar c)))
                      (Bool.eqb (Ascii.eqb (canonicalize x) (canonicalize c))
                                (isChar c x)))) = true)
    by (vm_compute; reflexivity).
  pose proof (allAscii_spec _ (allAscii_spec _ H c) x) as E.
  cbv beta in E. rewrite Hc, Hl in E. now apply Bool.eqb_prop in E.
Qed.

(** *** Words *)

Lemma matchesPrefix_Seq_Never r s : matchesPrefix (Seq Never r) s = false.
Proof.
  induction s as [|c s IH]; simpl; auto.
Qed.

Lemma matchesPrefix_Alt r1 r2 s :
  matchesPrefix (Alt r1 r2) s = matchesPrefix r1 s || matchesPrefix r2 s.
Proof.
  revert r1 r2. induction s as [|c s IH]; intros r1 r2; simpl.
  - now rewrite !orb_false_r.
  - rewrite IH.
    destruct (nullable r1), (nullable r2),
      (matchesPrefix (deriv c r1) s); reflexivity.
Qed.

Lemma matchesPrefix_Seq_Empty r s :
  matchesPrefix (Seq Empty r) s = matchesPrefix r s.
Proof.
  destruct s as [|c s]; simpl; [reflexivity|].
  now rewrite matchesPrefix_Alt, matchesPrefix_Seq_Never.
Qed.

Lemma prefix_nil s : String.prefix "" s = true.
Proof. now destruct s. Qed.

(** A lower-case word matches at the head of a text when it is at the head
    of the case-folded text. *)
Lemma matchesPrefix_word w s :
  allChars isLowerLetter w = true ->
  matchesPrefix (word w) s = String.prefix w (toLowerCase s).
Proof.
  revert s. induction w as [|c w IH]; intros s Hw.
  - rewrite prefix_nil. now destruct s.
  - cbn [allChars] in Hw. apply andb_true_iff in Hw. destruct Hw as [Hc Hw].
    destruct s as [|x s]; [reflexivity|].
    cbn [word matchesPrefix nullable chr deriv andb orb toLowerCase
         String.prefix].
    rewrite (chr_lower c x Hc).
    destruct (ascii_dec c (toLowerChar x)) as [E|E].
    + rewrite E, Ascii.eqb_refl, matchesPrefix_Seq_Empty. now apply IH.
    + apply Ascii.eqb_neq in E. rewrite E. apply matchesPrefix_Seq_Never.
Qed.

Lemma test_word w s :
  allChars isLowerLetter w = true ->
  test (word w) s = includes (toLowerCase s) w.
Proof.
  intros Hw. induction s as [|c s IH].
  - cbn [test toLowerCase includes]. now rewrite (matchesPrefix_word w "" Hw).
  - cbn [test toLowerCase includes].
    rewrite (matchesPrefix_word w (String c s) Hw), IH. reflexivity.
Qed.

(** *** Figures *)

Lemma adjacent_cons p q x y t :
  adjacent p q (String x (String y t))
  = (p x && q y) || adjacent p q (String y t).
Proof. reflexivity. Qed.

Lemma adjacent_spec p q s :
  adjacent p q s = true
  <-> exists a x y b, s = a ++ String x (String y b)
                      /\ p x = true /\ q y = true.
Proof.
  induction s as [|c s IH].
  - split; [discriminate|].
    intros (a & x & y & b & E & _). destruct a; discriminate.
  - destruct s as [|d s].
    + split; [discriminate|].
      intros (a & x & y & b & E & _).
      destruct a as [|? [|? ?]]; discriminate.
    + rewrite adjacent_cons, orb_true_iff, andb_true_iff, IH. split.
      * intros [[Hp Hq]|(a & x & y & b & E & Hp & Hq)].
        -- exists "", c, d, s. auto.
        -- exists (String c a), x, y, b. rewrite E. auto.
      * intros (a & x & y & b & E & Hp & Hq). destruct a as [|c1 a].
        -- simpl in E. injection E as -> -> ->. auto.
        -- simpl in E. injection E as -> E. right.
           exists a, x, y, b. auto.
Qed.

Lemma adjacent_ext p q p' q' s :
  (forall x, p x = p' x) -> (forall x, q x = q' x) ->
  adjacent p q s = adjacent p' q' s.
Proof.
  intros Hp Hq. induction s as [|c s IH]; [reflexivity|].
  destruct s as [|d s]; [reflexivity|].
  now rewrite !adjacent_cons, IH, Hp, Hq.
Qed.

Lemma adjacent_chr_r p c s :
  isLowerLetter c = false -> isLowerLetter (toLowerChar c) = false ->
  adjacent p (fun x => Ascii.eqb (canonicalize x) (canonicalize c)) s
  = adjacent p (isChar c) s.
Proof.
  intros Hc Hl. apply adjacent_ext; [reflexivity|].
  intros x. now apply chr_symbol.
Qed.

Lemma adjacent_chr_l q c s :
  isLowerLetter c = false -> isLowerLetter (toLowerChar c) = false ->
  adjacent (fun x => Ascii.eqb (canonicalize x) (canonicalize c)) q s
  = adjacent (isChar c) q s.
Proof.
  intros Hc Hl. apply adjacent_ext; [|reflexivity].
  intros x. now apply chr_symbol.
Qed.

(** A run of the class, with one more in front, ends with one of the
    class. *)
Lemma star_class_last P t :
  matches (Star (Class P)) t ->
  forall x, P x = true ->
  exists front z, String x t = front ++ String z "" /\ P z = true.
Proof.
  intros H. remember (Star (Class P)) as R eqn:ER.
  induction H; try discriminate; injection ER as ->; intros x Hx.
  - exists "", x. auto.
  - match goal with M : matches (Class P) _ |- _ => inversion M; subst end.
    destruct (IHmatches2 eq_refl c) as (front & z & E & Hz); [assumption|].
    exists (String x front), z. split; [|exact Hz].
    cbn [append]. now rewrite E.
Qed.

Lemma test_plus_then P Q s :
  test (Seq (Plus (Class P)) (Class Q)) s = adjacent P Q s.
Proof.
  apply eq_true_iff_eq. rewrite test_spec, adjacent_spec. split.
  - intros (a & p & q & -> & H).
    inversion H as [| |r1 r2 s12 s3 H12 H3| | | |]; subst.
    inversion H12 as [| |r1 r2 s1 s2 H1 H2| | | |]; subst.
    inversion H1; subst. inversion H3; subst.
    destruct (star_class_last P s2 H2 c) as (front & z & E & Hz);
      [assumption|].
    exists (a ++ front), z, c0, q. split; [|auto].
    change (String c "" ++ s2) with (String c s2).
    rewrite E, !append_assoc. reflexivity.
  - intros (a & x & y & b & -> & Hx & Hy).
    exists a, (String x (String y "")), b. split; [reflexivity|].
    change (String x (String y "")) with ((String x "" ++ "") ++ String y "").
    repeat constructor; assumption.
Qed.

Lemma test_then_plus Q P s :
  test (Seq (Class Q) (Plus (Class P))) s = adjacent Q P s.
Proof.
  apply eq_true_iff_eq. rewrite test_spec, adjacent_spec. split.
  - intros (a & p & q & -> & H).
    inversion H as [| |r1 r2 s1 s23 H1 H23| | | |]; subst.
    inversion H23 as [| |r1 r2 s2 s3 H2 H3| | | |]; subst.
    inversion H1; subst. inversion H2; subst.
    exists a, c, c0, (s3 ++ q). split; [|auto].
    now rewrite !append_assoc.
  - intros (a & x & y & b & -> & Hx & Hy).
    exists a, (String x (String y "")), b. split; [reflexivity|].
    change (String x (String y "")) with (String x "" ++ String y "" ++ "").
    repeat constructor; assumption.
Qed.

(** The regular expression of the quantification check says what the
    specification says. *)
Lemma quantifiedRegex_spec s : test quantifiedRegex s = mentionsQuantity s.
Proof.
  unfold quantifiedRegex, mentionsQuantity, digit, chr.
  rewrite !test_Alt, !test_plus_then, test_then_plus.
  rewrite !test_word by reflexivity.
  rewrite !adjacent_chr_r, adjacent_chr_l by reflexivity.
  now rewrite !orb_assoc.
Qed.

(** So does the one of the action-verb check. *)
Lemma actionVerbRegex_spec s : test actionVerbRegex s = usesActionVerb s.
Proof.
  unfold actionVerbRegex, usesActionVerb.
  rewrite !test_Alt, !test_word by reflexivity.
  now rewrite !orb_assoc.
Qed.

End RegexFacts.

(** ** Properties of the suggestion engine *)

Section SuggestionEngine.

Lemma count_id_app i (l1 l2 : list Suggestion) :
  count_id i (l1 ++ l2)%list = count_id i l1 + count_id i l2.
Proof.
  unfold count_id. now rewrite filter_app, length_app.
Qed.

Lemma count_id_one i (x : Suggestion) :
  count_id i [x] = if String.eqb (id x) i then 1 else 0.
Proof.
  unfold count_id. cbn [filter]. now destruct (String.eqb (id x) i).
Qed.

Lemma count_id_nil i : count_id i [] = 0.
Proof. reflexivity. Qed.

Lemma count_id_section i section content role :
  String.eqb "summary-expand" i = false ->
  String.eqb "skills-format" i = false ->
  count_id i (getSectionSpecificSuggestions section content role) = 0.
Proof.
  intros H1 H2. unfold getSectionSpecificSuggestions.
  rewrite count_id_app.
  destruct (_ && _); destruct (_ && _);
    rewrite ?count_id_one, ?count_id_nil;
    cbn [id summaryExpandSuggestion skillsFormatSuggestion];
    rewrite ?H1, ?H2; reflexivity.
Qed.

(** When the role resolves to a keyword list, the engine returns, and this
    is its list. *)
Lemma generate_returns content role area section kws :
  getRoleSpecificKeywords role area = Keywords kws ->
  generateRealTimeSuggestions content role area section
  = Return
      ((if List.length (split_ws content) <? 200
        then [wordCountSuggestion section] else [])
       ++ (if negb (test quantifiedRegex content)
           then [quantifySuggestion section] else [])
       ++ (if negb (test actionVerbRegex content)
           then [actionVerbsSuggestion section] else [])
       ++ (if 0 <? List.length (missingKeywords content kws)
           then [keywordsSuggestion role (missingKeywords content kws)]
           else [])
       ++ (match section with
           | Some (String c s) =>
               getSectionSpecificSuggestions (String c s) content role
           | _ => []
           end))%list.
Proof.
  intros H. unfold generateRealTimeSuggestions. now rewrite H.
Qed.

Lemma count_id_optional_section i (section : option string) content role :
  String.eqb "summary-expand" i = false ->
  String.eqb "skills-format" i = false ->
  count_id i (match section with
              | Some (String c s) =>
                  getSectionSpecificSuggestions (String c s) content role
              | _ => []
              end) = 0.
Proof.
  intros H1 H2. destruct section as [[|c s]|]; try reflexivity.
  now apply count_id_section.
Qed.

(** *** The pieces of [split] and the tokens *)

Lemma split_ws_from_length b s :
  List.length (split_ws_from b s)
  = tokenCount_from b s + (if b then 0 else 1)
    + (if endsBlank_from b s then 1 else 0).
Proof.
  revert b. induction s as [|c s IH]; intros b.
  - destruct b; reflexivity.
  - simpl. destruct (isWhiteSpace c) eqn:Hc.
    + destruct b; simpl; rewrite IH; lia.
    + specialize (IH false).
      destruct (split_ws_from false s) as [|p ps] eqn:Hs.
      * simpl in IH. lia.
      * simpl in *. destruct b; lia.
Qed.

Lemma tokenCount_from_false s :
  tokenCount_from false s + (if startsBlank s then 0 else 1) = tokenCount s.
Proof.
  unfold tokenCount. destruct s as [|c s]; simpl; [reflexivity|].
  destruct (isWhiteSpace c); lia.
Qed.

(** [split] gives one piece per token, one more when the text is empty or
    starts with white space, and one more when it ends with white space. *)
Lemma split_ws_length s :
  List.length (split_ws s)
  = tokenCount s + (if startsBlank s then 1 else 0)
    + (if endsBlank s then 1 else 0).
Proof.
  unfold split_ws, endsBlank. rewrite split_ws_from_length.
  rewrite <- (tokenCount_from_false s).
  destruct (startsBlank s); lia.
Qed.

(** *** Counting and membership in the engine's list *)

Lemma count_id_if i (c : bool) (x : Suggestion) :
  count_id i (if c then [x] else []) = if c && String.eqb (id x) i then 1 else 0.
Proof.
  destruct c; [apply count_id_one | reflexivity].
Qed.

Lemma In_if (c : bool) (x s : Suggestion) :
  In s (if c then [x] else []) -> c = true /\ s = x.
Proof.
  destruct c; simpl; [intros [H|[]]; auto | intros []].
Qed.

Lemma In_section s section content role :
  In s (getSectionSpecificSuggestions section content role) ->
  s = summaryExpandSuggestion role \/ id s = "skills-format".
Proof.
  unfold getSectionSpecificSuggestions. rewrite in_app_iff.
  intros [H|H]; apply In_if in H; destruct H as [_ ->]; auto.
Qed.

Lemma count_summary_expand_section section content role :
  count_id "summary-expand"
           (getSectionSpecificSuggestions section content role)
  = if (String.eqb section "summary"
        || String.eqb section "professional-summary")
       && (String.length content <? 100)
    then 1 else 0.
Proof.
  unfold getSectionSpecificSuggestions.
  rewrite count_id_app, !count_id_if.
  cbn [id summaryExpandSuggestion skillsFormatSuggestion].
  change (String.eqb "summary-expand" "summary-expand") with true.
  change (String.eqb "skills-format" "summary-expand") with false.
  rewrite !andb_true_r, andb_false_r.
  destruct (_ && _); reflexivity.
Qed.

(** The four general checks, with the ids they carry. *)
Lemma In_generate s content role area section kws l :
  getRoleSpecificKeywords role area = Keywords kws ->
  generateRealTimeSuggestions content role area section = Return l ->
  In s l ->
  s = wordCountSuggestion section
  \/ s = quantifySuggestion section
  \/ s = actionVerbsSuggestion section
  \/ s = keywordsSuggestion role (missingKeywords content kws)
  \/ exists sec, section = Some sec /\ sec <> ""
                 /\ In s (getSectionSpecificSuggestions sec content role).
Proof.
  intros Hk Hg. rewrite (generate_returns _ _ _ _ _ Hk) in Hg.
  injection Hg as <-. rewrite !in_app_iff.
  intros [H|[H|[H|[H|H]]]];
    try (apply In_if in H; destruct H as [_ ->]; tauto).
  destruct section as [[|c sec]|]; try contradiction.
  do 4 right. exists (String c sec). repeat split; [discriminate | exact H].
Qed.

(** *** Case folding and the table of roles *)

Lemma toLowerChar_idempotent c : toLowerChar (toLowerChar c) = toLowerChar c.
Proof.
  destruct c as [[] [] [] [] [] [] [] []]; reflexivity.
Qed.

Lemma toLowerCase_idempotent s : toLowerCase (toLowerCase s) = toLowerCase s.
Proof.
  induction s as [|c s IH]; simpl; [reflexivity|].
  now rewrite toLowerChar_idempotent, IH.
Qed.

(** A name with a capital letter is never the case-folded form of a
    role. *)
Lemma toLowerCase_misses role k :
  toLowerCase k <> k -> String.eqb (toLowerCase role) k = false.
Proof.
  intros Hk. apply String.eqb_neq. intros E. apply Hk.
  rewrite <- E. apply toLowerCase_idempotent.
Qed.

Lemma objectPrototype_folded role :
  toLowerCase role <> "constructor" ->
  toLowerCase role <> "__proto__" ->
  objectPrototype (toLowerCase role) = Undefined.
Proof.
  intros H1 H2. unfold objectPrototype.
  apply String.eqb_neq in H1, H2. rewrite H1, H2.
  cbn [existsb].
  rewrite !toLowerCase_misses by (vm_compute; discriminate).
  reflexivity.
Qed.

(** A role outside the table falls back to the default profile, unless its
    case-folded form is [constructor] or [__proto__]. *)
Lemma unknown_role_falls_back role area :
  own keywordMap (toLowerCase role) = None ->
  toLowerCase role <> "constructor" ->
  toLowerCase role <> "__proto__" ->
  getRoleSpecificKeywords role area = Keywords defaultProfile.
Proof.
  intros Hown H1 H2. unfold getRoleSpecificKeywords, get.
  rewrite Hown, (objectPrototype_folded _ H1 H2). reflexivity.
Qed.

(** Apart from these two, every role resolves to a keyword list of the
    table. *)
Lemma role_resolves role area :
  toLowerCase role <> "constructor" ->
  toLowerCase role <> "__proto__" ->
  exists kws, getRoleSpecificKeywords role area = Keywords kws
              /\ In kws (map snd keywordMap).
Proof.
  intros H1 H2.
  destruct (own keywordMap (toLowerCase role)) as [kws|] eqn:Hown.
  - exists kws. split.
    + unfold getRoleSpecificKeywords, get. now rewrite Hown.
    + revert Hown. unfold keywordMap. cbn [own map snd].
      repeat (destruct (String.eqb _ (toLowerCase role));
              [intros [= <-]; cbn [In]; tauto|]).
      discriminate.
  - exists defaultProfile. split.
    + now apply unknown_role_falls_back.
    + cbn. tauto.
Qed.

Lemma objectPrototype_no_list key l : objectPrototype key <> Keywords l.
Proof.
  unfold objectPrototype.
  repeat match goal with |- context [if ?c then _ else _] => destruct c end;
    discriminate.
Qed.

Lemma resolved_in_table role area kws :
  getRoleSpecificKeywords role area = Keywords kws ->
  In kws (map snd keywordMap).
Proof.
  unfold getRoleSpecificKeywords, get.
  destruct (own keywordMap (toLowerCase role)) as [l|] eqn:Hown.
  - cbn [truthy]. intros [= <-]. revert Hown.
    unfold keywordMap. cbn [own map snd].
    repeat (destruct (String.eqb _ (toLowerCase role));
            [intros [= <-]; cbn [In]; tauto|]).
    discriminate.
  - destruct (objectPrototype (toLowerCase role)) eqn:Hp; cbn [truthy];
      try discriminate.
    + cbn. intros [= <-]. tauto.
    + now apply objectPrototype_no_list in Hp.
Qed.

(** *** The checks, one by one *)

Ltac eval_eqb :=
  repeat match goal with
         | |- context [String.eqb ?a ?b] =>
             let v := eval vm_compute in (String.eqb a b) in
             change (String.eqb a b) with v
         end.

Ltac count_checks :=
  rewrite !count_id_app, !count_id_if;
  cbn [id wordCountSuggestion quantifySuggestion actionVerbsSuggestion
       keywordsSuggestion];
  eval_eqb;
  rewrite ?andb_true_r, ?andb_false_r;
  rewrite ?count_id_optional_section by reflexivity.

Lemma word_count_count content role area section kws l :
  getRoleSpecificKeywords role area = Keywords kws ->
  generateRealTimeSuggestions content role area section = Return l ->
  count_id "word-count" l
  = if List.length (split_ws content) <? 200 then 1 else 0.
Proof.
  intros Hk Hg. rewrite (generate_returns _ _ _ _ _ Hk) in Hg.
  injection Hg as <-. count_checks.
  destruct (_ <? 200); reflexivity.
Qed.

(** From 200 tokens on there is no word-count suggestion. *)
Lemma word_count_absent_from_200_tokens content role area section kws l :
  getRoleSpecificKeywords role area = Keywords kws ->
  generateRealTimeSuggestions content role area section = Return l ->
  200 <= tokenCount content ->
  count_id "word-count" l = 0.
Proof.
  intros Hk Hg Ht. rewrite (word_count_count _ _ _ _ _ _ Hk Hg).
  rewrite split_ws_length.
  destruct (_ <? 200) eqn:E; [|reflexivity].
  apply Nat.ltb_lt in E. lia.
Qed.

(** Below 198 tokens there is one, whatever surrounds the tokens. *)
Lemma word_count_present_below_198_tokens content role area section kws l :
  getRoleSpecificKeywords role area = Keywords kws ->
  generateRealTimeSuggestions content role area section = Return l ->
  tokenCount content < 198 ->
  count_id "word-count" l = 1.
Proof.
  intros Hk Hg Ht. rewrite (word_count_count _ _ _ _ _ _ Hk Hg).
  rewrite split_ws_length.
  destruct (_ <? 200) eqn:E; [reflexivity|].
  apply Nat.ltb_ge in E.
  destruct (startsBlank content), (endsBlank content); lia.
Qed.

(** On a text that neither starts nor ends with white space the pieces are
    the tokens. *)
Lemma word_count_of_trimmed_text content role area section kws l :
  getRoleSpecificKeywords role area = Keywords kws ->
  generateRealTimeSuggestions content role area section = Return l ->
  startsBlank content = false -> endsBlank content = false ->
  count_id "word-count" l = if tokenCount content <? 200 then 1 else 0.
Proof.
  intros Hk Hg Hs He. rewrite (word_count_count _ _ _ _ _ _ Hk Hg).
  rewrite split_ws_length, Hs, He. now rewrite !Nat.add_0_r.
Qed.

Lemma keywords_count content role area section kws l :
  getRoleSpecificKeywords role area = Keywords kws ->
  generateRealTimeSuggestions content role area section = Return l ->
  count_id "keywords" l
  = if 0 <? List.length (missingKeywords content kws) then 1 else 0.
Proof.
  intros Hk Hg. rewrite (generate_returns _ _ _ _ _ Hk) in Hg.
  injection Hg as <-. count_checks.
  destruct (0 <? _); reflexivity.
Qed.

(** When a keyword of the profile is missing, there is one keywords
    suggestion, and it lists the first five missing keywords in the order
    of the profile. *)
Lemma keywords_suggestion_lists_first_five
    content role area section kws l :
  getRoleSpecificKeywords role area = Keywords kws ->
  generateRealTimeSuggestions content role area section = Return l ->
  missingKeywords content kws <> [] ->
  count_id "keywords" l = 1
  /\ exists s, In s l /\ id s = "keywords"
       /\ type s = Keyword /\ priority s = High
       /\ suggestion s
          = "Consider adding: "
            ++ join ", " (firstn 5 (missingKeywords content kws)).
Proof.
  intros Hk Hg Hm. split.
  - rewrite (keywords_count _ _ _ _ _ _ Hk Hg).
    destruct (missingKeywords content kws); [contradiction | reflexivity].
  - exists (keywordsSuggestion role (missingKeywords content kws)).
    split; [|repeat split].
    rewrite (generate_returns _ _ _ _ _ Hk) in Hg. injection Hg as <-.
    rewrite !in_app_iff. do 3 right. left.
    destruct (missingKeywords content kws); [contradiction | now left].
Qed.

(** For a software engineer whose text has none of the seven keywords, the
    suggestion names the first five. *)
Lemma software_engineer_keywords content area section :
  Forall (fun kw => includes (toLowerCase content) (toLowerCase kw) = false)
         ["JavaScript"; "Python"; "React"; "Node.js"; "API"; "Git"; "Agile"] ->
  exists l s,
    generateRealTimeSuggestions content "software engineer" area section
    = Return l
    /\ count_id "keywords" l = 1 /\ In s l /\ id s = "keywords"
    /\ suggestion s
       = "Consider adding: JavaScript, Python, React, Node.js, API".
Proof.
  intros Hall.
  assert (Hk : getRoleSpecificKeywords "software engineer" area
               = Keywords ["JavaScript"; "Python"; "React"; "Node.js";
                           "API"; "Git"; "Agile"]) by reflexivity.
  assert (Hm : missingKeywords content
                 ["JavaScript"; "Python"; "React"; "Node.js"; "API"; "Git";
                  "Agile"]
               = ["JavaScript"; "Python"; "React"; "Node.js"; "API"; "Git";
                  "Agile"]).
  { unfold missingKeywords. apply forallb_filter_id.
    apply forallb_forall. rewrite Forall_forall in Hall.
    intros kw Hin. now rewrite (Hall kw Hin). }
  eexists. exists (keywordsSuggestion "software engineer"
                     (missingKeywords content
                        ["JavaScript"; "Python"; "React"; "Node.js"; "API";
                         "Git"; "Agile"])).
  split; [apply (generate_returns _ _ _ _ _ Hk)|].
  split; [|split; [|split]].
  - rewrite (keywords_count _ _ area section _ _ Hk
               (generate_returns _ _ _ _ _ Hk)).
    now rewrite Hm.
  - rewrite !in_app_iff. do 3 right. left. rewrite Hm. now left.
  - reflexivity.
  - rewrite Hm. reflexivity.
Qed.

(** C1 (the engine is total, also on a role such as "constructor"): on the
    role "constructor", and on "__proto__", the read of the keyword table
    gives a member inherited from the object prototype, which is truthy and
    no array, and the engine throws a TypeError instead of returning a
    list, whatever the text, the area and the section. *)
Theorem engine_throws_on_inherited_role :
  forall content area section,
    generateRealTimeSuggestions content "constructor" area section
    = Throw (TypeError "roleKeywords.filter is not a function")
    /\ generateRealTimeSuggestions content "__proto__" area section
       = Throw (TypeError "roleKeywords.filter is not a function").
Proof.
  intros. split; reflexivity.
Qed.

(** The role "toString" is no such role: its case-folded form "tostring"
    is no member of the prototype, and the default profile answers. *)
Lemma toString_role_resolves area :
  getRoleSpecificKeywords "toString" area = Keywords defaultProfile.
Proof. reflexivity. Qed.

(** In the panel the rejection is caught and logged: the suggestions on
    display stay as they were. *)
Lemma panel_keeps_suggestions_on_inherited_role section content area st :
  content <> "" ->
  suggestions (analyzeContent section content "constructor" area st)
  = suggestions st.
Proof.
  intros Hc. destruct content as [|c content]; [contradiction|].
  reflexivity.
Qed.

(** Every other role makes the engine return. *)
Lemma engine_returns content role area section :
  toLowerCase role <> "constructor" ->
  toLowerCase role <> "__proto__" ->
  exists l, generateRealTimeSuggestions content role area section = Return l.
Proof.
  intros H1 H2. destruct (role_resolves role area H1 H2) as (kws & Hk & _).
  eexists. apply (generate_returns _ _ _ _ _ Hk).
Qed.

(** C2 (a word-count suggestion below 200 tokens): a text of 198 tokens
    that starts and ends with a blank is split into 200 pieces, the two
    outer ones empty, and the engine returns a list without a word-count
    suggestion. *)
Theorem word_count_missing_for_padded_resume :
  tokenCount paddedResume = 198
  /\ List.length (split_ws paddedResume) = 200
  /\ exists l,
       generateRealTimeSuggestions paddedResume "software engineer" "" None
       = Return l
       /\ count_id "word-count" l = 0.
Proof.
  split; [vm_compute; reflexivity|].
  split; [vm_compute; reflexivity|].
  assert (Hk : getRoleSpecificKeywords "software engineer" ""
               = Keywords ["JavaScript"; "Python"; "React"; "Node.js";
                           "API"; "Git"; "Agile"]) by reflexivity.
  eexists. split; [apply (generate_returns _ _ _ _ _ Hk)|].
  rewrite (word_count_count _ _ _ _ _ _ Hk (generate_returns _ _ _ _ _ Hk)).
  vm_compute. reflexivity.
Qed.

(** C4 (an unknown role falls back to the default profile): the role
    "constructor" has no entry in the table, and yet the lookup gives the
    inherited constructor function, not the default profile. *)
Theorem constructor_role_misses_default_profile :
  forall area,
    own keywordMap (toLowerCase "constructor") = None
    /\ getRoleSpecificKeywords "constructor" area = Function "Object"
    /\ getRoleSpecificKeywords "constructor" area <> Keywords defaultProfile.
Proof.
  intros. repeat split. discriminate.
Qed.

(** A role that resolves, for the examples. *)
Lemma software_engineer_resolves area :
  getRoleSpecificKeywords "software engineer" area
  = Keywords ["JavaScript"; "Python"; "React"; "Node.js"; "API"; "Git";
              "Agile"].
Proof. reflexivity. Qed.

(** The quantify suggestion on a role that resolves to a keyword list:
    the engine returns a list that holds exactly one suggestion with id
    "quantify" if the text has no percentage figure, no plus-suffixed
    number, no dollar amount and none of the words increased, improved and
    reduced in any case, and none if it has one of them; a suggestion with
    that id has type content and priority high. *)
Theorem quantify_iff content role area section kws :
  getRoleSpecificKeywords role area = Keywords kws ->
  exists l,
    generateRealTimeSuggestions content role area section = Return l
    /\ count_id "quantify" l = (if mentionsQuantity content then 0 else 1)
    /\ (forall s, In s l -> id s = "quantify" ->
          type s = Content /\ priority s = High).
Proof.
  intros Hk. eexists. split; [apply (generate_returns _ _ _ _ _ Hk)|].
  split.
  - count_checks. rewrite quantifiedRegex_spec.
    destruct (mentionsQuantity content); reflexivity.
  - intros s Hin Hid.
    destruct (In_generate _ _ _ _ _ _ _ Hk (generate_returns _ _ _ _ _ Hk) Hin)
      as [->|[->|[->|[->|(sec & _ & _ & Hsec)]]]]; try discriminate Hid.
    + split; reflexivity.
    + apply In_section in Hsec. destruct Hsec as [-> | Hsk].
      * discriminate Hid.
      * rewrite Hid in Hsk. discriminate Hsk.
Qed.

Lemma quantify_iff_witness :
  exists l,
    generateRealTimeSuggestions "Cut build time by 40% in a year."
                                "software engineer" "" None = Return l
    /\ count_id "quantify" l = 0.
Proof.
  destruct (quantify_iff "Cut build time by 40% in a year."
              "software engineer" "" None _ (software_engineer_resolves ""))
    as (l & Hl & Hc & _).
  exists l. split; [exact Hl | exact Hc].
Defined.

(** C3 (the quantify suggestion): the text "Senior developer" has no
    percentage figure, no plus-suffixed number, no dollar amount and none
    of the words increased, improved and reduced, and yet on the role
    "constructor" the engine gives it no "quantify" suggestion: for this
    role the read of the keyword table gives the inherited constructor, and
    the engine throws a TypeError instead of returning a list, on this text
    and on every other one, whatever the area and the section. *)
Theorem quantify_missing_on_inherited_role :
  mentionsQuantity "Senior developer" = false
  /\ test quantifiedRegex "Senior developer" = false
  /\ forall content area section,
       generateRealTimeSuggestions content "constructor" area section
       = Throw (TypeError "roleKeywords.filter is not a function")
       /\ ~ (exists l,
               generateRealTimeSuggestions content "constructor" area section
               = Return l
               /\ count_id "quantify" l
                  = (if mentionsQuantity content then 0 else 1)).
Proof.
  split; [vm_compute; reflexivity|].
  split; [vm_compute; reflexivity|].
  intros content area section.
  assert (H : generateRealTimeSuggestions content "constructor" area section
              = Throw (TypeError "roleKeywords.filter is not a function"))
    by reflexivity.
  split; [exact H|].
  intros (l & Hl & _). rewrite H in Hl. discriminate Hl.
Qed.

Lemma section_suggestions_at_most_one section content role :
  List.length (getSectionSpecificSuggestions section content role) <= 1.
Proof.
  unfold getSectionSpecificSuggestions. rewrite length_app.
  destruct (String.eqb_spec section "summary") as [->|_];
    [destruct (String.length content <? 100); cbn; lia|].
  destruct (String.eqb_spec section "professional-summary") as [->|_];
    [destruct (String.length content <? 100); cbn; lia|].
  cbn [orb andb List.length]. destruct (_ && _); cbn; lia.
Qed.

(** The summary-expand suggestion on a role that resolves to a keyword
    list: the engine returns a list that holds exactly one suggestion with
    id "summary-expand" if the current section is "summary" or
    "professional-summary" and the text has fewer than 100 code units, and
    none otherwise; a suggestion with that id has type content, priority
    high, and a text that names the target role. *)
Theorem summary_expand_iff content role area section kws :
  getRoleSpecificKeywords role area = Keywords kws ->
  exists l,
    generateRealTimeSuggestions content role area section = Return l
    /\ ((section = Some "summary" \/ section = Some "professional-summary")
        /\ String.length content < 100 ->
        count_id "summary-expand" l = 1)
    /\ (~ ((section = Some "summary" \/ section = Some "professional-summary")
           /\ String.length content < 100) ->
        count_id "summary-expand" l = 0)
    /\ (forall s, In s l -> id s = "summary-expand" ->
          type s = Content /\ priority s = High
          /\ suggestion s
             = "Write a compelling summary mentioning your " ++ role
               ++ " experience and key accomplishments.").
Proof.
  intros Hk. eexists. split; [apply (generate_returns _ _ _ _ _ Hk)|].
  assert (Hc : count_id "summary-expand"
                 ((if List.length (split_ws content) <? 200
                   then [wordCountSuggestion section] else [])
                  ++ (if negb (test quantifiedRegex content)
                      then [quantifySuggestion section] else [])
                  ++ (if negb (test actionVerbRegex content)
                      then [actionVerbsSuggestion section] else [])
                  ++ (if 0 <? List.length (missingKeywords content kws)
                      then [keywordsSuggestion role
                              (missingKeywords content kws)]
                      else [])
                  ++ (match section with
                      | Some (String c s) =>
                          getSectionSpecificSuggestions (String c s) content
                                                        role
                      | _ => []
                      end))%list
               = match section with
                 | Some sec =>
                     if (String.eqb sec "summary"
                         || String.eqb sec "professional-summary")
                        && (String.length content <? 100)
                     then 1 else 0
                 | None => 0
                 end).
  { rewrite !count_id_app, !count_id_if.
    cbn [id wordCountSuggestion quantifySuggestion actionVerbsSuggestion
         keywordsSuggestion].
    eval_eqb. rewrite !andb_false_r. cbn [Nat.add].
    destruct section as [[|c sec]|]; try reflexivity.
    apply count_summary_expand_section. }
  split; [|split].
  - intros [Hs Hlen]. rewrite Hc. apply Nat.ltb_lt in Hlen.
    destruct Hs as [-> | ->]; cbn [String.eqb orb andb]; eval_eqb;
      cbn [orb andb]; now rewrite Hlen.
  - intros Hn. rewrite Hc. destruct section as [sec|]; [|reflexivity].
    destruct (_ && _) eqn:E; [|reflexivity].
    exfalso. apply Hn. apply andb_true_iff in E. destruct E as [E1 E2].
    apply Nat.ltb_lt in E2. split; [|exact E2].
    apply orb_true_iff in E1. destruct E1 as [E1|E1];
      apply String.eqb_eq in E1; subst; auto.
  - intros s Hin Hid.
    destruct (In_generate _ _ _ _ _ _ _ Hk (generate_returns _ _ _ _ _ Hk) Hin)
      as [->|[->|[->|[->|(sec & _ & _ & Hsec)]]]]; try discriminate Hid.
    apply In_section in Hsec. destruct Hsec as [-> | Hsk].
    + repeat split.
    + rewrite Hid in Hsk. discriminate Hsk.
Qed.

Lemma summary_expand_iff_witness :
  exists l,
    generateRealTimeSuggestions "Engineer." "software engineer" ""
                                (Some "summary") = Return l
    /\ count_id "summary-expand" l = 1.
Proof.
  destruct (summary_expand_iff "Engineer." "software engineer" ""
              (Some "summary") _ (software_engineer_resolves ""))
    as (l & Hl & H1 & _).
  exists l. split; [exact Hl|].
  apply H1. split; [now left | cbn; lia].
Defined.

(** C5 (the summary-expand suggestion): in the section "summary" the text
    "Engineer.", of 9 code units, meets the condition of the suggestion,
    and yet on the role "Constructor" the engine gives no "summary-expand"
    suggestion: the case-folded role reads the inherited constructor from
    the keyword table, and the engine throws a TypeError instead of
    returning a list, whatever the text, the area and the section. *)
Theorem summary_expand_missing_on_inherited_role :
  String.length "Engineer." < 100
  /\ generateRealTimeSuggestions "Engineer." "Constructor" ""
                                 (Some "summary")
     = Throw (TypeError "roleKeywords.filter is not a function")
  /\ forall content area section,
       ~ (exists l,
            generateRealTimeSuggestions content "Constructor" area section
            = Return l
            /\ ((section = Some "summary"
                 \/ section = Some "professional-summary")
                /\ String.length content < 100 ->
                count_id "summary-expand" l = 1)).
Proof.
  split; [cbn; lia|].
  split; [reflexivity|].
  intros content area section (l & Hl & _).
  assert (H : generateRealTimeSuggestions content "Constructor" area section
              = Throw (TypeError "roleKeywords.filter is not a function"))
    by reflexivity.
  rewrite H in Hl. discriminate Hl.
Qed.

(** On the empty text every keyword of a profile of the table is
    missing. *)
Lemma missingKeywords_empty kws :
  In kws (map snd keywordMap) -> missingKeywords "" kws = kws.
Proof.
  cbn. intros [<-|[<-|[<-|[<-|[<-|[]]]]]]; reflexivity.
Qed.

(** C6, as the claim states it, fails: for a software engineer the empty
    text gets four suggestions. *)
Lemma empty_text_counterexample :
  ~ (exists l,
       generateRealTimeSuggestions "" "software engineer" "" None = Return l
       /\ List.length l <= 1).
Proof.
  intros (l & Hl & Hlen). vm_compute in Hl. injection Hl as <-.
  cbn in Hlen. lia.
Qed.

(** C6, amended: on the empty text, for every role that resolves to a
    keyword list, the engine returns the word-count, quantify, action-verbs
    and keywords suggestions, in this order, and then at most one
    suggestion of the current section: four or five suggestions.  The panel
    itself does not run the engine on an empty text: it leaves its
    suggestions as they are. *)
Theorem empty_text_suggestions role area section kws :
  getRoleSpecificKeywords role area = Keywords kws ->
  exists sectionPart,
    generateRealTimeSuggestions "" role area section
    = Return (wordCountSuggestion section
              :: quantifySuggestion section
              :: actionVerbsSuggestion section
              :: keywordsSuggestion role kws
              :: sectionPart)
    /\ List.length sectionPart <= 1
    /\ forall st, analyzeContent section "" role area st = st.
Proof.
  intros Hk.
  exists (match section with
          | Some (String c s) =>
              getSectionSpecificSuggestions (String c s) "" role
          | _ => []
          end).
  split; [|split].
  - rewrite (generate_returns _ _ _ _ _ Hk).
    rewrite (missingKeywords_empty kws (resolved_in_table _ _ _ Hk)).
    change (List.length (split_ws "") <? 200) with true.
    change (negb (test quantifiedRegex "")) with true.
    change (negb (test actionVerbRegex "")) with true.
    assert (Hpos : (0 <? List.length kws) = true).
    { pose proof (resolved_in_table _ _ _ Hk) as Hin. cbn in Hin.
      destruct Hin as [<-|[<-|[<-|[<-|[<-|[]]]]]]; reflexivity. }
    rewrite Hpos. reflexivity.
  - destruct section as [[|c s]|]; cbn [List.length]; try lia.
    apply section_suggestions_at_most_one.
  - reflexivity.
Qed.

Lemma empty_text_suggestions_witness :
  exists l,
    generateRealTimeSuggestions "" "software engineer" "" (Some "skills")
    = Return l /\ List.length l = 5.
Proof.
  destruct (empty_text_suggestions "software engineer" "" (Some "skills") _
              (software_engineer_resolves "")) as (sp & Hl & Hlen & _).
  eexists. split; [exact Hl|].
  vm_compute in Hl. injection Hl as <-. reflexivity.
Defined.

(** *** Further properties of the engine *)

(** X1 (the action-verb check): when the role resolves to a keyword list,
    the engine returns a list that holds exactly one suggestion with id
    "action-verbs" if the text holds none of led, managed, developed,
    created, implemented, designed and optimized, in any case and anywhere
    (also inside a longer word), and none if it holds one; such a
    suggestion has type content and priority medium. *)
Theorem action_verbs_iff content role area section kws :
  getRoleSpecificKeywords role area = Keywords kws ->
  exists l,
    generateRealTimeSuggestions content role area section = Return l
    /\ count_id "action-verbs" l = (if usesActionVerb content then 0 else 1)
    /\ (forall s, In s l -> id s = "action-verbs" ->
          type s = Content /\ priority s = Medium).
Proof.
  intros Hk. eexists. split; [apply (generate_returns _ _ _ _ _ Hk)|].
  split.
  - count_checks. rewrite actionVerbRegex_spec.
    destruct (usesActionVerb content); reflexivity.
  - intros s Hin Hid.
    destruct (In_generate _ _ _ _ _ _ _ Hk (generate_returns _ _ _ _ _ Hk) Hin)
      as [->|[->|[->|[->|(sec & _ & _ & Hsec)]]]]; try discriminate Hid.
    + split; reflexivity.
    + apply In_section in Hsec. destruct Hsec as [-> | Hsk].
      * discriminate Hid.
      * rewrite Hid in Hsk. discriminate Hsk.
Qed.

Lemma action_verbs_iff_witness :
  exists l,
    generateRealTimeSuggestions "Scheduled the weekly meetings."
                                "software engineer" "" None = Return l
    /\ count_id "action-verbs" l = 0.
Proof.
  destruct (action_verbs_iff "Scheduled the weekly meetings."
              "software engineer" "" None _ (software_engineer_resolves ""))
    as (l & Hl & Hc & _).
  exists l. split; [exact Hl | exact Hc].
Defined.

Lemma section_suggestions_shape section content role :
  let l := getSectionSpecificSuggestions section content role in
  NoDup (map id l) /\ Forall (fun s => applied s = false) l
  /\ Forall (fun s => id s = "summary-expand" \/ id s = "skills-format") l.
Proof.
  unfold getSectionSpecificSuggestions.
  destruct (_ && _); destruct (_ && _); cbn [app map id];
    (split; [|split]);
    repeat constructor; cbn; intuition discriminate.
Qed.

(** The list of the engine: its length, its ids, its marks. *)
Lemma generated_list_shape content role area section kws :
  getRoleSpecificKeywords role area = Keywords kws ->
  exists l,
    generateRealTimeSuggestions content role area section = Return l
    /\ List.length l <= 5
    /\ NoDup (map id l)
    /\ Forall (fun s => applied s = false) l.
Proof.
  intros Hk. eexists. split; [apply (generate_returns _ _ _ _ _ Hk)|].
  set (sect := match section with
               | Some (String c s) =>
                   getSectionSpecificSuggestions (String c s) content role
               | _ => []
               end).
  assert (Hs : List.length sect <= 1
               /\ NoDup (map id sect)
               /\ Forall (fun s => applied s = false) sect
               /\ Forall (fun s => id s = "summary-expand"
                                   \/ id s = "skills-format") sect).
  { unfold sect. destruct section as [[|c s]|];
      try (cbn; repeat split; try constructor; lia).
    split; [apply section_suggestions_at_most_one|].
    apply section_suggestions_shape. }
  destruct Hs as (Hlen & Hnd & Happ & Hids).
  split; [|split].
  - rewrite !length_app.
    destruct (_ <? 200), (negb (test quantifiedRegex content)),
      (negb (test actionVerbRegex content)), (0 <? _); cbn [List.length]; lia.
  - assert (Hout : forall i, In i (map id sect) ->
                     i = "summary-expand" \/ i = "skills-format").
    { intros i Hi. apply in_map_iff in Hi. destruct Hi as (s & <- & Hin).
      rewrite Forall_forall in Hids. auto. }
    destruct (_ <? 200), (negb (test quantifiedRegex content)),
      (negb (test actionVerbRegex content)), (0 <? _);
      cbn [app map id wordCountSuggestion quantifySuggestion
           actionVerbsSuggestion keywordsSuggestion];
      repeat (constructor;
              [cbn [In]; intros Hin;
               repeat (destruct Hin as [Hin|Hin]; [discriminate Hin|]);
               apply Hout in Hin; destruct Hin; discriminate |]);
      exact Hnd.
  - destruct (_ <? 200), (negb (test quantifiedRegex content)),
      (negb (test actionVerbRegex content)), (0 <? _);
      cbn [app]; repeat (constructor; [reflexivity|]); exact Happ.
Qed.

(** X2 (the shape of the engine's list): when the role resolves to a
    keyword list, the engine returns at most five suggestions, no two of
    them with the same id, and none of them marked as applied. *)
Theorem engine_list_shape content role area section kws :
  getRoleSpecificKeywords role area = Keywords kws ->
  exists l,
    generateRealTimeSuggestions content role area section = Return l
    /\ List.length l <= 5
    /\ NoDup (map id l)
    /\ Forall (fun s => applied s = false) l.
Proof.
  apply generated_list_shape.
Qed.

Lemma engine_list_shape_witness :
  exists l,
    generateRealTimeSuggestions "" "data scientist" "" (Some "skills")
    = Return l
    /\ List.length l <= 5 /\ NoDup (map id l).
Proof.
  destruct (engine_list_shape "" "data scientist" "" (Some "skills")
              ["Python"; "R"; "Machine Learning"; "SQL"; "Statistics";
               "TensorFlow"] eq_refl)
    as (l & Hl & Hlen & Hnd & _).
  exists l. auto.
Defined.

(** X3 (how the role selects the profile): the keyword profile depends on
    the role only through its case-folded form, and not on the target
    area. *)
Theorem profile_depends_on_folded_role role area area' :
  getRoleSpecificKeywords role area
  = getRoleSpecificKeywords (toLowerCase role) area'.
Proof.
  unfold getRoleSpecificKeywords. now rewrite toLowerCase_idempotent.
Qed.

End SuggestionEngine.

(** ** The parser always has fuel enough *)

Section ParserFacts.

Lemma skipWs_length s : String.length (skipWs s) <= String.length s.
Proof.
  induction s as [|c s IH]; simpl; [lia|].
  destruct (isJsonWhiteSpace c); simpl; lia.
Qed.

Lemma drop_length n s : String.length (drop n s) <= String.length s.
Proof.
  revert s. induction n as [|n IH]; intros [|c s]; simpl; try lia.
  specialize (IH s). lia.
Qed.

Lemma consUnit_Some u x us r :
  consUnit u x = Some (us, r) ->
  exists us', x = Some (us', r).
Proof.
  destruct x as [[us' r']|]; simpl; [|discriminate].
  intros [= <- <-]. eauto.
Qed.

(** A string value takes at least its closing quote. *)
Lemma stringBody_length s us r :
  stringBody s = Some (us, r) -> String.length r < String.length s.
Proof.
  remember (String.length s) as n eqn:En.
  assert (Hn : String.length s <= n) by lia. clear En.
  revert s us r Hn. induction n as [|n IH]; intros s us r Hn H.
  - destruct s; [discriminate | simpl in Hn; lia].
  - destruct s as [|c s]; [discriminate|]. cbn [stringBody] in H.
    cbn [String.length] in *.
    destruct (nat_of_ascii c =? 34).
    { injection H as <- <-. lia. }
    destruct (nat_of_ascii c =? 92).
    + destruct s as [|e s]; [discriminate|]. cbn [String.length] in *.
      destruct (escape e).
      * apply consUnit_Some in H. destruct H as (us' & H).
        apply IH in H; lia.
      * destruct (nat_of_ascii e =? 117); [|discriminate].
        destruct s as [|h1 [|h2 [|h3 [|h4 rest]]]]; try discriminate.
        cbn [String.length] in *.
        destruct (hex4 h1 h2 h3 h4); [|discriminate].
        apply consUnit_Some in H. destruct H as (us' & H).
        apply IH in H; lia.
    + destruct (nat_of_ascii c <? 32); [discriminate|].
      apply consUnit_Some in H. destruct H as (us' & H).
      apply IH in H; lia.
Qed.

Lemma takeDigits_length s acc k n k' r :
  takeDigits s acc k = (n, k', r) -> String.length r <= String.length s.
Proof.
  revert acc k. induction s as [|c s IH]; intros acc k H; simpl in H.
  - injection H as <- <- <-. lia.
  - destruct (isDigit c).
    + apply IH in H. simpl. lia.
    + injection H as <- <- <-. lia.
Qed.

Lemma fraction_length ip s m k r :
  fraction ip s = Some (m, k, r) -> String.length r <= String.length s.
Proof.
  unfold fraction. destruct s as [|c t].
  - intros [= <- <- <-]. lia.
  - destruct (nat_of_ascii c =? 46).
    + destruct (takeDigits t ip 0) as [[m' k'] r'] eqn:E.
      destruct (k' =? 0); [discriminate|]. intros [= <- <- <-].
      apply takeDigits_length in E. simpl. lia.
    + intros [= <- <- <-]. lia.
Qed.

Lemma exponent_length s e r :
  exponent s = Some (e, r) -> String.length r <= String.length s.
Proof.
  unfold exponent. destruct s as [|c t].
  - intros [= <- <-]. lia.
  - destruct (_ || _).
    + destruct t as [|sg u].
      * destruct (takeDigits "" 0 0) as [[v k] r'] eqn:E.
        destruct (k =? 0); [discriminate|]. intros [= <- <-].
        apply takeDigits_length in E. simpl in *. lia.
      * destruct (nat_of_ascii sg =? 45);
          [|destruct (nat_of_ascii sg =? 43)];
          match goal with
          | |- context [takeDigits ?x 0%N 0] =>
              destruct (takeDigits x 0 0) as [[v k] r'] eqn:E
          end;
          (destruct (k =? 0); [discriminate|]); intros [= <- <-];
          apply takeDigits_length in E; simpl in *; lia.
    + intros [= <- <-]. lia.
Qed.

(** A number takes at least one digit. *)
Lemma unsignedNumber_length negative s q r :
  unsignedNumber negative s = Some (q, r) ->
  String.length r < String.length s.
Proof.
  unfold unsignedNumber. destruct s as [|c t]; [discriminate|].
  destruct (isDigit c) eqn:Hd; [|discriminate].
  assert (Hs1 : forall ip k s1,
            (if nat_of_ascii c =? 48 then (0%N, 1, t)
             else takeDigits (String c t) 0 0) = (ip, k, s1) ->
            String.length s1 <= String.length t).
  { intros ip k s1. destruct (nat_of_ascii c =? 48).
    - intros [= <- <- <-]. lia.
    - cbn [takeDigits]. rewrite Hd. apply takeDigits_length. }
  destruct (if nat_of_ascii c =? 48 then (0%N, 1, t)
            else takeDigits (String c t) 0 0) as [[ip k0] s1] eqn:E.
  specialize (Hs1 ip k0 s1 eq_refl).
  destruct (fraction ip s1) as [[[m k] s2]|] eqn:Ef; [|discriminate].
  destruct (exponent s2) as [[e s3]|] eqn:Ee; [|discriminate].
  intros [= <- <-].
  apply fraction_length in Ef. apply exponent_length in Ee.
  cbn [String.length]. lia.
Qed.

Lemma number_length s q r :
  number s = Some (q, r) -> String.length r < String.length s.
Proof.
  unfold number. destruct s as [|c t]; [discriminate|].
  destruct (nat_of_ascii c =? 45); intros H;
    apply unsignedNumber_length in H; cbn [String.length] in *; lia.
Qed.

Lemma literal_length w v c t v' r :
  w <> "" -> literal w v (String c t) = Parsed v' r ->
  String.length r < String.length (String c t).
Proof.
  unfold literal. intros Hw. destruct (String.prefix w (String c t));
    [|discriminate].
  intros [= <- <-]. destruct w as [|x w]; [contradiction|].
  cbn [String.length drop]. pose proof (drop_length (String.length w) t). lia.
Qed.

(** Whatever the fuel, a parsed value, element list or member list has
    taken at least one character. *)
Lemma parsed_lengths fuel :
  (forall s v r, value fuel s = Parsed v r ->
                 String.length r < String.length s)
  /\ (forall s l r, elements fuel s = Parsed l r ->
                    String.length r < String.length s)
  /\ (forall s m r, members fuel s = Parsed m r ->
                    String.length r < String.length s).
Proof.
  induction fuel as [|f (IHv & IHe & IHm)];
    [repeat split; discriminate|].
  repeat split.
  - intros s v r. cbn [value]. pose proof (skipWs_length s) as Hs.
    destruct (skipWs s) as [|c t]; [discriminate|].
    cbn [String.length] in Hs.
    destruct (nat_of_ascii c =? 123).
    { pose proof (skipWs_length t) as Ht.
      destruct (skipWs t) as [|c' r0]; [discriminate|].
      cbn [String.length] in Ht.
      destruct (nat_of_ascii c' =? 125); [intros [= <- <-]; lia|].
      destruct (members f t) as [m r'| |] eqn:Em; try discriminate.
      intros [= <- <-]. apply IHm in Em. lia. }
    destruct (nat_of_ascii c =? 91).
    { pose proof (skipWs_length t) as Ht.
      destruct (skipWs t) as [|c' r0]; [discriminate|].
      cbn [String.length] in Ht.
      destruct (nat_of_ascii c' =? 93); [intros [= <- <-]; lia|].
      destruct (elements f t) as [l r'| |] eqn:Ee; try discriminate.
      intros [= <- <-]. apply IHe in Ee. lia. }
    destruct (nat_of_ascii c =? 34).
    { destruct (stringBody t) as [[u r']|] eqn:Eb; [|discriminate].
      intros [= <- <-]. apply stringBody_length in Eb. lia. }
    destruct (nat_of_ascii c =? 116).
    { intros H. apply literal_length in H; [|discriminate].
      cbn [String.length] in H. lia. }
    destruct (nat_of_ascii c =? 102).
    { intros H. apply literal_length in H; [|discriminate].
      cbn [String.length] in H. lia. }
    destruct (nat_of_ascii c =? 110).
    { intros H. apply literal_length in H; [|discriminate].
      cbn [String.length] in H. lia. }
    destruct (number (String c t)) as [[q r']|] eqn:En; [|discriminate].
    intros [= <- <-]. apply number_length in En.
    cbn [String.length] in En. lia.
  - intros s l r. cbn [elements].
    destruct (value f s) as [v r0| |] eqn:Ev; try discriminate.
    apply IHv in Ev. pose proof (skipWs_length r0) as Hr.
    destruct (skipWs r0) as [|c r']; [discriminate|].
    cbn [String.length] in Hr.
    destruct (nat_of_ascii c =? 93); [intros [= <- <-]; lia|].
    destruct (nat_of_ascii c =? 44); [|discriminate].
    destruct (elements f r') as [l' r''| |] eqn:Ee; try discriminate.
    intros [= <- <-]. apply IHe in Ee. lia.
  - intros s m r. cbn [members]. pose proof (skipWs_length s) as Hs.
    destruct (skipWs s) as [|q t]; [discriminate|].
    cbn [String.length] in Hs.
    destruct (nat_of_ascii q =? 34); [|discriminate].
    destruct (stringBody t) as [[k r0]|] eqn:Eb; [|discriminate].
    apply stringBody_length in Eb. pose proof (skipWs_length r0) as Hr.
    destruct (skipWs r0) as [|c r1]; [discriminate|].
    cbn [String.length] in Hr.
    destruct (nat_of_ascii c =? 58); [|discriminate].
    destruct (value f r1) as [v r2| |] eqn:Ev; try discriminate.
    apply IHv in Ev. pose proof (skipWs_length r2) as Hr2.
    destruct (skipWs r2) as [|d r3]; [discriminate|].
    cbn [String.length] in Hr2.
    destruct (nat_of_ascii d =? 125); [intros [= <- <-]; lia|].
    destruct (nat_of_ascii d =? 44); [|discriminate].
    destruct (members f r3) as [m' r4| |] eqn:Em; try discriminate.
    intros [= <- <-]. apply IHm in Em. lia.
Qed.

(** Two units of fuel per character are enough. *)
Lemma fuel_suffices fuel :
  (forall s, 2 * String.length s + 1 <= fuel -> value fuel s <> OutOfFuel)
  /\ (forall s, 2 * String.length s + 2 <= fuel ->
                elements fuel s <> OutOfFuel)
  /\ (forall s, 2 * String.length s + 2 <= fuel ->
                members fuel s <> OutOfFuel).
Proof.
  induction fuel as [|f (IHv & IHe & IHm)];
    [repeat split; intros; lia|].
  destruct (parsed_lengths f) as (Lv & Le & Lm).
  repeat split.
  - intros s Hf. cbn [value]. pose proof (skipWs_length s) as Hs.
    destruct (skipWs s) as [|c t]; [discriminate|].
    cbn [String.length] in Hs.
    destruct (nat_of_ascii c =? 123).
    { destruct (skipWs t) as [|c' r0]; [discriminate|].
      destruct (nat_of_ascii c' =? 125); [discriminate|].
      assert (Hm : members f t <> OutOfFuel) by (apply IHm; lia).
      destruct (members f t); [discriminate | discriminate | contradiction]. }
    destruct (nat_of_ascii c =? 91).
    { destruct (skipWs t) as [|c' r0]; [discriminate|].
      destruct (nat_of_ascii c' =? 93); [discriminate|].
      assert (He : elements f t <> OutOfFuel) by (apply IHe; lia).
      destruct (elements f t); [discriminate | discriminate | contradiction]. }
    destruct (nat_of_ascii c =? 34).
    { destruct (stringBody t) as [[u r']|]; discriminate. }
    unfold literal.
    repeat match goal with
           | |- context [if ?b then _ else _] => destruct b
           end; try discriminate.
    destruct (number (String c t)) as [[q r']|]; discriminate.
  - intros s Hf. cbn [elements].
    assert (Hv : value f s <> OutOfFuel) by (apply IHv; lia).
    destruct (value f s) as [v r0| |] eqn:Ev;
      [|discriminate|contradiction].
    apply Lv in Ev. pose proof (skipWs_length r0) as Hr.
    destruct (skipWs r0) as [|c r']; [discriminate|].
    cbn [String.length] in Hr.
    destruct (nat_of_ascii c =? 93); [discriminate|].
    destruct (nat_of_ascii c =? 44); [|discriminate].
    assert (He : elements f r' <> OutOfFuel) by (apply IHe; lia).
    destruct (elements f r'); [discriminate | discriminate | contradiction].
  - intros s Hf. cbn [members]. pose proof (skipWs_length s) as Hs.
    destruct (skipWs s) as [|q t]; [discriminate|].
    cbn [String.length] in Hs.
    destruct (nat_of_ascii q =? 34); [|discriminate].
    destruct (stringBody t) as [[k r0]|] eqn:Eb; [|discriminate].
    apply stringBody_length in Eb. pose proof (skipWs_length r0) as Hr.
    destruct (skipWs r0) as [|c r1]; [discriminate|].
    cbn [String.length] in Hr.
    destruct (nat_of_ascii c =? 58); [|discriminate].
    assert (Hv : value f r1 <> OutOfFuel) by (apply IHv; lia).
    destruct (value f r1) as [v r2| |] eqn:Ev;
      [|discriminate|contradiction].
    apply Lv in Ev. pose proof (skipWs_length r2) as Hr2.
    destruct (skipWs r2) as [|d r3]; [discriminate|].
    cbn [String.length] in Hr2.
    destruct (nat_of_ascii d =? 125); [discriminate|].
    destruct (nat_of_ascii d =? 44); [|discriminate].
    assert (Hm : members f r3 <> OutOfFuel) by (apply IHm; lia).
    destruct (members f r3); [discriminate | discriminate | contradiction].
Qed.

(** [JSON_parse] never stops for want of fuel: it throws only on a text
    outside the grammar. *)
Lemma JSON_parse_has_fuel text :
  value (2 * String.length text + 2) text <> OutOfFuel.
Proof.
  apply (fuel_suffices (2 * String.length text + 2)). lia.
Qed.

Lemma JSON_parse_throws text e :
  JSON_parse text = Throw e ->
  e = SyntaxError syntaxErrorMessage
  /\ (value (2 * String.length text + 2) text = Invalid
      \/ exists v r c rest,
           value (2 * String.length text + 2) text = Parsed v r
           /\ skipWs r = String c rest).
Proof.
  unfold JSON_parse. pose proof (JSON_parse_has_fuel text) as Hf.
  destruct (value (2 * String.length text + 2) text) as [v r| |] eqn:E;
    [|intros [= <-]; auto | contradiction].
  destruct (skipWs r) as [|c rest] eqn:Er; [discriminate|].
  intros [= <-]. split; [reflexivity|]. right.
  exists v, r, c, rest. auto.
Qed.

End ParserFacts.

(** ** Properties of the gateway *)

Section GatewayFacts.

Variable generateContent : GenerateContentParams -> GenerateOutcome.

(** C7 (validation comes before the call to the model): for a signed-in
    caller, an improve request whose resume text or action is empty or
    absent, and an analyze request whose resume text or target role is
    empty or absent, are answered with status 400 and the message naming
    the required fields, and no call to the model is made. *)
Theorem invalid_requests_make_no_call
    (session : Session) (r : Improve.Request) (a : Analyze.Request) :
  truthy (Improve.resumeContent r) = false
  \/ truthy (Improve.action r) = false ->
  truthy (Analyze.resumeContent a) = false
  \/ truthy (Analyze.targetRole a) = false ->
  Improve.POST generateContent (Some session) (Return r)
  = (invalidImprove, [])
  /\ Analyze.POST generateContent (Some session) (Return a)
     = (invalidAnalyze, []).
Proof.
  intros Hr Ha. unfold Improve.POST, Analyze.POST. split.
  - destruct Hr as [H|H]; rewrite H; cbn [negb orb];
      rewrite ?orb_true_r; reflexivity.
  - destruct Ha as [H|H]; rewrite H; cbn [negb orb];
      rewrite ?orb_true_r; reflexivity.
Qed.

(** C10 (an action that is neither of the two known ones): with a resume
    text and an action that are non-empty strings, the action being
    neither "auto-improve" nor "chat-command", the improve route sends one
    call to the model, with the empty prompt, and its answer is not the
    status 400 of a rejected request: it is status 200, with the cleaned
    text and the empty message, when the model gives a non-empty text, and
    status 503 otherwise. *)
Theorem unknown_action_sends_empty_prompt
    (session : Session) (r : Improve.Request) (a : string) :
  truthy (Improve.resumeContent r) = true ->
  Improve.action r = str a ->
  a <> "" -> a <> "auto-improve" -> a <> "chat-command" ->
  exists response,
    Improve.POST generateContent (Some session) (Return r)
    = (response, [Improve.paramsOf r])
    /\ contents (Improve.paramsOf r) = ""
    /\ status response <> 400
    /\ match generateContent (Improve.paramsOf r) with
       | Responds (Some (String c t)) =>
           response = {| status := 200;
                         body := Improved (Improve.cleanUp (String c t)) "" |}
       | _ => status response = 503
       end.
Proof.
  intros Hc Ha Hne H1 H2.
  assert (Hp : Improve.promptOf r = "").
  { unfold Improve.promptOf. rewrite Ha. cbn [strictEq].
    apply String.eqb_neq in H1, H2. now rewrite H1, H2. }
  assert (Hm : Improve.messageOf r = "").
  { unfold Improve.messageOf. rewrite Ha. cbn [strictEq].
    apply String.eqb_neq in H1, H2. now rewrite H1, H2. }
  assert (Ht : truthy (Improve.action r) = true).
  { rewrite Ha. destruct a; [contradiction | reflexivity]. }
  unfold Improve.POST. rewrite Hc, Ht. cbn [negb orb].
  destruct (generateContent (Improve.paramsOf r)) as [t|[[|c t]|]];
    eexists; (split; [reflexivity|]);
    (split; [exact Hp|]); (split; [cbn; discriminate|]);
    rewrite ?Hm; reflexivity.
Qed.

(** *** Fences *)

Lemma app_empty (a b : string) : a ++ b = "" -> b = "".
Proof.
  destruct a; simpl; [auto | discriminate].
Qed.

Lemma trimEnd_app a t : trimEnd t <> "" -> trimEnd (a ++ t) = a ++ trimEnd t.
Proof.
  intros Ht. induction a as [|c a IH]; simpl; [reflexivity|].
  rewrite IH. destruct (a ++ trimEnd t) eqn:E; [|reflexivity].
  apply app_empty in E. contradiction.
Qed.

Lemma includes_cons c s p :
  includes (String c s) p = false ->
  String.prefix p (String c s) = false /\ includes s p = false.
Proof.
  cbn [includes]. intros H. now apply orb_false_iff in H.
Qed.

(** A text without the first code unit of the pattern holds no occurrence
    of it. *)
Lemma removeAll_from_app c0 pat x t :
  includes x (String c0 "") = false ->
  removeAll_from 0 (String c0 pat) (x ++ t)
  = x ++ removeAll_from 0 (String c0 pat) t.
Proof.
  induction x as [|c x IH]; intros H; [reflexivity|].
  apply includes_cons in H. destruct H as [Hp Hx].
  cbn [append removeAll_from]. cbn [String.prefix] in Hp |- *.
  destruct (ascii_dec c0 c) as [->|Hne].
  - now destruct x.
  - now rewrite (IH Hx).
Qed.

(** The cleaning takes the fences off a fenced text that holds no
    backquote of its own, and leaves the line breaks. *)
Lemma cleanedResponse_fenced obj :
  includes obj "`" = false ->
  Analyze.cleanedResponse (fenced obj) = nl ++ obj ++ nl.
Proof.
  intros Hobj. unfold Analyze.cleanedResponse, fenced, trim.
  assert (Hs : trimStart ("```json" ++ nl ++ obj ++ nl ++ "```")
               = "```json" ++ nl ++ obj ++ nl ++ "```") by reflexivity.
  rewrite Hs.
  assert (He : trimEnd ("```json" ++ nl ++ obj ++ nl ++ "```")
               = "```json" ++ nl ++ obj ++ nl ++ "```").
  { change ("```json" ++ nl ++ obj ++ nl ++ "```")
      with (("```json" ++ nl) ++ (obj ++ nl ++ "```")).
    rewrite (trimEnd_app ("```json" ++ nl)).
    - rewrite (trimEnd_app obj); [reflexivity|].
      vm_compute. discriminate.
    - rewrite (trimEnd_app obj); [|vm_compute; discriminate].
      intros E. apply app_empty in E. vm_compute in E. discriminate.
  }
  rewrite He.
  change (startsWith ("```json" ++ nl ++ obj ++ nl ++ "```") "```json")
    with true.
  cbv iota.
  assert (H1 : removeAll "```json" ("```json" ++ nl ++ obj ++ nl ++ "```")
               = nl ++ obj ++ nl ++ "```").
  { change (removeAll "```json" ("```json" ++ nl ++ obj ++ nl ++ "```"))
      with (String (ascii_of_nat 10)
              (removeAll_from 0 "```json" (obj ++ nl ++ "```"))).
    rewrite (removeAll_from_app "`" "``json" obj _ Hobj). reflexivity. }
  rewrite H1.
  change (removeAll "```" (nl ++ obj ++ nl ++ "```"))
    with (String (ascii_of_nat 10)
            (removeAll_from 0 "```" (obj ++ nl ++ "```"))).
  rewrite (removeAll_from_app "`" "``" obj _ Hobj). reflexivity.
Qed.


(** C8, amended: when the model answers with a non-empty text that, once
    cleaned, is no JSON text, the analyze route answers with status 503 and
    the error "AI analysis failed", as it does when the call to the model
    fails, with the message of the syntax error as details; the answer is
    never an analysis. *)
Theorem malformed_json_is_analysis_failure
    (session : Session) (r : Analyze.Request) (text : string) (e : error) :
  truthy (Analyze.resumeContent r) = true ->
  truthy (Analyze.targetRole r) = true ->
  generateContent (Analyze.paramsOf r) = Responds (Some text) ->
  text <> "" ->
  JSON_parse (Analyze.cleanedResponse text) = Throw e ->
  Analyze.POST generateContent (Some session) (Return r)
  = ({| status := 503;
        body := Failure "AI analysis failed" (Some (message_of e)) |},
     [Analyze.paramsOf r]).
Proof.
  intros Hc Ht Hg Hne Hparse.
  unfold Analyze.POST. rewrite Hc, Ht, Hg. cbn [negb orb].
  destruct text as [|c text]; [contradiction|].
  now rewrite Hparse.
Qed.

(** The answer to a failed call to the model, for comparison. *)
Lemma failed_call_is_analysis_failure
    (session : Session) (r : Analyze.Request) (t : thrown) :
  truthy (Analyze.resumeContent r) = true ->
  truthy (Analyze.targetRole r) = true ->
  generateContent (Analyze.paramsOf r) = Rejects t ->
  Analyze.POST generateContent (Some session) (Return r)
  = ({| status := 503;
        body := Failure "AI analysis failed"
                        (Some (detailsOf t unavailable)) |},
     [Analyze.paramsOf r]).
Proof.
  intros Hc Ht Hg. unfold Analyze.POST. now rewrite Hc, Ht, Hg.
Qed.

End GatewayFacts.

(** ** Examples *)

Section ExampleFacts.

Lemma invalid_requests_make_no_call_witness :
  Improve.POST (fun _ => Responds (Some "text")) (Some "jane@example.org")
               (Return (improveRequest (str "auto-improve") ""))
  = (invalidImprove, [])
  /\ Analyze.POST (fun _ => Responds (Some "text")) (Some "jane@example.org")
                  (Return {| Analyze.resumeContent := str "Jane Doe";
                             Analyze.targetRole := undefined;
                             Analyze.targetArea := undefined |})
     = (invalidAnalyze, []).
Proof.
  apply (invalid_requests_make_no_call
           (fun _ => Responds (Some "text")) "jane@example.org"
           (improveRequest (str "auto-improve") "")
           {| Analyze.resumeContent := str "Jane Doe";
              Analyze.targetRole := undefined;
              Analyze.targetArea := undefined |}).
  - left. reflexivity.
  - right. reflexivity.
Defined.

Lemma unknown_action_sends_empty_prompt_witness :
  exists response,
    Improve.POST (fun _ => Responds (Some "Jane Doe, engineer"))
                 (Some "jane@example.org")
                 (Return (improveRequest (str "translate") "Jane Doe"))
    = (response, [Improve.paramsOf (improveRequest (str "translate") "Jane Doe")])
    /\ status response = 200.
Proof.
  destruct (unknown_action_sends_empty_prompt
              (fun _ => Responds (Some "Jane Doe, engineer"))
              "jane@example.org"
              (improveRequest (str "translate") "Jane Doe") "translate")
    as (response & Hpost & _ & _ & Hok);
    try reflexivity; try discriminate.
  exists response. split; [exact Hpost|].
  cbv beta iota in Hok. now rewrite Hok.
Defined.


Lemma malformed_json_is_analysis_failure_witness :
  Analyze.POST (fun _ => Responds (Some "Sorry, I cannot do that."))
               (Some "jane@example.org") (Return analyzeRequest)
  = ({| status := 503;
        body := Failure "AI analysis failed" (Some syntaxErrorMessage) |},
     [Analyze.paramsOf analyzeRequest]).
Proof.
  apply (malformed_json_is_analysis_failure
           (fun _ => Responds (Some "Sorry, I cannot do that."))
           "jane@example.org" analyzeRequest "Sorry, I cannot do that."
           (SyntaxError syntaxErrorMessage));
    try reflexivity; discriminate.
Defined.

(** C8, as the claim states it, fails: the answer to a text that is no
    JSON has the status and the error of the answer to a failed call, and
    is the very same answer when the two messages are the same. *)
Lemma malformed_json_not_distinct :
  let malformed :=
    fst (Analyze.POST (fun _ => Responds (Some "not json"))
                      (Some "jane@example.org") (Return analyzeRequest)) in
  let failed (m : string) :=
    fst (Analyze.POST (fun _ => Rejects (ErrorObject (Error m)))
                      (Some "jane@example.org") (Return analyzeRequest)) in
  JSON_parse (Analyze.cleanedResponse "not json")
  = Throw (SyntaxError syntaxErrorMessage)
  /\ status malformed = status (failed "fetch failed")
  /\ errorOf malformed = errorOf (failed "fetch failed")
  /\ malformed = failed syntaxErrorMessage.
Proof.
  repeat split.
Qed.

End ExampleFacts.

(** ** Accepting suggestions *)

Section PanelActionFacts.

Lemma markApplied_id s : id (markApplied s) = id s.
Proof. reflexivity. Qed.

Lemma apply_keeps_ids accepted st :
  map id (suggestions (handleApplySuggestion accepted st))
  = map id (suggestions st).
Proof.
  cbn [handleApplySuggestion suggestions]. rewrite map_map.
  apply map_ext. intros s. now destruct (String.eqb (id s) (id accepted)).
Qed.

Lemma count_applied_unmarked accepted (l : list Suggestion) :
  Forall (fun s => applied s = false) l ->
  ~ In (id accepted) (map id l) ->
  count_applied
    (map (fun s => if String.eqb (id s) (id accepted)
                   then markApplied s else s) l) = 0.
Proof.
  unfold count_applied. induction l as [|x l IH]; intros Hf Hn; [reflexivity|].
  inversion Hf as [|? ? Hx Hl]; subst.
  cbn [map filter]. cbn [map In] in Hn.
  destruct (String.eqb_spec (id x) (id accepted)) as [E|E]; [tauto|].
  rewrite Hx. apply IH; [assumption | tauto].
Qed.

Lemma count_applied_marked accepted (l : list Suggestion) :
  Forall (fun s => applied s = false) l ->
  NoDup (map id l) ->
  In accepted l ->
  count_applied
    (map (fun s => if String.eqb (id s) (id accepted)
                   then markApplied s else s) l) = 1.
Proof.
  induction l as [|x l IH]; intros Hf Hnd Hin; [contradiction|].
  inversion Hf as [|? ? Hx Hl]; subst.
  cbn [map] in Hnd. inversion Hnd as [|? ? Hnotin Hnd']; subst.
  unfold count_applied in *. cbn [map filter].
  destruct Hin as [->|Hin].
  - rewrite String.eqb_refl. cbn [applied markApplied List.length].
    f_equal. now apply count_applied_unmarked.
  - destruct (String.eqb_spec (id x) (id accepted)) as [E|E].
    + exfalso. apply Hnotin. rewrite E. now apply in_map.
    + rewrite Hx. now apply IH.
Qed.

(** X4 (accepting a suggestion of the engine): when the panel shows the
    list the engine returned, accepting one of its suggestions marks that
    suggestion as applied and no other, and leaves the ids and their order
    as they are. *)
Theorem accepting_marks_one
    content role area section kws l accepted (st : PanelState) :
  getRoleSpecificKeywords role area = Keywords kws ->
  generateRealTimeSuggestions content role area section = Return l ->
  suggestions st = l ->
  In accepted l ->
  let after := suggestions (handleApplySuggestion accepted st) in
  map id after = map id l
  /\ count_applied after = 1
  /\ (forall s, In s after -> (applied s = true <-> id s = id accepted)).
Proof.
  intros Hk Hg Hst Hin after.
  destruct (generated_list_shape content role area section kws Hk)
    as (l' & Hg' & _ & Hnd & Hf).
  rewrite Hg in Hg'. injection Hg' as <-.
  split; [|split].
  - unfold after. rewrite apply_keeps_ids. now rewrite Hst.
  - unfold after. cbn [handleApplySuggestion suggestions]. rewrite Hst.
    now apply count_applied_marked.
  - unfold after. cbn [handleApplySuggestion suggestions]. rewrite Hst.
    intros s Hs. apply in_map_iff in Hs. destruct Hs as (x & <- & Hx).
    rewrite Forall_forall in Hf. specialize (Hf x Hx).
    destruct (String.eqb_spec (id x) (id accepted)) as [E|E].
    + cbn [applied markApplied id]. tauto.
    + rewrite Hf. split; [discriminate | tauto].
Qed.

Lemma accepting_marks_one_witness :
  count_applied
    (suggestions
       (handleApplySuggestion (quantifySuggestion None)
          {| suggestions :=
               [wordCountSuggestion None; quantifySuggestion None;
                actionVerbsSuggestion None;
                keywordsSuggestion "software engineer"
                  ["JavaScript"; "Python"; "React"; "Node.js"; "API"; "Git";
                   "Agile"]];
             loading := false |})) = 1.
Proof.
  apply (accepting_marks_one "" "software engineer" "" None
           ["JavaScript"; "Python"; "React"; "Node.js"; "API"; "Git"; "Agile"]
           [wordCountSuggestion None; quantifySuggestion None;
            actionVerbsSuggestion None;
            keywordsSuggestion "software engineer"
              ["JavaScript"; "Python"; "React"; "Node.js"; "API"; "Git";
               "Agile"]]
           (quantifySuggestion None)
           {| suggestions :=
                [wordCountSuggestion None; quantifySuggestion None;
                 actionVerbsSuggestion None;
                 keywordsSuggestion "software engineer"
                   ["JavaScript"; "Python"; "React"; "Node.js"; "API"; "Git";
                    "Agile"]];
              loading := false |});
    try reflexivity.
  cbn [In]. tauto.
Defined.

(** X5 (a mark does not outlive the next analysis): after a suggestion was
    accepted, the next analysis of a non-empty text for a role that
    resolves to a keyword list replaces the list, and no suggestion of the
    new list is marked as applied. *)
Theorem analysis_forgets_marks
    section content role area kws accepted (st : PanelState) :
  content <> "" -> role <> "" ->
  getRoleSpecificKeywords role area = Keywords kws ->
  generateRealTimeSuggestions content role area section
  = Return (suggestions (analyzeContent section content role area
                           (handleApplySuggestion accepted st)))
  /\ count_applied
       (suggestions (analyzeContent section content role area
                       (handleApplySuggestion accepted st))) = 0.
Proof.
  intros Hc Hr Hk.
  destruct (generated_list_shape content role area section kws Hk)
    as (l & Hg & _ & _ & Hf).
  destruct content as [|c content]; [contradiction|].
  destruct role as [|r role]; [contradiction|].
  unfold analyzeContent. rewrite Hg. cbn [suggestions].
  split; [reflexivity|].
  unfold count_applied. clear Hg.
  induction Hf as [|x l Hx Hl IH]; [reflexivity|].
  cbn [filter]. now rewrite Hx.
Qed.

Lemma analysis_forgets_marks_witness :
  count_applied
    (suggestions
       (analyzeContent None "Engineer." "software engineer" ""
          (handleApplySuggestion (quantifySuggestion None)
             {| suggestions := [quantifySuggestion None];
                loading := false |}))) = 0.
Proof.
  apply (analysis_forgets_marks None "Engineer." "software engineer" ""
           ["JavaScript"; "Python"; "React"; "Node.js"; "API"; "Git"; "Agile"]
           (quantifySuggestion None)
           {| suggestions := [quantifySuggestion None]; loading := false |});
    try discriminate.
  reflexivity.
Defined.

End PanelActionFacts.

(** ** The routes as a whole *)

Section RouteFacts.

Variable generateContent : GenerateContentParams -> GenerateOutcome.

(** *** The message of the improve route follows its prompt *)

(** The message converts the command only, and the prompt of the same
    action has converted it before. *)
Lemma message_after_prompt r prompt :
  AnyBody.Improve.promptOf r = Return prompt ->
  exists message, AnyBody.Improve.messageOf r = Return message.
Proof.
  unfold AnyBody.Improve.promptOf, AnyBody.Improve.messageOf.
  destruct (AnyBody.strictEq (AnyBody.Improve.action r) "auto-improve");
    [eexists; reflexivity|].
  destruct (AnyBody.strictEq (AnyBody.Improve.action r) "chat-command");
    [|eexists; reflexivity].
  destruct (AnyBody.template (AnyBody.Improve.command r)) as [c|e];
    cbn [AnyBody.bind]; [eexists; reflexivity | discriminate].
Qed.



(** *** A field that cannot be converted *)

(** The target role is the first part the prompt of the analyze route
    converts: when it is truthy and its conversion throws, the route
    answers 503 with the message of that throw, and the model is not
    called. *)
Lemma analyze_unconvertible_role
    (session : Session) (r : AnyBody.Analyze.Request) truth e :
  AnyBody.truthy (AnyBody.Analyze.resumeContent r) = true ->
  AnyBody.Analyze.targetRole r = AnyBody.other truth (Throw e) ->
  truth = true ->
  AnyBody.Analyze.POST generateContent (Some session) (Return r)
  = ({| status := 503;
        body := Failure "AI analysis failed" (Some (message_of e)) |}, []).
Proof.
  intros Hc Hr ->. unfold AnyBody.Analyze.POST, AnyBody.Analyze.promptOf.
  rewrite Hc, Hr. reflexivity.
Qed.

(** The same for the action "auto-improve" of the improve route. *)
Lemma improve_unconvertible_role
    (session : Session) (r : AnyBody.Improve.Request) truth e :
  AnyBody.truthy (AnyBody.Improve.resumeContent r) = true ->
  AnyBody.Improve.action r = AnyBody.str "auto-improve" ->
  AnyBody.Improve.targetRole r = AnyBody.other truth (Throw e) ->
  AnyBody.Improve.POST generateContent (Some session) (Return r)
  = ({| status := 503;
        body := Failure "AI improvement failed" (Some (message_of e)) |},
     []).
Proof.
  intros Hc Ha Hr. unfold AnyBody.Improve.POST, AnyBody.Improve.promptOf.
  rewrite Hc, Ha, Hr. reflexivity.
Qed.

(** The body [{"resumeContent": "Jane Doe", "targetRole": {"toString": 1}}]
    passes the validation and is answered 503 without a call. *)
Lemma analyze_unconvertible_example (session : Session) :
  AnyBody.Analyze.POST generateContent (Some session)
    (Return {| AnyBody.Analyze.resumeContent := AnyBody.str "Jane Doe";
               AnyBody.Analyze.targetRole := AnyBody.unconvertible;
               AnyBody.Analyze.targetArea := AnyBody.undefined |})
  = ({| status := 503;
        body := Failure "AI analysis failed"
                  (Some "Cannot convert object to primitive value") |}, []).
Proof.
  now apply (analyze_unconvertible_role session _ true
               (TypeError "Cannot convert object to primitive value")).
Qed.

(** *** Bodies whose fields are absent, null or strings *)

Lemma truthy_ofPlain v :
  AnyBody.truthy (AnyBody.ofPlain v) = Gateway.truthy v.
Proof. destruct v as [| |[|c s]]; reflexivity. Qed.

Lemma template_ofPlain v :
  AnyBody.template (AnyBody.ofPlain v) = Return (Gateway.template v).
Proof. destruct v; reflexivity. Qed.

Lemma orGeneral_ofPlain v :
  AnyBody.orGeneral (AnyBody.ofPlain v) = Return (Gateway.orGeneral v).
Proof. destruct v as [| |[|c s]]; reflexivity. Qed.

Lemma strictEq_ofPlain v w :
  AnyBody.strictEq (AnyBody.ofPlain v) w = Gateway.strictEq v w.
Proof. destruct v; reflexivity. Qed.

Lemma improve_prompt_ofPlain r :
  AnyBody.Improve.promptOf (AnyBody.Improve.ofPlain r)
  = Return (Improve.promptOf r).
Proof.
  unfold AnyBody.Improve.promptOf, Improve.promptOf, AnyBody.Improve.ofPlain.
  cbn [AnyBody.Improve.action AnyBody.Improve.command
       AnyBody.Improve.targetRole AnyBody.Improve.targetArea
       AnyBody.Improve.resumeContent].
  rewrite !strictEq_ofPlain, !template_ofPlain, !orGeneral_ofPlain.
  destruct (Gateway.strictEq (Improve.action r) "auto-improve");
    [reflexivity|].
  destruct (Gateway.strictEq (Improve.action r) "chat-command");
    reflexivity.
Qed.

Lemma improve_message_ofPlain r :
  AnyBody.Improve.messageOf (AnyBody.Improve.ofPlain r)
  = Return (Improve.messageOf r).
Proof.
  unfold AnyBody.Improve.messageOf, Improve.messageOf,
    AnyBody.Improve.ofPlain.
  cbn [AnyBody.Improve.action AnyBody.Improve.command].
  rewrite !strictEq_ofPlain, !template_ofPlain.
  destruct (Gateway.strictEq (Improve.action r) "auto-improve");
    [reflexivity|].
  destruct (Gateway.strictEq (Improve.action r) "chat-command");
    reflexivity.
Qed.

Lemma analyze_prompt_ofPlain r :
  AnyBody.Analyze.promptOf (AnyBody.Analyze.ofPlain r)
  = Return (Analyze.promptOf r).
Proof.
  unfold AnyBody.Analyze.promptOf, Analyze.promptOf, AnyBody.Analyze.ofPlain.
  cbn [AnyBody.Analyze.targetRole AnyBody.Analyze.targetArea
       AnyBody.Analyze.resumeContent].
  rewrite !template_ofPlain, !orGeneral_ofPlain. reflexivity.
Qed.

(** On such a body the improve route is the route of [Gateway]. *)
Lemma improve_on_plain_body session request :
  AnyBody.Improve.POST generateContent session
    (AnyBody.read AnyBody.Improve.ofPlain request)
  = Improve.POST generateContent session request.
Proof.
  unfold AnyBody.Improve.POST, Improve.POST.
  destruct session as [who|]; [|reflexivity].
  destruct request as [r|e]; [|reflexivity].
  cbn [AnyBody.read].
  rewrite improve_prompt_ofPlain, improve_message_ofPlain.
  unfold AnyBody.Improve.ofPlain at 1 2.
  cbn [AnyBody.Improve.resumeContent AnyBody.Improve.action].
  rewrite !truthy_ofPlain.
  destruct (negb (Gateway.truthy (Improve.resumeContent r))
            || negb (Gateway.truthy (Improve.action r))); reflexivity.
Qed.

(** On such a body the analyze route is the route of [Gateway]. *)
Lemma analyze_on_plain_body session request :
  AnyBody.Analyze.POST generateContent session
    (AnyBody.read AnyBody.Analyze.ofPlain request)
  = Analyze.POST generateContent session request.
Proof.
  unfold AnyBody.Analyze.POST, Analyze.POST.
  destruct session as [who|]; [|reflexivity].
  destruct request as [r|e]; [|reflexivity].
  cbn [AnyBody.read].
  rewrite analyze_prompt_ofPlain.
  unfold AnyBody.Analyze.ofPlain at 1 2.
  cbn [AnyBody.Analyze.resumeContent AnyBody.Analyze.targetRole].
  rewrite !truthy_ofPlain.
  destruct (negb (Gateway.truthy (Analyze.resumeContent r))
            || negb (Gateway.truthy (Analyze.targetRole r))); reflexivity.
Qed.

End RouteFacts.

(** ** Cleaning the answers of the model *)

Section CleaningFacts.

Lemma prefix_spec p s :
  String.prefix p s = true <-> exists b, s = p ++ b.
Proof.
  revert s. induction p as [|c p IH]; intros s.
  - rewrite prefix_nil. split; [|reflexivity]. intros _. now exists s.
  - destruct s as [|d s]; cbn [String.prefix].
    + split; [discriminate | intros (b & E); discriminate E].
    + destruct (ascii_dec c d) as [->|Hne].
      * rewrite IH. split; intros (b & E); exists b.
        -- now rewrite E.
        -- now injection E.
      * split; [discriminate|]. intros (b & E). injection E as E _.
        congruence.
Qed.

Lemma includes_spec s p :
  includes s p = true <-> exists a b, s = a ++ p ++ b.
Proof.
  induction s as [|c s IH]; cbn [includes].
  - rewrite orb_false_r, prefix_spec. split.
    + intros (b & E). now exists "", b.
    + intros (a & b & E). symmetry in E.
      apply append_eq_nil in E. destruct E as [-> E]. now exists b.
  - rewrite orb_true_iff, prefix_spec, IH. split.
    + intros [(b & E)|(a & b & E)].
      * now exists "", b.
      * exists (String c a), b. now rewrite E.
    + intros (a & b & E). destruct a as [|d a].
      * left. now exists b.
      * right. injection E as _ E. now exists a, b.
Qed.

(** A part of a text holds no more than the text. *)
Lemma includes_part a s b p :
  includes (a ++ s ++ b) p = false -> includes s p = false.
Proof.
  intros H. destruct (includes s p) eqn:E; [|reflexivity].
  apply includes_spec in E. destruct E as (x & y & ->).
  rewrite <- H. symmetry. apply includes_spec. exists (a ++ x), (y ++ b).
  now rewrite !append_assoc.
Qed.

Lemma trimStart_suffix s : exists a, s = a ++ trimStart s.
Proof.
  induction s as [|c s (a & IH)]; [now exists ""|].
  cbn [trimStart]. destruct (isWhiteSpace c).
  - exists (String c a). cbn [String.append]. now rewrite <- IH.
  - now exists "".
Qed.

Lemma trimEnd_prefix s : exists b, s = trimEnd s ++ b.
Proof.
  induction s as [|c s (b & IH)]; [now exists ""|].
  cbn [trimEnd]. destruct (trimEnd s) as [|d t] eqn:E.
  - destruct (isWhiteSpace c).
    + now exists (String c s).
    + exists s. reflexivity.
  - exists b. cbn [String.append] in *. now rewrite <- IH.
Qed.

Lemma drop_suffix n s : exists a, s = a ++ drop n s.
Proof.
  revert s. induction n as [|n IH]; intros s; [now exists ""|].
  destruct s as [|c s]; [now exists ""|].
  destruct (IH s) as (a & E). exists (String c a).
  cbn [drop String.append]. now rewrite <- E.
Qed.

Lemma trim_part s : exists a b, s = a ++ trim s ++ b.
Proof.
  destruct (trimStart_suffix s) as (a & Ea).
  destruct (trimEnd_prefix (trimStart s)) as (b & Eb).
  exists a, b. unfold trim. now rewrite <- Eb.
Qed.

Lemma stripLabel_suffix s : exists a, s = a ++ Improve.stripLabel s.
Proof.
  unfold Improve.stripLabel.
  assert (H : forall n, exists a, s = a ++ trimStart (drop n s)).
  { intros n. destruct (drop_suffix n s) as (a & Ea).
    destruct (trimStart_suffix (drop n s)) as (b & Eb).
    exists (a ++ b). now rewrite append_assoc, <- Eb. }
  repeat match goal with
         | |- context [if ?c then _ else _] => destruct c
         end; auto.
  now exists "".
Qed.

(** *** No fence is left *)

Lemma prefix_cons_same a p s :
  String.prefix (String a p) (String a s) = String.prefix p s.
Proof.
  cbn [String.prefix]. destruct (ascii_dec a a); [reflexivity|contradiction].
Qed.

Lemma prefix_cons_diff a b p s :
  a <> b -> String.prefix (String a p) (String b s) = false.
Proof.
  intros H. cbn [String.prefix].
  destruct (ascii_dec a b); [contradiction|reflexivity].
Qed.

Lemma prefix_longer a p s :
  String.prefix (String a "") s = false ->
  String.prefix (String a p) s = false.
Proof.
  destruct s as [|c s]; [reflexivity|].
  destruct (ascii_dec a c) as [<-|E].
  - rewrite prefix_cons_same, prefix_nil. discriminate.
  - intros _. now apply prefix_cons_diff.
Qed.

Lemma unfenced_head s :
  String.prefix "`" s = false ->
  String.prefix "`" (removeAll_from 0 "```" s) = false.
Proof.
  intros H. destruct s as [|c s]; [reflexivity|].
  cbn [removeAll_from]. rewrite (prefix_longer _ "``" _ H).
  destruct (ascii_dec "`" c) as [<-|E].
  - rewrite prefix_cons_same, prefix_nil in H. discriminate.
  - now apply prefix_cons_diff.
Qed.

Lemma unfenced_head2 s :
  String.prefix "``" s = false ->
  String.prefix "``" (removeAll_from 0 "```" s) = false.
Proof.
  intros H. destruct s as [|c s]; [reflexivity|].
  cbn [removeAll_from].
  destruct (ascii_dec "`" c) as [<-|E].
  - rewrite prefix_cons_same in H.
    rewrite prefix_cons_same, (prefix_longer _ "`" _ H).
    rewrite prefix_cons_same. now apply unfenced_head.
  - rewrite (prefix_cons_diff _ _ _ _ E). now apply prefix_cons_diff.
Qed.

Lemma removeAll_from_unfenced skip s :
  includes (removeAll_from skip "```" s) "```" = false.
Proof.
  revert skip. induction s as [|c s IH]; intros skip; [reflexivity|].
  cbn [removeAll_from]. destruct skip as [|k]; [|apply IH].
  destruct (String.prefix "```" (String c s)) eqn:Hp; [apply IH|].
  cbn [includes]. rewrite IH, orb_false_r.
  destruct (ascii_dec "`" c) as [<-|E].
  - rewrite prefix_cons_same in Hp |- *. now apply unfenced_head2.
  - now apply prefix_cons_diff.
Qed.

(** [trim] gives the empty text or a text with no white space at either
    end. *)
Lemma trimEnd_head c s :
  isWhiteSpace c = false ->
  exists t, trimEnd (String c s) = String c t.
Proof.
  intros Hc. cbn [trimEnd]. destruct (trimEnd s).
  - rewrite Hc. now exists "".
  - eauto.
Qed.

Lemma trimEnd_endsBlank b s :
  trimEnd s <> "" -> endsBlank_from b (trimEnd s) = false.
Proof.
  revert b. induction s as [|c s IH]; intros b H; [contradiction|].
  cbn [trimEnd] in *. destruct (trimEnd s) as [|d t] eqn:E.
  - destruct (isWhiteSpace c) eqn:Hc; [contradiction|].
    cbn [endsBlank_from]. exact Hc.
  - change (endsBlank_from (isWhiteSpace c) (String d t) = false).
    apply IH. discriminate.
Qed.

Lemma trim_shape s :
  trim s = ""
  \/ (startsBlank (trim s) = false /\ endsBlank (trim s) = false).
Proof.
  unfold trim.
  assert (Hs : trimStart s = ""
               \/ exists c t, trimStart s = String c t
                              /\ isWhiteSpace c = false).
  { induction s as [|c s IH]; [now left|]. cbn [trimStart].
    destruct (isWhiteSpace c) eqn:Hc; [exact IH|]. right. eauto. }
  destruct Hs as [->|(c & t & -> & Hc)]; [now left|]. right.
  destruct (trimEnd_head c t Hc) as (u & E). split.
  - rewrite E. exact Hc.
  - apply trimEnd_endsBlank. rewrite E. discriminate.
Qed.

(** X8 (the text the improve route sends back): whatever the model
    answered, the cleaned text holds no fence of three backquotes, and it
    is empty or has no white space at its start and at its end. *)
Theorem cleanUp_result text :
  includes (Improve.cleanUp text) "```" = false
  /\ (Improve.cleanUp text = ""
      \/ (startsBlank (Improve.cleanUp text) = false
          /\ endsBlank (Improve.cleanUp text) = false)).
Proof.
  split; [|apply trim_shape].
  unfold Improve.cleanUp.
  destruct (trim_part (Improve.stripLabel (removeAll "```" (trim text))))
    as (a & b & E).
  destruct (stripLabel_suffix (removeAll "```" (trim text))) as (a' & E').
  apply (includes_part a _ b). rewrite <- E.
  apply (includes_part a' _ ""). rewrite append_nil_r, <- E'.
  apply (removeAll_from_unfenced 0).
Qed.

(** X9 (fences inside the analysis): when the answer of the model starts
    with the json fence, the text handed to the JSON parser holds no fence
    of three backquotes at all: a fence inside a string value of the
    object is removed with the outer ones. *)
Theorem cleanedResponse_unfenced text :
  startsWith (trim text) "```json" = true ->
  includes (Analyze.cleanedResponse text) "```" = false.
Proof.
  intros H. unfold Analyze.cleanedResponse. rewrite H.
  apply (removeAll_from_unfenced 0).
Qed.

Lemma cleanedResponse_unfenced_witness :
  Analyze.cleanedResponse
    ("```json" ++ nl ++ "{" ++ dq ++ "tip" ++ dq ++ ": " ++ dq
     ++ "wrap code in ``` marks" ++ dq ++ "}" ++ nl ++ "```")
  = nl ++ "{" ++ dq ++ "tip" ++ dq ++ ": " ++ dq
    ++ "wrap code in  marks" ++ dq ++ "}" ++ nl
  /\ includes
       (Analyze.cleanedResponse
          ("```json" ++ nl ++ "{" ++ dq ++ "tip" ++ dq ++ ": " ++ dq
           ++ "wrap code in ``` marks" ++ dq ++ "}" ++ nl ++ "```"))
       "```" = false.
Proof.
  split; [reflexivity|].
  apply (cleanedResponse_unfenced
           ("```json" ++ nl ++ "{" ++ dq ++ "tip" ++ dq ++ ": " ++ dq
            ++ "wrap code in ``` marks" ++ dq ++ "}" ++ nl ++ "```")).
  reflexivity.
Defined.

End CleaningFacts.

(** ** Answers that are no JSON *)

Section RejectedAnswers.

Variable generateContent : GenerateContentParams -> GenerateOutcome.

(** A text whose first code unit is no white space and cannot start a
    value is no JSON text. *)
Lemma JSON_parse_bad_start c rest :
  isJsonWhiteSpace c = false -> canStartValue c = false ->
  JSON_parse (String c rest) = Throw (SyntaxError syntaxErrorMessage).
Proof.
  unfold canStartValue. intros Hw Hc.
  repeat (apply orb_false_iff in Hc; destruct Hc as [Hc ?]).
  unfold JSON_parse.
  replace (2 * String.length (String c rest) + 2)
    with (S (2 * String.length (String c rest) + 1)) by lia.
  cbn [value skipWs]. rewrite Hw.
  repeat match goal with
         | H : (nat_of_ascii c =? ?k) = false |- _ => rewrite H; clear H
         end.
  unfold number, unsignedNumber.
  repeat match goal with
         | H : _ = false |- _ => rewrite H; clear H
         end.
  reflexivity.
Qed.

Lemma json_space_is_space c :
  isWhiteSpace c = false -> isJsonWhiteSpace c = false.
Proof.
  assert (H : allAscii (fun c => implb (isJsonWhiteSpace c) (isWhiteSpace c))
              = true) by (vm_compute; reflexivity).
  pose proof (allAscii_spec _ H c) as E. cbv beta in E.
  intros Hc. rewrite Hc in E. now destruct (isJsonWhiteSpace c).
Qed.

(** X10 (an answer that is not fenced with the json tag): when the answer
    of the model, trimmed, does not start with the json fence and starts
    with a code unit that cannot start a JSON value (a plain fence of
    backquotes, or a sentence before the object), nothing is taken off it,
    and the analyze route answers with status 503 and the error "AI
    analysis failed", whatever follows in the answer. *)
Theorem unfenced_answer_is_rejected
    (session : Session) (r : Analyze.Request) (text : string)
    (c : ascii) (rest : string) :
  truthy (Analyze.resumeContent r) = true ->
  truthy (Analyze.targetRole r) = true ->
  generateContent (Analyze.paramsOf r) = Responds (Some text) ->
  trim text = String c rest ->
  startsWith (trim text) "```json" = false ->
  canStartValue c = false ->
  Analyze.cleanedResponse text = trim text
  /\ Analyze.POST generateContent (Some session) (Return r)
     = ({| status := 503;
           body := Failure "AI analysis failed" (Some syntaxErrorMessage) |},
        [Analyze.paramsOf r]).
Proof.
  intros Hc Ht Hg Htrim Hfence Hstart.
  assert (Hclean : Analyze.cleanedResponse text = trim text)
    by (unfold Analyze.cleanedResponse; now rewrite Hfence).
  split; [exact Hclean|].
  assert (Hws : isJsonWhiteSpace c = false).
  { apply json_space_is_space.
    destruct (trim_shape text) as [E|[E _]]; [congruence|].
    now rewrite Htrim in E. }
  assert (Hp : JSON_parse (Analyze.cleanedResponse text)
               = Throw (SyntaxError syntaxErrorMessage))
    by (rewrite Hclean, Htrim; now apply JSON_parse_bad_start).
  unfold Analyze.POST. rewrite Hc, Ht, Hg. cbn [negb orb].
  destruct text as [|d text]; [discriminate Htrim|].
  now rewrite Hp.
Qed.

End RejectedAnswers.

Section RejectedAnswerExamples.

Lemma unfenced_answer_is_rejected_witness :
  Analyze.POST
    (fun _ => Responds (Some ("```" ++ nl ++ analysisObject ++ nl ++ "```")))
    (Some "jane@example.org") (Return analyzeRequest)
  = ({| status := 503;
        body := Failure "AI analysis failed" (Some syntaxErrorMessage) |},
     [Analyze.paramsOf analyzeRequest]).
Proof.
  apply (unfenced_answer_is_rejected
           (fun _ => Responds
                       (Some ("```" ++ nl ++ analysisObject ++ nl ++ "```")))
           "jane@example.org" analyzeRequest
           ("```" ++ nl ++ analysisObject ++ nl ++ "```")
           "`" ("``" ++ nl ++ analysisObject ++ nl ++ "```"));
    vm_compute; reflexivity.
Defined.

End RejectedAnswerExamples.

(** ** The prompts *)

Section PromptFacts.

Lemma includes_head p b : includes (p ++ b) p = true.
Proof.
  apply includes_spec. now exists "", b.
Qed.

Lemma includes_app_r a b p : includes b p = true -> includes (a ++ b) p = true.
Proof.
  intros H. apply includes_spec in H. destruct H as (x & y & ->).
  apply includes_spec. exists (a ++ x), y. now rewrite append_assoc.
Qed.

(** X11 (what the prompts carry): for the two known actions the prompt of
    the improve route, and always the prompt of the analyze route, hold
    the resume text of the request as it is, with no escaping; for the
    action "chat-command" the prompt holds the command of the user as it
    is, too. *)
Theorem prompts_hold_the_resume (r : Improve.Request) (a : Analyze.Request) :
  strictEq (Improve.action r) "auto-improve" = true
  \/ strictEq (Improve.action r) "chat-command" = true ->
  includes (Improve.promptOf r) (template (Improve.resumeContent r)) = true
  /\ (strictEq (Improve.action r) "auto-improve" = false ->
      includes (Improve.promptOf r) (template (Improve.command r)) = true)
  /\ includes (Analyze.promptOf a) (template (Analyze.resumeContent a)) = true.
Proof.
  intros Hact. split; [|split].
  - unfold Improve.promptOf.
    destruct (strictEq (Improve.action r) "auto-improve") eqn:E1.
    + unfold Improve.autoImprovePrompt.
      do 5 apply includes_app_r. apply includes_head.
    + destruct Hact as [Hact|Hact]; [discriminate|]. rewrite Hact.
      unfold Improve.chatCommandPrompt.
      do 9 apply includes_app_r. apply includes_head.
  - intros E1. unfold Improve.promptOf. rewrite E1.
    destruct Hact as [Hact|Hact]; [congruence|]. rewrite Hact.
    unfold Improve.chatCommandPrompt.
    do 2 apply includes_app_r. apply includes_head.
  - unfold Analyze.promptOf.
    do 5 apply includes_app_r. apply includes_head.
Qed.

End PromptFacts.

(** ** The store, the upload and the read *)

Section StoreFacts.

Variable decodeURIComponent : string -> option string.
Variable parseBuffer : string -> Store.Upload.ParserEvent.

Lemma get_set_same m key value :
  Store.get (Store.set m key value) key = Some value.
Proof.
  induction m as [|[k v] m IH]; cbn [Store.set Store.get].
  - now rewrite String.eqb_refl.
  - destruct (String.eqb k key) eqn:E; cbn [Store.get].
    + now rewrite String.eqb_refl.
    + now rewrite E.
Qed.

Lemma get_set_other m key value key' :
  key <> key' ->
  Store.get (Store.set m key value) key' = Store.get m key'.
Proof.
  intros Hne. induction m as [|[k v] m IH]; cbn [Store.set Store.get].
  - apply String.eqb_neq in Hne. now rewrite Hne.
  - destruct (String.eqb_spec k key) as [->|E]; cbn [Store.get].
    + apply String.eqb_neq in Hne. now rewrite Hne.
    + now rewrite IH.
Qed.

Lemma toString_inj a b :
  Store.Upload.toString a = Store.Upload.toString b -> a = b.
Proof.
  unfold Store.Upload.toString. intros H.
  apply DecimalN.Unsigned.to_uint_inj.
  assert (E : Some (N.to_uint a) = Some (N.to_uint b))
    by (rewrite <- !NilEmpty.usu; now rewrite H).
  now injection E.
Qed.

Lemma same_refl v : Store.same v v = true.
Proof.
  destruct v; cbn; auto using String.eqb_refl.
Qed.

(** X12 (who may read a resume): the read route hands out a text exactly
    when the caller is signed in, the id was read, the store holds a resume
    under the id and the user id of that resume is strictly equal to the
    e-mail of the session; the text and the file name are then the stored
    ones. *)
Theorem read_gives_text_to_owner_only
    (g : Store.Global) (session : option Store.Session)
    (params : completion string) (text name : string) :
  Store.Read.body (Store.Read.GET g session params)
  = Store.Read.Found text name
  <-> exists sess resumeId m resume,
        session = Some sess /\ params = Return resumeId
        /\ g = Some m
        /\ Store.get m resumeId = Some resume
        /\ Store.same (Store.userId resume) (Store.emailOf sess) = true
        /\ text = Store.content resume /\ name = Store.fileName resume.
Proof.
  unfold Store.Read.GET. split.
  - destruct session as [sess|]; [|discriminate].
    destruct params as [resumeId|e]; [|discriminate].
    destruct g as [m|]; cbn [Store.storeOrNew Store.get]; [|discriminate].
    destruct (Store.get m resumeId) as [resume|] eqn:Eg; [|discriminate].
    destruct (Store.same (Store.userId resume) (Store.emailOf sess)) eqn:Es;
      cbn [negb Store.Read.body]; [|discriminate].
    intros [= <- <-]. exists sess, resumeId, m, resume. auto 10.
  - intros (sess & resumeId & m & resume & -> & -> & -> & Eg & Es & -> & ->).
    cbn [Store.storeOrNew]. now rewrite Eg, Es.
Qed.

(** What the read route answers once a resume is stored under the id. *)
Lemma read_stored m resumeId resume sess :
  Store.get m resumeId = Some resume ->
  Store.Read.GET (Some m) (Some sess) (Return resumeId)
  = if Store.same (Store.userId resume) (Store.emailOf sess)
    then {| Store.Read.status := 200;
            Store.Read.body := Store.Read.Found (Store.content resume)
                                                (Store.fileName resume) |}
    else {| Store.Read.status := 403;
            Store.Read.body := Store.Read.Failure "Unauthorized" None |}.
Proof.
  intros Eg. unfold Store.Read.GET. cbn [Store.storeOrNew]. rewrite Eg.
  now destruct (Store.same _ _).
Qed.

(** A successful upload, taken apart. *)
Lemma upload_success g session formData now isoNow response g'
      resumeId text name :
  Store.Upload.POST decodeURIComponent parseBuffer g session formData now
                    isoNow = (response, g') ->
  Store.Upload.body response = Store.Upload.Uploaded resumeId text name ->
  exists sess,
    session = Some sess
    /\ resumeId = Store.Upload.toString now
    /\ g' = Some (Store.set (Store.storeOrNew g) resumeId
                    {| Store.id := resumeId;
                       Store.userId := Store.emailOf sess;
                       Store.fileName := name;
                       Store.content := text;
                       Store.uploadedAt := isoNow |})
    /\ text <> "" /\ Store.Upload.status response = 200.
Proof.
  unfold Store.Upload.POST. intros H Hb.
  destruct session as [sess|];
    [|injection H as <- _; discriminate Hb].
  destruct formData as [[|[|c t]|file]|e];
    try (injection H as <- _; discriminate Hb).
  destruct (negb _); [injection H as <- _; discriminate Hb|].
  destruct (parseBuffer _) as [pdfData|t];
    [|injection H as <- _; discriminate Hb].
  destruct (Store.Upload.extractText _ _) as [[|c t]|];
    try (injection H as <- _; discriminate Hb).
  injection H as <- <-. cbn [Store.Upload.body] in Hb.
  injection Hb as <- <- <-. exists sess. cbn [Store.id].
  repeat split. discriminate.
Qed.

(** X13 (an upload can be read back by its owner only): after a successful
    upload, the read route answers the returned id with the extracted text
    and the file name for every session whose e-mail is strictly equal to
    that of the uploading session (two sessions without an e-mail count as
    equal), and with status 403 for every other session. *)
Theorem upload_then_read
    g session formData now isoNow response g' resumeId text name
    (reader : Store.Session) :
  Store.Upload.POST decodeURIComponent parseBuffer g session formData now
                    isoNow = (response, g') ->
  Store.Upload.body response = Store.Upload.Uploaded resumeId text name ->
  exists uploader,
    session = Some uploader
    /\ Store.Read.GET g' (Some reader) (Return resumeId)
       = if Store.same (Store.emailOf uploader) (Store.emailOf reader)
         then {| Store.Read.status := 200;
                 Store.Read.body := Store.Read.Found text name |}
         else {| Store.Read.status := 403;
                 Store.Read.body := Store.Read.Failure "Unauthorized" None |}.
Proof.
  intros H Hb.
  destruct (upload_success _ _ _ _ _ _ _ _ _ _ H Hb)
    as (sess & -> & -> & -> & _ & _).
  exists sess. split; [reflexivity|].
  rewrite (read_stored _ _ _ reader (get_set_same _ _ _)). reflexivity.
Qed.

(** X14 (the helper [storeResume]): [storeResume] writes into a store that
    is already there, and then the read route finds the resume; when the
    global store was never assigned, it writes into a fresh map that is
    thrown away, and the read route answers 404 as before. *)
Theorem storeResume_needs_a_store
    (g : Store.Global) (key : string) (data : Store.ResumeData)
    (sess : Store.Session) :
  Store.same (Store.userId data) (Store.emailOf sess) = true ->
  match g with
  | Some _ =>
      Store.Read.body
        (Store.Read.GET (Store.storeResume g key data) (Some sess)
                        (Return key))
      = Store.Read.Found (Store.content data) (Store.fileName data)
  | None =>
      Store.storeResume g key data = None
      /\ Store.Read.status
           (Store.Read.GET (Store.storeResume g key data) (Some sess)
                           (Return key)) = 404
  end.
Proof.
  intros Hs. destruct g as [m|]; cbn [Store.storeResume].
  - rewrite (read_stored _ _ _ sess (get_set_same _ _ _)). now rewrite Hs.
  - split; reflexivity.
Qed.

(** *** Documents without text *)

Lemma allChars_app f a b :
  allChars f (a ++ b) = allChars f a && allChars f b.
Proof.
  induction a as [|c a IH]; cbn [allChars String.append]; [reflexivity|].
  now rewrite IH, andb_assoc.
Qed.

Lemma trim_blank s : allChars isWhiteSpace s = true -> trim s = "".
Proof.
  unfold trim. induction s as [|c s IH]; [reflexivity|].
  cbn [allChars trimStart]. intros H. apply andb_true_iff in H.
  destruct H as [Hc Hs]. rewrite Hc. now apply IH.
Qed.

Lemma runsText_empty runs text :
  forallb Scanned.emptyRun runs = true ->
  Store.Upload.runsText decodeURIComponent runs text = Some text.
Proof.
  induction runs as [|run runs IH]; [reflexivity|].
  cbn [forallb Store.Upload.runsText]. intros H.
  apply andb_true_iff in H. destruct H as [Hr Hrs].
  unfold Scanned.emptyRun in Hr.
  destruct (Store.Upload.T run) as [[|c t]|]; try discriminate; auto.
Qed.

Lemma itemsText_empty items text :
  forallb Scanned.emptyItem items = true ->
  Store.Upload.itemsText decodeURIComponent items text = Some text.
Proof.
  induction items as [|item items IH]; [reflexivity|].
  cbn [forallb Store.Upload.itemsText]. intros H.
  apply andb_true_iff in H. destruct H as [Hi His].
  unfold Scanned.emptyItem in Hi.
  destruct (Store.Upload.R item) as [runs|]; [|auto].
  rewrite (runsText_empty _ _ Hi). auto.
Qed.

Lemma pagesText_empty pages text :
  forallb Scanned.emptyPage pages = true ->
  allChars isWhiteSpace text = true ->
  exists text',
    Store.Upload.pagesText decodeURIComponent pages text = Some text'
    /\ allChars isWhiteSpace text' = true.
Proof.
  revert text. induction pages as [|page pages IH]; intros text H Ht.
  - exists text. auto.
  - cbn [forallb Store.Upload.pagesText] in *.
    apply andb_true_iff in H. destruct H as [Hp Hps].
    unfold Scanned.emptyPage in Hp.
    destruct (Store.Upload.Texts page) as [items|]; [|auto].
    rewrite (itemsText_empty _ _ Hp). apply IH; [assumption|].
    rewrite allChars_app, Ht. reflexivity.
Qed.

Lemma extractText_noText pdfData :
  Scanned.noText pdfData = true ->
  Store.Upload.extractText decodeURIComponent pdfData = Some "".
Proof.
  unfold Scanned.noText, Store.Upload.extractText.
  destruct (Store.Upload.Pages pdfData) as [pages|]; [|reflexivity].
  intros H. destruct (pagesText_empty pages "" H eq_refl) as (t & -> & Ht).
  now rewrite (trim_blank _ Ht).
Qed.

(** X15 (a document of images): when a signed-in caller uploads a PDF file
    whose parsed pages bring no text at all, the upload route answers 400
    with the error "Failed to process PDF file" and the details "pdfData is
    not defined", and keeps the store as it was: the answer "No text found
    in PDF" that the source writes for this case is never sent, because
    building it throws. *)
Theorem upload_without_text
    g (sess : Store.Session) (file : Store.Upload.File) pdfData now isoNow :
  Store.Upload.type file = "application/pdf" ->
  parseBuffer (Store.Upload.bytes file) = Store.Upload.DataReady pdfData ->
  Scanned.noText pdfData = true ->
  Store.Upload.POST decodeURIComponent parseBuffer g (Some sess)
                    (Return (Store.Upload.FileEntry file)) now isoNow
  = (Store.Upload.processingFailure "pdfData is not defined"
                                    "ReferenceError" file, g).
Proof.
  intros Ht Hp Hn. unfold Store.Upload.POST.
  rewrite Ht, Hp, (extractText_noText _ Hn). reflexivity.
Qed.

(** X16 (a failed upload stores nothing): whenever the upload route answers
    with a status other than 200, the store is what it was; and when it
    answers 200, the store holds the resume under the returned id, which is
    the time of the upload. *)
Theorem upload_changes_store_on_success_only
    g session formData now isoNow :
  let '(response, g') :=
    Store.Upload.POST decodeURIComponent parseBuffer g session formData now
                      isoNow in
  (Store.Upload.status response <> 200 -> g' = g)
  /\ (Store.Upload.status response = 200 ->
      exists resume,
        Store.get (Store.storeOrNew g') (Store.Upload.toString now)
        = Some resume
        /\ Store.Upload.body response
           = Store.Upload.Uploaded (Store.Upload.toString now)
                                   (Store.content resume)
                                   (Store.fileName resume)).
Proof.
  unfold Store.Upload.POST.
  destruct session as [sess|]; [|split; [reflexivity | discriminate]].
  destruct formData as [[|[|c t]|file]|e];
    try (split; [reflexivity | discriminate]).
  destruct (negb _); [split; [reflexivity | discriminate]|].
  destruct (parseBuffer _) as [pdfData|t];
    [|split; [reflexivity | discriminate]].
  destruct (Store.Upload.extractText _ _) as [[|c t]|];
    try (split; [reflexivity | discriminate]).
  split; [intros H; now contradiction H|]. intros _.
  cbn [Store.storeOrNew Store.id]. rewrite get_set_same.
  eexists. split; reflexivity.
Qed.

(** X17 (two uploads in the same millisecond): the id of an upload is the
    time of the clock, so a second successful upload at the same time takes
    the place of the first: the read route then answers the common id with
    the text of the second upload for its owner, and the first text is
    gone. *)
Theorem same_time_uploads_collide
    g s1 f1 s2 f2 now iso1 iso2 r1 g1 r2 g2 id1 t1 n1 id2 t2 n2
    (reader : Store.Session) :
  Store.Upload.POST decodeURIComponent parseBuffer g s1 f1 now iso1
  = (r1, g1) ->
  Store.Upload.body r1 = Store.Upload.Uploaded id1 t1 n1 ->
  Store.Upload.POST decodeURIComponent parseBuffer g1 s2 f2 now iso2
  = (r2, g2) ->
  Store.Upload.body r2 = Store.Upload.Uploaded id2 t2 n2 ->
  id1 = id2
  /\ exists second,
       s2 = Some second
       /\ Store.Read.GET g2 (Some reader) (Return id1)
          = if Store.same (Store.emailOf second) (Store.emailOf reader)
            then {| Store.Read.status := 200;
                    Store.Read.body := Store.Read.Found t2 n2 |}
            else {| Store.Read.status := 403;
                    Store.Read.body := Store.Read.Failure "Unauthorized"
                                                          None |}.
Proof.
  intros H1 Hb1 H2 Hb2.
  destruct (upload_success _ _ _ _ _ _ _ _ _ _ H1 Hb1)
    as (u1 & -> & -> & -> & _ & _).
  destruct (upload_success _ _ _ _ _ _ _ _ _ _ H2 Hb2)
    as (u2 & -> & -> & -> & _ & _).
  split; [reflexivity|]. exists u2. split; [reflexivity|].
  rewrite (read_stored _ _ _ reader (get_set_same _ _ _)). reflexivity.
Qed.

(** X18 (uploads at different times): a later successful upload at another
    time of the clock leaves an earlier one as it was: the read route
    still answers the earlier id with the earlier text for its owner. *)
Theorem later_upload_keeps_earlier
    g s1 f1 now1 iso1 r1 g1 id1 t1 n1
    s2 f2 now2 iso2 r2 g2 id2 t2 n2 (reader : Store.Session) :
  now1 <> now2 ->
  Store.Upload.POST decodeURIComponent parseBuffer g s1 f1 now1 iso1
  = (r1, g1) ->
  Store.Upload.body r1 = Store.Upload.Uploaded id1 t1 n1 ->
  Store.Upload.POST decodeURIComponent parseBuffer g1 s2 f2 now2 iso2
  = (r2, g2) ->
  Store.Upload.body r2 = Store.Upload.Uploaded id2 t2 n2 ->
  id1 <> id2
  /\ Store.Read.GET g2 (Some reader) (Return id1)
     = Store.Read.GET g1 (Some reader) (Return id1).
Proof.
  intros Hne H1 Hb1 H2 Hb2.
  destruct (upload_success _ _ _ _ _ _ _ _ _ _ H1 Hb1)
    as (u1 & -> & -> & -> & _ & _).
  destruct (upload_success _ _ _ _ _ _ _ _ _ _ H2 Hb2)
    as (u2 & -> & -> & -> & _ & _).
  assert (Hid : Store.Upload.toString now2 <> Store.Upload.toString now1)
    by (intros E; apply Hne; symmetry; now apply toString_inj).
  split; [congruence|].
  unfold Store.Read.GET. cbn [Store.storeOrNew].
  now rewrite (get_set_other _ _ _ _ Hid).
Qed.

(** *** A run that cannot be decoded *)

Lemma runsText_fails runs run c t text :
  In run runs -> Store.Upload.T run = Some (String c t) ->
  decodeURIComponent (String c t) = None ->
  Store.Upload.runsText decodeURIComponent runs text = None.
Proof.
  intros Hin Ht Hd. revert text.
  induction runs as [|r runs IH]; intros text; [contradiction|].
  cbn [Store.Upload.runsText]. destruct Hin as [->|Hin].
  - now rewrite Ht, Hd.
  - destruct (Store.Upload.T r) as [[|c' t']|]; auto.
    destruct (decodeURIComponent (String c' t')); auto.
Qed.

Lemma itemsText_fails items item runs run c t text :
  In item items -> Store.Upload.R item = Some runs ->
  In run runs -> Store.Upload.T run = Some (String c t) ->
  decodeURIComponent (String c t) = None ->
  Store.Upload.itemsText decodeURIComponent items text = None.
Proof.
  intros Hin Hr Hrun Ht Hd. revert text.
  induction items as [|i items IH]; intros text; [contradiction|].
  cbn [Store.Upload.itemsText]. destruct Hin as [->|Hin].
  - now rewrite Hr, (runsText_fails _ _ _ _ _ Hrun Ht Hd).
  - destruct (Store.Upload.R i) as [rs|]; auto.
    destruct (Store.Upload.runsText decodeURIComponent rs text); auto.
Qed.

Lemma pagesText_fails pages page items item runs run c t text :
  In page pages -> Store.Upload.Texts page = Some items ->
  In item items -> Store.Upload.R item = Some runs ->
  In run runs -> Store.Upload.T run = Some (String c t) ->
  decodeURIComponent (String c t) = None ->
  Store.Upload.pagesText decodeURIComponent pages text = None.
Proof.
  intros Hin Hp Hitem Hr Hrun Ht Hd. revert text.
  induction pages as [|p pages IH]; intros text; [contradiction|].
  cbn [Store.Upload.pagesText]. destruct Hin as [->|Hin].
  - now rewrite Hp, (itemsText_fails _ _ _ _ _ _ _ Hitem Hr Hrun Ht Hd).
  - destruct (Store.Upload.Texts p) as [its|]; auto.
    destruct (Store.Upload.itemsText decodeURIComponent its text); auto.
Qed.

(** X23 (one run that cannot be decoded): when one text run of the parsed
    document, anywhere in it, is not a well-formed escaped text, the whole
    upload is answered with status 400 and the error "Failed to process PDF
    file" with the details "URI malformed", whatever the other runs hold,
    and nothing is stored. *)
Theorem one_bad_run_fails_the_upload
    g (sess : Store.Session) (file : Store.Upload.File) pdfData now isoNow
    pages page items item runs run c t :
  Store.Upload.type file = "application/pdf" ->
  parseBuffer (Store.Upload.bytes file) = Store.Upload.DataReady pdfData ->
  Store.Upload.Pages pdfData = Some pages ->
  In page pages -> Store.Upload.Texts page = Some items ->
  In item items -> Store.Upload.R item = Some runs ->
  In run runs -> Store.Upload.T run = Some (String c t) ->
  decodeURIComponent (String c t) = None ->
  Store.Upload.POST decodeURIComponent parseBuffer g (Some sess)
                    (Return (Store.Upload.FileEntry file)) now isoNow
  = (Store.Upload.processingFailure "URI malformed" "URIError" file, g).
Proof.
  intros Hty Hp Hpages Hin Ht Hitem Hr Hrun HT Hd.
  unfold Store.Upload.POST. rewrite Hty, Hp.
  unfold Store.Upload.extractText. rewrite Hpages.
  now rewrite (pagesText_fails _ _ _ _ _ _ _ _ _ Hin Ht Hitem Hr Hrun HT Hd).
Qed.

End StoreFacts.

(** ** The sections of the editor *)

Section EditorFacts.

Import Editor EditorSpec.

Lemma matchesAll_spec r s : matchesAll r s = true <-> matches r s.
Proof.
  revert r. induction s as [|c s IH]; intros r; cbn [matchesAll].
  - apply nullable_matches.
  - rewrite IH. apply deriv_matches.
Qed.

Lemma star_class_all P t :
  matches (Star (Class P)) t -> allChars P t = true.
Proof.
  intros H. remember (Star (Class P)) as R eqn:ER.
  induction H; try discriminate; injection ER as ->; [reflexivity|].
  match goal with M : matches (Class P) _ |- _ => inversion M; subst end.
  cbn [String.append allChars]. rewrite IHmatches2 by reflexivity.
  now rewrite andb_true_r.
Qed.

Lemma all_class_star P t :
  allChars P t = true -> matches (Star (Class P)) t.
Proof.
  induction t as [|c t IH]; [constructor|].
  cbn [allChars]. intros H. apply andb_true_iff in H. destruct H as [Hc Ht].
  change (String c t) with (String c "" ++ t).
  constructor; [now constructor | auto].
Qed.

Lemma matchesAll_plus_class P s :
  matchesAll (Plus (Class P)) s
  = match s with
    | EmptyString => false
    | String _ _ => allChars P s
    end.
Proof.
  apply eq_true_iff_eq. rewrite matchesAll_spec. split.
  - intros H. inversion H as [| |r1 r2 s1 s2 H1 H2| | | |]; subst.
    inversion H1; subst. cbn [String.append allChars].
    match goal with E : P _ = true |- _ => rewrite E end.
    now apply star_class_all.
  - destruct s as [|c s]; [discriminate|]. cbn [allChars]. intros H.
    apply andb_true_iff in H. destruct H as [Hc Hs].
    change (String c s) with (String c "" ++ s).
    constructor; [now constructor | now apply all_class_star].
Qed.

Lemma allChars_excludes P c s :
  P c = false -> allChars P s = true -> includes s (String c "") = false.
Proof.
  intros Hc. induction s as [|x s IH]; [reflexivity|].
  cbn [allChars includes]. intros H. apply andb_true_iff in H.
  destruct H as [Hx Hs]. rewrite (IH Hs), orb_false_r.
  apply prefix_cons_diff. congruence.
Qed.

Lemma isHeader_chars line :
  isHeader line
  = (3 <? String.length line) && allChars isHeaderChar line.
Proof.
  unfold isHeader, headerRegex. rewrite matchesAll_plus_class.
  destruct line as [|c line]; [reflexivity|].
  destruct (allChars isHeaderChar (String c line)) eqn:E.
  - rewrite (allChars_excludes isHeaderChar "|" _ eq_refl E).
    rewrite (allChars_excludes isHeaderChar "@" _ eq_refl E).
    cbn [negb andb]. now rewrite !andb_true_r.
  - now rewrite andb_false_r.
Qed.

(** X19 (what a header line is): a line passes the header test exactly
    when it has more than three code units and each of them is a capital
    letter A-Z or white space; the two further tests of the source, for a
    vertical bar and for an at sign, never decide anything. *)
Theorem header_test line :
  isHeader line
  = (3 <? String.length line) && allChars isHeaderChar line.
Proof.
  exact (isHeader_chars line).
Qed.

(** *** Texts without a header *)

Lemma pushed_no_section st :
  currentSection st = "" -> pushed st = parsedSections st.
Proof.
  unfold pushed. now intros ->.
Qed.

Lemma step_no_header st line :
  isHeader (trim line) = false ->
  currentSection (step st line) = currentSection st
  /\ parsedSections (step st line) = parsedSections st.
Proof.
  intros H. unfold step. rewrite H.
  destruct (trim line), (currentContent st); auto.
Qed.

Lemma fold_no_header lines st :
  Forall (fun l => isHeader (trim l) = false) lines ->
  currentSection (fold_left step lines st) = currentSection st
  /\ parsedSections (fold_left step lines st) = parsedSections st.
Proof.
  intros H. revert st. induction H as [|l lines Hl _ IH]; intros st; [auto|].
  cbn [fold_left]. destruct (IH (step st l)) as [E1 E2].
  destruct (step_no_header st l Hl) as [E3 E4]. split; congruence.
Qed.

(** X20 (a text without a header line): when no line of the text, once
    trimmed, passes the header test, the editor shows the five sections of
    its default template, whatever the text says. *)
Theorem text_without_header_gets_template content :
  Forall (fun l => isHeader (trim l) = false) (splitLines content) ->
  parseContentIntoSections content = defaultSections.
Proof.
  intros H. unfold parseContentIntoSections, parsedOf.
  destruct (fold_no_header _ initial H) as [E1 E2].
  now rewrite (pushed_no_section _ E1), E2.
Qed.

Lemma text_without_header_gets_template_witness :
  parseContentIntoSections
    ("Jane Doe" ++ lineFeed ++ "Experience" ++ lineFeed
     ++ "Built web services for five years.")
  = defaultSections.
Proof.
  apply (text_without_header_gets_template
           ("Jane Doe" ++ lineFeed ++ "Experience" ++ lineFeed
            ++ "Built web services for five years.")).
  apply Forall_forall. intros l Hl. vm_compute in Hl.
  repeat (destruct Hl as [<-|Hl]; [vm_compute; reflexivity|]).
  contradiction.
Defined.

(** *** What comes before the first header *)

Lemma splitLines_cons a : exists l ls, splitLines a = l :: ls.
Proof.
  destruct a as [|c a]; cbn [splitLines]; [eauto|].
  destruct (nat_of_ascii c =? 10); [eauto|].
  destruct (splitLines a); eauto.
Qed.

Lemma splitLines_app a b :
  splitLines (a ++ lineFeed ++ b) = (splitLines a ++ splitLines b)%list.
Proof.
  induction a as [|c a IH].
  - reflexivity.
  - cbn [String.append splitLines].
    destruct (nat_of_ascii c =? 10).
    + now rewrite IH.
    + rewrite IH. destruct (splitLines_cons a) as (l & ls & ->).
      reflexivity.
Qed.

Lemma step_alike st st' line :
  alike st st' -> alike (step st line) (step st' line).
Proof.
  intros [->|(E1 & E2 & E3 & E4)]; [now left|].
  unfold step. destruct (isHeader (trim line)).
  - left. now rewrite !pushed_no_section, E3, E4.
  - right. destruct (trim line), (currentContent st), (currentContent st');
      cbn [currentSection parsedSections]; auto.
Qed.

Lemma fold_alike lines st st' :
  alike st st' -> alike (fold_left step lines st) (fold_left step lines st').
Proof.
  revert st st'. induction lines as [|l lines IH]; intros st st' H; [exact H|].
  cbn [fold_left]. apply IH. now apply step_alike.
Qed.

(** X21 (what precedes the first header is dropped): the lines before the
    first header line of a text (a name, contact details) take no part in
    the sections: the text gives the same sections as the text without
    them. *)
Theorem text_before_first_header_is_dropped before rest :
  Forall (fun l => isHeader (trim l) = false) (splitLines before) ->
  parseContentIntoSections (before ++ lineFeed ++ rest)
  = parseContentIntoSections rest.
Proof.
  intros H. unfold parseContentIntoSections, parsedOf.
  rewrite splitLines_app, fold_left_app.
  destruct (fold_no_header _ initial H) as [E1 E2].
  assert (Ha : alike (fold_left step (splitLines before) initial) initial)
    by (right; auto).
  apply (fold_alike (splitLines rest)) in Ha.
  destruct Ha as [->|(F1 & F2 & F3 & F4)]; [reflexivity|].
  now rewrite !pushed_no_section, F3, F4.
Qed.

Lemma text_before_first_header_is_dropped_witness :
  parseContentIntoSections
    (("Jane Doe" ++ lineFeed ++ "jane@example.org") ++ lineFeed
     ++ ("SKILLS" ++ lineFeed ++ "Rocq"))
  = parseContentIntoSections ("SKILLS" ++ lineFeed ++ "Rocq").
Proof.
  apply (text_before_first_header_is_dropped
           ("Jane Doe" ++ lineFeed ++ "jane@example.org")
           ("SKILLS" ++ lineFeed ++ "Rocq")).
  apply Forall_forall. intros l Hl. vm_compute in Hl.
  repeat (destruct Hl as [<-|Hl]; [vm_compute; reflexivity|]).
  contradiction.
Defined.

(** *** The sections that come from the text *)

Lemma header_slug t :
  allChars isHeaderChar t = true ->
  forall b, allChars isSlugChar (replaceRuns_from b (toLowerCase t)) = true.
Proof.
  assert (Hall : allAscii (fun c =>
            implb (isHeaderChar c)
                  (if isWhiteSpace (toLowerChar c) then true
                   else isSlugChar (toLowerChar c))) = true)
    by (vm_compute; reflexivity).
  induction t as [|c t IH]; intros H b; [reflexivity|].
  cbn [allChars] in H. apply andb_true_iff in H. destruct H as [Hc Ht].
  pose proof (allAscii_spec _ Hall c) as E. cbv beta in E. rewrite Hc in E.
  cbn [toLowerCase replaceRuns_from].
  destruct (isWhiteSpace (toLowerChar c)).
  - destruct b; cbn [allChars]; rewrite ?IH; auto.
  - cbn [allChars]. cbn [implb] in E. rewrite E. now apply IH.
Qed.

Lemma join_nonempty sep l ls : l <> "" -> join sep (l :: ls) <> "".
Proof.
  intros H. unfold join. cbn [String.concat].
  destruct ls; [exact H|]. destruct l; [contradiction | discriminate].
Qed.

Lemma pushed_sound st : sound st -> Forall fromHeader (pushed st).
Proof.
  intros (Hp & Hs & Hc). unfold pushed.
  destruct (currentSection st) as [|c t] eqn:Es; [exact Hp|].
  destruct (currentContent st) as [|l ls] eqn:Ec; [exact Hp|].
  apply Forall_app. split; [exact Hp|]. constructor; [|constructor].
  destruct Hs as [Hs|Hs]; [discriminate|].
  unfold fromHeader, sectionOf. cbn [title content id editable].
  rewrite Es, Ec. repeat split.
  - exact Hs.
  - now apply join_nonempty.
  - apply header_slug. rewrite isHeader_chars in Hs.
    apply andb_true_iff in Hs. tauto.
Qed.

Lemma step_sound st line : sound st -> sound (step st line).
Proof.
  intros Hst. pose proof (pushed_sound st Hst) as Hpush.
  destruct Hst as (Hp & Hs & Hc). unfold step.
  destruct (isHeader (trim line)) eqn:Eh.
  - repeat split; cbn; auto.
  - destruct (trim line) as [|c t] eqn:El.
    + destruct (currentContent st) as [|l ls] eqn:Ec.
      * repeat split; auto. now rewrite Ec.
      * repeat split; cbn; auto.
    + repeat split; cbn [parsedSections currentSection currentContent]; auto.
      destruct (currentContent st); cbn; [discriminate | exact Hc].
Qed.

Lemma fold_sound lines st : sound st -> sound (fold_left step lines st).
Proof.
  revert st. induction lines as [|l lines IH]; intros st H; [exact H|].
  cbn [fold_left]. apply IH. now apply step_sound.
Qed.


End EditorFacts.

(** ** Examples for the store and the prompts *)

Section StoreExampleFacts.

Import StoreExamples.

Lemma prompts_hold_the_resume_witness :
  includes (Improve.promptOf (improveRequest (str "auto-improve") "Jane Doe"))
           "Jane Doe" = true.
Proof.
  apply (prompts_hold_the_resume
           (improveRequest (str "auto-improve") "Jane Doe") analyzeRequest).
  left. reflexivity.
Defined.

Lemma upload_then_read_witness :
  Store.Read.GET
    (snd (Store.Upload.POST decodeAscii parseExample None (Some jane)
            (Return (Store.Upload.FileEntry (pdfFile "cv.pdf" "text")))
            1700000000000%N "2023-11-14T22:13:20.000Z"))
    (Some jane) (Return "1700000000000")
  = {| Store.Read.status := 200;
       Store.Read.body := Store.Read.Found "Jane Doe Engineer" "cv.pdf" |}
  /\ Store.Read.status
       (Store.Read.GET
          (snd (Store.Upload.POST decodeAscii parseExample None (Some jane)
                  (Return (Store.Upload.FileEntry (pdfFile "cv.pdf" "text")))
                  1700000000000%N "2023-11-14T22:13:20.000Z"))
          (Some joe) (Return "1700000000000")) = 403.
Proof.
  split.
  - destruct (upload_then_read decodeAscii parseExample None (Some jane)
                (Return (Store.Upload.FileEntry (pdfFile "cv.pdf" "text")))
                1700000000000%N "2023-11-14T22:13:20.000Z"
                _ _ "1700000000000" "Jane Doe Engineer" "cv.pdf" jane
                eq_refl eq_refl) as (u & Hu & Hr).
    injection Hu as <-. exact Hr.
  - destruct (upload_then_read decodeAscii parseExample None (Some jane)
                (Return (Store.Upload.FileEntry (pdfFile "cv.pdf" "text")))
                1700000000000%N "2023-11-14T22:13:20.000Z"
                _ _ "1700000000000" "Jane Doe Engineer" "cv.pdf" joe
                eq_refl eq_refl) as (u & Hu & Hr).
    injection Hu as <-. exact (f_equal Store.Read.status Hr).
Defined.

Lemma storeResume_needs_a_store_witness :
  Store.storeResume None "42" resumeOfJane = None
  /\ Store.Read.status
       (Store.Read.GET (Store.storeResume None "42" resumeOfJane) (Some jane)
                       (Return "42")) = 404.
Proof.
  apply (storeResume_needs_a_store None "42" resumeOfJane jane).
  reflexivity.
Defined.

Lemma upload_without_text_witness :
  Store.Upload.POST decodeAscii parseExample None (Some jane)
    (Return (Store.Upload.FileEntry (pdfFile "scan.pdf" "scan")))
    1700000000000%N "2023-11-14T22:13:20.000Z"
  = (Store.Upload.processingFailure "pdfData is not defined"
       "ReferenceError" (pdfFile "scan.pdf" "scan"), None).
Proof.
  apply (upload_without_text decodeAscii parseExample None jane
           (pdfFile "scan.pdf" "scan") scannedDocument);
    reflexivity.
Defined.

Lemma same_time_uploads_collide_witness :
  Store.Read.status
    (Store.Read.GET
       (snd (Store.Upload.POST decodeAscii parseExample
               (snd (Store.Upload.POST decodeAscii parseExample None
                       (Some jane)
                       (Return (Store.Upload.FileEntry
                                  (pdfFile "jane.pdf" "text")))
                       1700000000000%N "2023-11-14T22:13:20.000Z"))
               (Some joe)
               (Return (Store.Upload.FileEntry (pdfFile "joe.pdf" "text")))
               1700000000000%N "2023-11-14T22:13:20.000Z"))
       (Some jane) (Return "1700000000000")) = 403.
Proof.
  destruct (same_time_uploads_collide decodeAscii parseExample None
              (Some jane)
              (Return (Store.Upload.FileEntry (pdfFile "jane.pdf" "text")))
              (Some joe)
              (Return (Store.Upload.FileEntry (pdfFile "joe.pdf" "text")))
              1700000000000%N "2023-11-14T22:13:20.000Z"
              "2023-11-14T22:13:20.000Z"
              _ _ _ _ "1700000000000" "Jane Doe Engineer" "jane.pdf"
              "1700000000000" "Jane Doe Engineer" "joe.pdf" jane
              eq_refl eq_refl eq_refl eq_refl) as (_ & u & Hu & Hr).
  injection Hu as <-. exact (f_equal Store.Read.status Hr).
Defined.

Lemma later_upload_keeps_earlier_witness :
  Store.Read.GET
    (snd (Store.Upload.POST decodeAscii parseExample
            (snd (Store.Upload.POST decodeAscii parseExample None
                    (Some jane)
                    (Return (Store.Upload.FileEntry
                               (pdfFile "jane.pdf" "text")))
                    1700000000000%N "2023-11-14T22:13:20.000Z"))
            (Some joe)
            (Return (Store.Upload.FileEntry (pdfFile "joe.pdf" "text")))
            1700000000001%N "2023-11-14T22:13:20.001Z"))
    (Some jane) (Return "1700000000000")
  = {| Store.Read.status := 200;
       Store.Read.body := Store.Read.Found "Jane Doe Engineer" "jane.pdf" |}.
Proof.
  destruct (later_upload_keeps_earlier decodeAscii parseExample None
              (Some jane)
              (Return (Store.Upload.FileEntry (pdfFile "jane.pdf" "text")))
              1700000000000%N "2023-11-14T22:13:20.000Z"
              _ _ "1700000000000" "Jane Doe Engineer" "jane.pdf"
              (Some joe)
              (Return (Store.Upload.FileEntry (pdfFile "joe.pdf" "text")))
              1700000000001%N "2023-11-14T22:13:20.001Z"
              _ _ "1700000000001" "Jane Doe Engineer" "joe.pdf" jane
              ltac:(discriminate) eq_refl eq_refl eq_refl eq_refl)
    as (_ & Hr).
  exact (eq_trans Hr eq_refl).
Defined.

Lemma one_bad_run_fails_the_upload_witness :
  Store.Upload.POST decodeAscii parseExample None (Some jane)
    (Return (Store.Upload.FileEntry (pdfFile "cv.pdf" "broken")))
    1700000000000%N "2023-11-14T22:13:20.000Z"
  = (Store.Upload.processingFailure "URI malformed" "URIError"
       (pdfFile "cv.pdf" "broken"), None).
Proof.
  apply (one_bad_run_fails_the_upload decodeAscii parseExample None jane
           (pdfFile "cv.pdf" "broken") brokenDocument
           1700000000000%N "2023-11-14T22:13:20.000Z"
           [textPage ["Jane%20Doe"; "100%"]]
           (textPage ["Jane%20Doe"; "100%"])
           [ {| Store.Upload.R :=
                  Some [ {| Store.Upload.T := Some "Jane%20Doe" |};
                         {| Store.Upload.T := Some "100%" |} ] |} ]
           {| Store.Upload.R :=
                Some [ {| Store.Upload.T := Some "Jane%20Doe" |};
                       {| Store.Upload.T := Some "100%" |} ] |}
           [ {| Store.Upload.T := Some "Jane%20Doe" |};
             {| Store.Upload.T := Some "100%" |} ]
           {| Store.Upload.T := Some "100%" |} "1" "00%");
    try reflexivity; cbn [In]; tauto.
Defined.

End StoreExampleFacts.
